(** * mythredds: subsetting and aggregation of remote gridded datasets

    A shallow embedding of [sfoda/dataio/datadownload/mythredds.py]
    (classes [GridDAP], [GetDAP] and [MFncdap]) together with the properties
    of its index search, multi-file stitching, retry control flow and
    append-position logic.

    Conventions of the embedding.
    - Physical values (coordinates, samples) and calendar timestamps are exact
      integers ([Z]); rounding is not part of the model.  The calendar
      conversions [num2pydate]/[date2num] are consumed as mutually inverse
      pure functions, so a time variable holds its timestamps directly.
    - numpy arrays are nested lists, tagged with their number of dimensions.
    - Index positions are [nat]; extents computed by subtraction ([nx], [ny],
      [nz], [nt]) are [Z], because the source lets them become negative.
    - Arrays are rectangular and the trailing (depth, y, x) extents of the
      arrays that are copied into one another agree; numpy's broadcasting is
      modelled on the leading axis only.
    - Python exceptions are values of [exn]; code that may raise, or that
      talks to the remote server, lives in the monad [M].
    - The retry helpers recurse without bound in the source; they take a
      [fuel] argument here and answer [Diverge] when it runs out.  The pause
      ([time.sleep]) between two attempts and the printed messages are not
      modelled. *)

From stdpp Require Import gmap strings list fin_maps pretty sorting.
From Stdlib Require Import ZArith Lia.

Local Open Scope Z_scope.

(** ** Exceptions, outcomes and the monad of remote computations *)

Inductive exn : Type :=
| TypeError
| ValueError
| KeyError
| IndexError
| AttributeError
| UnboundLocalError
| IOError
| Exception (msg : string).

(** The outcome of running a piece of code from a state of type [S]. *)
Inductive outcome (S A : Type) : Type :=
| Ok (a : A) (s : S)
| Raise (e : exn) (s : S)
| Diverge.

Arguments Ok {S A} a s.
Arguments Raise {S A} e s.
Arguments Diverge {S A}.

Definition M (S A : Type) : Type := S → outcome S A.

Definition ret {S A} (a : A) : M S A := λ s, Ok a s.

Definition raise {S A} (e : exn) : M S A := λ s, Raise e s.

Definition bind {S A B} (m : M S A) (k : A → M S B) : M S B :=
  λ s, match m s with
       | Ok a s' => k a s'
       | Raise e s' => Raise e s'
       | Diverge => Diverge
       end.

(** [try: m  except: h] with a bare [except], which catches everything. *)
Definition try_except {S A} (m : M S A) (h : M S A) : M S A :=
  λ s, match m s with
       | Ok a s' => Ok a s'
       | Raise _ s' => h s'
       | Diverge => Diverge
       end.

(** Lifting of a partial pure operation: [None] raises [e]. *)
Definition lift {S A} (e : exn) (o : option A) : M S A :=
  match o with
  | Some a => ret a
  | None => raise e
  end.

#[global] Instance M_ret {S} : MRet (M S) := λ A, ret.
#[global] Instance M_bind {S} : MBind (M S) := λ A B k m, bind m k.

(** ** Arrays *)

Definition datetime : Type := Z.

Inductive ndarray : Type :=
| A1 (a : list Z)
| A2 (a : list (list Z))
| A3 (a : list (list (list Z)))
| A4 (a : list (list (list (list Z)))).

Definition ndim (a : ndarray) : nat :=
  match a with
  | A1 _ => 1%nat
  | A2 _ => 2%nat
  | A3 _ => 3%nat
  | A4 _ => 4%nat
  end.

(** Shape of a (rectangular) array, read along the first element of every
    axis. *)
Definition shape (a : ndarray) : list nat :=
  match a with
  | A1 a => [length a]
  | A2 a => [length a; length (default [] (head a))]
  | A3 a =>
      let r := default [] (head a) in
      [length a; length r; length (default [] (head r))]
  | A4 a =>
      let r := default [] (head a) in
      let p := default [] (head r) in
      [length a; length r; length p; length (default [] (head p))]
  end.

(** [a.ravel()] *)
Definition ravel (a : ndarray) : list Z :=
  match a with
  | A1 a => a
  | A2 a => concat a
  | A3 a => concat (concat a)
  | A4 a => concat (concat (concat a))
  end.

(** The records of an array: [a[k]] for every [k] of the leading axis of
    an array of three or four dimensions; an array of fewer dimensions is
    one record. *)
Definition records (a : ndarray) : list ndarray :=
  match a with
  | A1 a => [A1 a]
  | A2 a => [A2 a]
  | A3 a => A2 <$> a
  | A4 a => A3 <$> a
  end.

(** [l[i:j]] for non-negative [i], [j]: empty when [j <= i], clipped at the
    end of [l]. *)
Definition slice {A} (i j : nat) (l : list A) : list A :=
  take (j - i)%nat (drop i l).

(** [np.zeros(n)] along one axis; a negative extent is a [ValueError]. *)
Definition zeros {A} (n : Z) (x : A) : option (list A) :=
  if decide (n < 0) then None else Some (replicate (Z.to_nat n) x).

Definition np_zeros3 (n0 n1 n2 : Z) : option (list (list (list Z))) :=
  r ← zeros n2 0; p ← zeros n1 r; zeros n0 p.

Definition np_zeros4 (n0 n1 n2 n3 : Z) : option (list (list (list (list Z)))) :=
  r ← zeros n3 0; p ← zeros n2 r; q ← zeros n1 p; zeros n0 q.

(** [data[ii,...] = rec]: an index past the end is an [IndexError]. *)
Definition set_row {A} (ii : nat) (rec : A) (data : list A) : option (list A) :=
  if decide (ii < length data)%nat then Some (<[ii := rec]> data) else None.

(** [data[p1:p2,...] = chunk] on the leading axis: the target slice is
    clipped to the array, the chunk must have as many rows as the clipped
    slice, or one row, which is then repeated; anything else is a
    [ValueError]. *)
Definition set_rows {A} (p1 p2 : nat) (chunk : list A) (data : list A)
  : option (list A) :=
  let lo := (p1 `min` length data)%nat in
  let hi := (p2 `min` length data)%nat in
  let n := (hi - lo)%nat in
  if decide (length chunk = n) then
    Some (take lo data ++ chunk ++ drop (lo + n) data)
  else
    match chunk with
    | [c] => Some (take lo data ++ replicate n c ++ drop (lo + n) data)
    | _ => None
    end.

(** ** CoordinateLocator *)

(** [np.argwhere(dist == m)] on a one-dimensional array, counting from [i]. *)
Fixpoint argwhere_from (i : nat) (m : Z) (dist : list Z) : list nat :=
  match dist with
  | [] => []
  | d :: r =>
      if decide (d = m) then i :: argwhere_from (S i) m r
      else argwhere_from (S i) m r
  end.

Definition argwhere (m : Z) (dist : list Z) : list nat := argwhere_from 0 m dist.

(** [np.argwhere(dist == m)] on a two-dimensional array: the (row, column)
    pairs in row-major order. *)
Fixpoint argwhere2_from (i : nat) (m : Z) (dist : list (list Z))
  : list (nat * nat) :=
  match dist with
  | [] => []
  | row :: r => map (pair i) (argwhere m row) ++ argwhere2_from (S i) m r
  end.

Definition argwhere2 (m : Z) (dist : list (list Z)) : list (nat * nat) :=
  argwhere2_from 0 m dist.

(** [dist.min()]; the minimum of an empty array is a [ValueError]. *)
Definition np_min (dist : list Z) : option Z :=
  match dist with
  | [] => None
  | d :: r => Some (foldr Z.min d r)
  end.

(** [find_nearest_1d(data, value)]:
    [dist = np.abs(data - value)], then
    [np.argwhere(dist == dist.min())[0][0]]. *)
Definition find_nearest_1d (data : list Z) (value : Z) : option nat :=
  let dist := map (λ d, Z.abs (d - value)) data in
  m ← np_min dist; head (argwhere m dist).

(** The depth axis calls [find_nearest_1d(zrange[k], self.Z)], that is with
    the scalar in first position: [dist = np.abs(value - data)]. *)
Definition find_nearest_1d_scalar_first (value : Z) (data : list Z) : option nat :=
  let dist := map (λ d, Z.abs (value - d)) data in
  m ← np_min dist; head (argwhere m dist).

(** [find_nearest_2d(xdata, ydata, xy)].  The source compares
    [sqrt((x - X)^2 + (y - Y)^2)]; the square root is injective and monotone
    on the non-negative numbers, so the cells equal to the minimum are those
    of the squared distance, which is what is computed here. *)
Definition find_nearest_2d (xdata ydata : list (list Z)) (xy : Z * Z)
  : option (list (nat * nat)) :=
  let dist :=
    zip_with (zip_with (λ x y, (xy.1 - x) ^ 2 + (xy.2 - y) ^ 2)) xdata ydata in
  m ← np_min (concat dist); Some (argwhere2 m dist).

(** ** Remote datasets, the output store and the world *)

(** An opened array store: its named variables.  A time variable is a
    one-dimensional variable of timestamps. *)
Record dataset : Type := { ds_variables : gmap string ndarray }.

(** A variable of the output store.  [SNew] is a variable that was created
    and never written; a record variable lies along the unlimited time
    dimension and a record that was never written reads as the fill value
    ([None]). *)
Inductive svar : Type :=
| SNew
| SAxis (v : list Z)
| SGrid (g : list (list Z))
| SRecs (rows : list (option ndarray)).

(** The output store.  [st_log] is a trace of the record assignments made on
    record variables, as (variable, record index) pairs, most recent first;
    it is not read by the program. *)
Record ncstore : Type := {
  st_vars : gmap string svar;
  st_log : list (string * nat)
}.

(** The part of the world the program changes: the number of requests sent
    so far to the remote server and the files of the local disk. *)
Record world : Type := {
  clock : nat;
  disk : gmap string ncstore
}.

(** A time bound as the caller may pass it. *)
Inductive tval : Type :=
| TStr (s : string)
| TDate (d : datetime)
| TOther.

(** The collaborators that are consumed at their interface.
    - [net n] tells whether the [n]-th request to the remote server succeeds;
    - [remote] are the datasets that [Dataset(name)] can reach;
    - [findNearest] is [sfoda.utils.othertime.findNearest], which is not part
      of this file's source: the index of the time nearest to a timestamp;
    - [strftime], [strptime] are the calendar formatting and parsing of
      [datetime] with the class's [tformat];
    - [date2index] is the store library's exact search of a timestamp in a
      time variable, [None] when it raises;
    - [get_coord_names] stands for [GetDAP.get_coord_names], the inference of
      (timecoord, xcoord, ycoord, zcoord) from a variable's metadata, which no
      property below depends on. *)
Record env : Type := {
  net : nat → bool;
  remote : gmap string dataset;
  findNearest : datetime → list datetime → option nat;
  strftime : datetime → string;
  strptime : string → option datetime;
  date2index : datetime → list datetime → option nat;
  get_coord_names :
    dataset → string → option (option string * string * string * option string)
}.

(** One request to the remote server. *)
Definition request (E : env) : M world () :=
  λ w, let w' := {| clock := S (clock w); disk := disk w |} in
       if net E (clock w) then Ok () w' else Raise IOError w'.

(** A remote read: a request, then the value, if the indices address one. *)
Definition remote_read {A} (E : env) (v : option A) : M world A :=
  request E;; lift IndexError v.

(** [Dataset(name)] on a remote file. *)
Definition Dataset (E : env) (name : string) : M world dataset :=
  request E;; lift IOError (remote E !! name).

(** [nc.variables[name]]; a missing name, [None] included, is a [KeyError]. *)
Definition variable (nc : dataset) (name : option string) : option ndarray :=
  n ← name; ds_variables nc !! n.

(** [hasvar(nc, var)] on the output store. *)
Definition hasvar (nc : ncstore) (var : option string) : bool :=
  match var with
  | Some v => bool_decide (is_Some (st_vars nc !! v))
  | None => false
  end.

(** [gettime(nc, timename)] on a remote dataset: the time variable is read
    from the server. *)
Definition gettime (E : env) (nc : dataset) (timename : option string)
  : M world (list datetime) :=
  t ← lift KeyError (variable nc timename);
  match t with
  | A1 v => remote_read E (Some v)
  | _ => raise ValueError
  end.

(** ** MFncdap: the multi-file time index *)

Module MFncdap.

Record t : Type := {
  ncfilelist : list string;
  timevar : option string;
  timelookup : gmap string (string * nat);
  time : list datetime
}.

(** [for ii,tt in enumerate(time): self._timelookup[tstr] = (f,ii)]; both
    branches of the source's test store the same pair. *)
Fixpoint record_times (E : env) (f : string) (ii : nat) (time : list datetime)
  (lookup : gmap string (string * nat)) : gmap string (string * nat) :=
  match time with
  | [] => lookup
  | tm :: r =>
      let tstr := strftime E tm in
      record_times E f (S ii) r
        (if bool_decide (is_Some (lookup !! tstr))
         then <[tstr := (f, ii)]> lookup
         else <[tstr := (f, ii)]> lookup)
  end.

(** The loop over the file list: every file is opened, its time axis read
    and flattened, appended to [timeall] and entered in the lookup. *)
Fixpoint scan_files (E : env) (timevar : option string) (files : list string)
  (lookup : gmap string (string * nat)) (timeall : list (list datetime))
  : M world (gmap string (string * nat) * list (list datetime)) :=
  match files with
  | [] => ret (lookup, timeall)
  | f :: r =>
      nc ← Dataset E f;
      tv ← lift KeyError (variable nc timevar);
      time ← remote_read E (Some (ravel tv));
      scan_files E timevar r (record_times E f 0 time lookup) (timeall ++ [time])
  end.

(** [np.array(timeall)]: the per-file axes must have one common length to
    form an array that can be sorted. *)
Definition np_array (timeall : list (list datetime)) : option (list (list datetime)) :=
  match timeall with
  | [] => Some []
  | r :: rs =>
      if forallb (λ x, bool_decide (length x = length r)) rs
      then Some timeall else None
  end.

(** [np.unique]: the sorted distinct elements of the flattened array. *)
Fixpoint insert_unique (x : Z) (l : list Z) : list Z :=
  match l with
  | [] => [x]
  | y :: r =>
      if decide (x < y) then x :: l
      else if decide (x = y) then l
      else y :: insert_unique x r
  end.

Definition np_unique (a : list (list Z)) : list Z :=
  foldr insert_unique [] (concat a).

(** [MFncdap.__init__(ncfilelist, timevar=...)] *)
Definition init (E : env) (files : list string) (timevar : option string)
  : M world t :=
  '(lookup, timeall) ← scan_files E timevar files ∅ [];
  a ← lift ValueError (np_array timeall);
  ret {| ncfilelist := files; timevar := timevar;
         timelookup := lookup; time := np_unique a |}.

(** [tslice_dict] is an [OrderedDict]: an association list in insertion
    order.  [if f not in d: d[f] = []] then [d[f].append(ti)]. *)
Fixpoint od_append (f : string) (ti : nat) (d : list (string * list nat))
  : list (string * list nat) :=
  match d with
  | [] => [(f, [ti])]
  | (g, vals) :: r =>
      if decide (g = f) then (g, vals ++ [ti]) :: r
      else (g, vals) :: od_append f ti r
  end.

(** [min(vals)], [max(vals)] of a list. *)
Definition py_min (vals : list nat) : option nat :=
  match vals with
  | [] => None
  | v :: r => Some (foldr Nat.min v r)
  end.

Definition py_max (vals : list nat) : option nat :=
  match vals with
  | [] => None
  | v :: r => Some (foldr Nat.max v r)
  end.

(** [MFncdap.__call__(time)]: the local indices, the file names and, per
    file in order of first use, the least and greatest local index. *)
Definition call (E : env) (self : t) (time : list datetime)
  : option (list nat * list string * list (string * (nat * nat))) :=
  hits ← mapM (λ tm, timelookup self !! strftime E tm) time;
  let fname := hits.*1 in
  let tind := hits.*2 in
  let grouped :=
    foldl (λ d '(ti, f), od_append f ti d) [] (zip tind fname) in
  tslice ← mapM (λ '(f, vals),
              lo ← py_min vals; hi ← py_max vals; Some (f, (lo, hi))) grouped;
  Some (tind, fname, tslice).

(** [get_filename_only] *)
Definition get_filename_only (self : t) : option string :=
  head (ncfilelist self).

End MFncdap.

(** ** GridDAP: index windows and retrieval *)

Module GridDAP.

(** The horizontal coordinates: [X] and [Y] are read together from the
    grid and are both one-dimensional or both two-dimensional. *)
Inductive grid : Type :=
| Grid1 (X Y : list Z)
| Grid2 (X Y : list (list Z)).

(** The attributes fixed at construction. *)
Record config : Type := {
  nc : dataset;
  ncfiles : list string;
  timecoord : option string;
  zcoord : option string;
  multifile : bool;
  graball : bool;
  XY : grid;
  Zc : list Z
}.

(** The attributes set by [get_indices]; [zwin] is [(z1, z2, nz)], which
    exists only once a depth coordinate was resolved. *)
Record window : Type := {
  x1 : nat; x2 : nat; y1 : nat; y2 : nat;
  nx : Z; ny : Z;
  zwin : option (nat * nat * Z)
}.

(** The attributes set by [get_time_indices]. *)
Record timewindow : Type := {
  MF : option MFncdap.t;
  time : list datetime;
  t1 : nat; t2 : nat;
  nt : Z
}.

(** The local coordinates kept for the writer. *)
Record locals : Type := {
  localtime : list datetime;
  localXY : grid;
  localZ : list Z
}.

Record t : Type := {
  conf : config;
  win : window;
  tw : timewindow;
  loc : locals
}.

Definition with_win (self : t) (w : window) : t :=
  {| conf := conf self; win := w; tw := tw self; loc := loc self |}.

Definition with_tw (self : t) (w : timewindow) : t :=
  {| conf := conf self; win := win self; tw := w; loc := loc self |}.

Definition with_loc (self : t) (l : locals) : t :=
  {| conf := conf self; win := win self; tw := tw self; loc := l |}.

Definition as_date (v : tval) : option datetime :=
  match v with
  | TDate d => Some d
  | _ => None
  end.

(** [get_time_indices(trange)] *)
Definition get_time_indices (E : env) (self : t)
  (trange : option (tval * tval)) : M world t :=
  '(time, mf) ←
    (if negb (multifile (conf self)) then
       tm ← gettime E (nc (conf self)) (timecoord (conf self));
       mret (tm, MF (tw self))
     else
       mf ← match MF (tw self) with
            | None => MFncdap.init E (ncfiles (conf self)) (timecoord (conf self))
            | Some mf => mret mf
            end;
       mret (MFncdap.time mf, Some mf));
  '(t1, t2) ←
    match trange with
    | None => mret (0%nat, length time)
    | Some (a, b) =>
        da ← lift TypeError (as_date a);
        i ← lift ValueError (findNearest E da time);
        db ← lift TypeError (as_date b);
        j ← lift ValueError (findNearest E db time);
        mret (i, j)
    end;
  let t2 := if decide (t1 = t2) then S t2 else t2 in
  mret (with_tw self {| MF := mf; time := time; t1 := t1; t2 := t2;
                        nt := Z.of_nat t2 - Z.of_nat t1 |}).

(** The horizontal part of [get_indices]: [(x1, x2, y1, y2)]. *)
Definition get_indices_xy (g : grid) (xrange yrange : option (Z * Z))
  : M world (nat * nat * nat * nat) :=
  match g with
  | Grid1 X Y =>
      '(x1, x2) ←
        match xrange with
        | None => mret (0%nat, length X)
        | Some xr =>
            a ← lift ValueError (find_nearest_1d X xr.1);
            b ← lift ValueError (find_nearest_1d X xr.2);
            mret (a, b)
        end;
      '(y1, y2) ←
        match yrange with
        | None => mret (0%nat, length Y)
        | Some yr =>
            a ← lift ValueError (find_nearest_1d Y yr.1);
            b ← lift ValueError (find_nearest_1d Y yr.2);
            mret (a `min` b, a `max` b)%nat
        end;
      mret (x1, x2, y1, y2)
  | Grid2 X Y =>
      match xrange, yrange with
      | Some xr, Some yr =>
          ind ← lift ValueError (find_nearest_2d X Y (xr.1, yr.1));
          '(y1, x1) ← lift IndexError (head ind);
          ind ← lift ValueError (find_nearest_2d X Y (xr.2, yr.2));
          '(y2, x2) ← lift IndexError (head ind);
          mret (x1, x2, y1, y2)
      | _, _ =>
          mret (0%nat, length (default [] (head X)), 0%nat, length Y)
      end
  end.

(** The depth part of [get_indices], run when [zcoord] is set. *)
Definition get_indices_z (Zc : list Z) (zrange : option (Z * Z))
  : M world (nat * nat * Z) :=
  '(z1, z2) ←
    match zrange with
    | None => mret (0%nat, length Zc)
    | Some zr =>
        z1 ← lift ValueError (find_nearest_1d_scalar_first zr.1 Zc);
        z2 ← lift ValueError (find_nearest_1d_scalar_first zr.2 Zc);
        mret (z1, if decide (z1 = z2) then S z2 else z2)
    end;
  mret (z1, z2, Z.of_nat z2 - Z.of_nat z1).

(** [get_indices(xrange, yrange, zrange)] *)
Definition get_indices (self : t) (xrange yrange zrange : option (Z * Z))
  : M world t :=
  '(x1, x2, y1, y2) ← get_indices_xy (XY (conf self)) xrange yrange;
  zw ← match zcoord (conf self) with
       | None => mret (zwin (win self))
       | Some _ => zw ← get_indices_z (Zc (conf self)) zrange; mret (Some zw)
       end;
  mret (with_win self {| x1 := x1; x2 := x2; y1 := y1; y2 := y2;
                         nx := Z.of_nat x2 - Z.of_nat x1;
                         ny := Z.of_nat y2 - Z.of_nat y1;
                         zwin := zw |}).

(** *** Reading a window *)

(** [a[y1:y2, x1:x2]] *)
Definition sub2 (w : window) (a : list (list Z)) : list (list Z) :=
  map (slice (x1 w) (x2 w)) (slice (y1 w) (y2 w) a).

(** [a[z1:z2, y1:y2, x1:x2]] *)
Definition sub3 (z1 z2 : nat) (w : window) (a : list (list (list Z)))
  : list (list (list Z)) :=
  map (sub2 w) (slice z1 z2 a).

(** The retry helper [get_2d(data)]: the argument is rebound to the slice
    that was read. *)
Fixpoint get_2d (E : env) (w : window) (a : list (list Z)) (fuel : nat)
  : M world ndarray :=
  match fuel with
  | O => λ _, Diverge
  | S fuel =>
      try_except (remote_read E (Some (A2 (sub2 w a)))) (get_2d E w a fuel)
  end.

Section Stepwise.
Context {R : Type} (E : env).
(** [read k] is the record [var[k, ...]] restricted to the window, when
    [k] addresses a record. *)
Variable read : nat → option R.

(** [data[ii,...] = nc.variables[varname][k, ...]] *)
Definition step_once (ii k : nat) (data : list R) : M world (list R) :=
  rec ← remote_read E (read k);
  lift IndexError (set_row ii rec data).

(** The body of the [try]: [for ii,tt in enumerate(range(tstart,t2))].
    It ends with the array, and with the time step [tt] at which an
    exception stopped it, if one did.  The array is updated in place, so
    the rows written before the exception stay written. *)
Fixpoint step_loop (ii : nat) (steps : list nat) (data : list R) (w : world)
  : list R * world * option nat :=
  match steps with
  | [] => (data, w, None)
  | k :: rest =>
      match step_once ii k data w with
      | Ok data' w' => step_loop (S ii) rest data' w'
      | Raise _ w' => (data, w', Some k)
      | Diverge => (data, w, Some k)
      end
  end.

(** [get_3d_step(data, tstart)] and [get_4d_step(data, tstart)]: on an
    exception the helper calls itself from the time step that failed. *)
Fixpoint get_step (t2 : nat) (fuel : nat) (data : list R) (tstart : nat)
  : M world (list R) :=
  match fuel with
  | O => λ _, Diverge
  | S fuel =>
      λ w, match step_loop 0 (seq tstart (t2 - tstart)) data w with
           | (data', w', None) => Ok data' w'
           | (data', w', Some k) => get_step t2 fuel data' k w'
           end
  end.
End Stepwise.

Definition get_3d_step (E : env) (w : window) (a : list (list (list Z)))
  (t2 fuel : nat) (data : list (list (list Z))) (tstart : nat)
  : M world (list (list (list Z))) :=
  get_step E (λ k, sub2 w <$> a !! k) t2 fuel data tstart.

Definition get_4d_step (E : env) (z1 z2 : nat) (w : window)
  (a : list (list (list (list Z))))
  (t2 fuel : nat) (data : list (list (list (list Z)))) (tstart : nat)
  : M world (list (list (list (list Z)))) :=
  get_step E (λ k, sub3 z1 z2 w <$> a !! k) t2 fuel data tstart.

(** The local coordinates stored at the end of [get_data_singlefile]. *)
Definition local_grid (w : window) (g : grid) : grid :=
  match g with
  | Grid1 X Y => Grid1 (slice (x1 w) (x2 w) X) (slice (y1 w) (y2 w) Y)
  | Grid2 X Y => Grid2 (sub2 w X) (sub2 w Y)
  end.

(** [get_data_singlefile(varname, nc, t1, t2)] *)
Definition get_data_singlefile (E : env) (fuel : nat) (self : t)
  (varname : string) (nc : dataset) (t1 t2 : nat) : M world (ndarray * t) :=
  let w := win self in
  let nt := nt (tw self) in
  var ← lift KeyError (ds_variables nc !! varname);
  '(data, lz) ←
    match var with
    | A1 _ => raise UnboundLocalError
    | A2 a =>
        data ← lift ValueError (np_zeros3 1 (ny w) (nx w));
        data ← get_2d E w a fuel;
        mret (data, localZ (loc self))
    | A3 a =>
        let stepwise : M world ndarray :=
          data ← lift ValueError (np_zeros3 nt (ny w) (nx w));
          data ← get_3d_step E w a t2 fuel data t1;
          mret (A3 data) in
        data ← try_except
          (if graball (conf self)
           then remote_read E (Some (A3 (map (sub2 w) (slice t1 t2 a))))
           else stepwise)
          stepwise;
        mret (data, localZ (loc self))
    | A4 a =>
        let stepwise : M world ndarray :=
          '(z1, z2, nz) ← lift AttributeError (zwin w);
          data ← lift ValueError (np_zeros4 nt nz (ny w) (nx w));
          data ← get_4d_step E z1 z2 w a t2 fuel data t1;
          mret (A4 data) in
        data ← try_except
          (if graball (conf self)
           then '(z1, z2, nz) ← lift AttributeError (zwin w);
                remote_read E (Some (A4 (map (sub3 z1 z2 w) (slice t1 t2 a))))
           else stepwise)
          stepwise;
        '(z1, z2, nz) ← lift AttributeError (zwin w);
        mret (data, slice z1 z2 (Zc (conf self)))
    end;
  mret (data, with_loc self {| localtime := localtime (loc self);
                               localXY := local_grid w (XY (conf self));
                               localZ := lz |}).

(** The retry helper [openfile(ff)] of [get_data_multifile]. *)
Fixpoint openfile (E : env) (fuel : nat) (ff : string) : M world dataset :=
  match fuel with
  | O => λ _, Diverge
  | S fuel => try_except (Dataset E ff) (openfile E fuel ff)
  end.

(** [data[p1:p2,...] = chunk]; a chunk with one dimension less than the
    output is one record, repeated over the rows addressed. *)
Definition assign_chunk (p1 p2 : nat) (chunk data : ndarray) : option ndarray :=
  match data, chunk with
  | A3 d, A3 c => A3 <$> set_rows p1 p2 c d
  | A4 d, A4 c => A4 <$> set_rows p1 p2 c d
  | A3 d, A2 c => A3 <$> set_rows p1 p2 [c] d
  | A4 d, A3 c => A4 <$> set_rows p1 p2 [c] d
  | _, _ => None
  end.

(** The loop [for ff in list(tslice_dict.keys())] of [get_data_multifile]. *)
Fixpoint fill_from_files (E : env) (fuel : nat) (varname : string)
  (tslice : list (string * (nat * nat))) (p1 : nat) (data : ndarray) (self : t)
  : M world (ndarray * t) :=
  match tslice with
  | [] => mret (data, self)
  | (ff, (t1, t2)) :: rest =>
      nc ← openfile E fuel ff;
      let p2 := (p1 + t2 - t1)%nat in
      '(chunk, self) ← get_data_singlefile E fuel self varname nc t1 (t2 + 1);
      data ← lift ValueError (assign_chunk p1 (p2 + 1) chunk data);
      fill_from_files E fuel varname rest (p2 + 1) data self
  end.

(** [get_data_multifile(varname)] *)
Definition get_data_multifile (E : env) (fuel : nat) (self : t)
  (varname : string) : M world (ndarray * t) :=
  let w := win self in
  let nt := nt (tw self) in
  data ←
    match zcoord (conf self) with
    | None => lift ValueError (A3 <$> np_zeros3 nt (ny w) (nx w))
    | Some _ =>
        '(z1, z2, nz) ← lift AttributeError (zwin w);
        lift ValueError (A4 <$> np_zeros4 nt nz (ny w) (nx w))
    end;
  mf ← lift TypeError (MF (tw self));
  '(tindex, ncurl, tslice_dict) ←
    lift KeyError (MFncdap.call E mf (localtime (loc self)));
  fill_from_files E fuel varname tslice_dict 0 data self.

(** [get_data(varname, xrange, yrange, zrange, trange)] *)
Definition get_data (E : env) (fuel : nat) (self : t) (varname : string)
  (xrange yrange zrange : option (Z * Z)) (trange : option (tval * tval))
  : M world (ndarray * t) :=
  self ← get_indices self xrange yrange zrange;
  self ← get_time_indices E self trange;
  let self :=
    with_loc self {| localtime := slice (t1 (tw self)) (t2 (tw self)) (time (tw self));
                     localXY := localXY (loc self);
                     localZ := localZ (loc self) |} in
  if negb (multifile (conf self)) then
    get_data_singlefile E fuel self varname (nc (conf self))
      (t1 (tw self)) (t2 (tw self))
  else
    get_data_multifile E fuel self varname.

End GridDAP.

(** ** Variable metadata and the string operations of [get_coord_names] *)

(** The metadata of a remote variable that [get_coord_names] reads: its
    dimension names and its [coordinates] attribute, if it has one.  Names
    are ASCII strings. *)
Record varinfo : Type := {
  dimensions : list string;
  coordinates : option string
}.

(** [c.isspace()] on an ASCII character: tab to carriage return, the four
    separators and the blank. *)
Definition isspace (c : Ascii.ascii) : bool :=
  let n := Ascii.N_of_ascii c in
  ((9 <=? n) && (n <=? 13) || (28 <=? n) && (n <=? 32))%N.

(** [s.split()]: the maximal runs of characters that are not whitespace;
    [cur] is the run being read. *)
Fixpoint str_split_from (cur : option string) (s : string) : list string :=
  match s with
  | EmptyString => option_list cur
  | String c r =>
      if isspace c then option_list cur ++ str_split_from None r
      else str_split_from (Some (default EmptyString cur +:+ String c EmptyString)) r
  end.

Definition str_split (s : string) : list string := str_split_from None s.

(** [s.lower()] *)
Definition lower_ascii (c : Ascii.ascii) : Ascii.ascii :=
  let n := Ascii.N_of_ascii c in
  if ((65 <=? n) && (n <=? 90))%N then Ascii.ascii_of_N (n + 32) else c.

Fixpoint str_lower (s : string) : string :=
  match s with
  | EmptyString => EmptyString
  | String c r => String (lower_ascii c) (str_lower r)
  end.

(** [sub in s] on strings. *)
Fixpoint str_in (sub s : string) : bool :=
  match s with
  | EmptyString => String.prefix sub s
  | String _ r => String.prefix sub s || str_in sub r
  end.

(** [l[i]] with Python's indices: a negative [i] counts from the end. *)
Definition py_index {A} (l : list A) (i : Z) : option A :=
  if decide (0 ≤ i) then l !! Z.to_nat i
  else if decide (- Z.of_nat (length l) ≤ i) then l !! Z.to_nat (Z.of_nat (length l) + i)
  else None.

(** ** GetDAP: the driver and the writer of the output store *)

Module GetDAP.

Record t : Type := {
  variables : list string;
  (** [getattr(self, vv)]: the remote name of a requested variable *)
  names : gmap string string;
  (** [getattr(self, '_%s' % vv)]: its retrieval object *)
  daps : gmap string GridDAP.t;
  multifile : bool;
  MF : option MFncdap.t;
  nc : dataset;
  (** [self._outnc], the path the open store handle refers to *)
  outnc : option string;
  tindex : nat * nat
}.

Definition with_daps (self : t) (d : gmap string GridDAP.t) : t :=
  {| variables := variables self; names := names self; daps := d;
     multifile := multifile self; MF := MF self; nc := nc self;
     outnc := outnc self; tindex := tindex self |}.

Definition with_nc (self : t) (d : dataset) : t :=
  {| variables := variables self; names := names self; daps := daps self;
     multifile := multifile self; MF := MF self; nc := d;
     outnc := outnc self; tindex := tindex self |}.

Definition with_outnc (self : t) (h : option string) : t :=
  {| variables := variables self; names := names self; daps := daps self;
     multifile := multifile self; MF := MF self; nc := nc self;
     outnc := h; tindex := tindex self |}.

Definition with_tindex (self : t) (ti : nat * nat) : t :=
  {| variables := variables self; names := names self; daps := daps self;
     multifile := multifile self; MF := MF self; nc := nc self;
     outnc := outnc self; tindex := ti |}.

(** [check_trange(trange)]: the first thing it does is [trange[0]]. *)
Definition check_trange (E : env) (trange : option (tval * tval))
  : M world (tval * tval) :=
  '(a, b) ← lift TypeError trange;
  match a with
  | TStr s1 =>
      t1 ← lift ValueError (strptime E s1);
      s2 ← lift TypeError (match b with TStr s2 => Some s2 | _ => None end);
      t2 ← lift ValueError (strptime E s2);
      mret (TDate t1, TDate t2)
  | TDate _ => mret (a, b)
  | TOther => raise (Exception "unknown time format")
  end.

(** [load_data(varname, xr, yr, zr, tr)] *)
Definition load_data (E : env) (fuel : nat) (self : t) (varname : string)
  (xr yr zr : option (Z * Z)) (tr : option (tval * tval))
  : M world (ndarray * t) :=
  ncvarname ← lift AttributeError (names self !! varname);
  dap ← lift AttributeError (daps self !! varname);
  '(data, dap) ← GridDAP.get_data E fuel dap ncvarname xr yr zr tr;
  mret (data, with_daps self (<[varname := dap]> (daps self))).

(** *** The output store *)

Definition empty_store : ncstore := {| st_vars := ∅; st_log := [] |}.

(** The store behind the handle [self._outnc]. *)
Definition read_disk (h : string) : M world ncstore :=
  λ w, match disk w !! h with
       | Some s => Ok s w
       | None => Raise IOError w
       end.

Definition the_store (self : t) : M world (string * ncstore) :=
  h ← lift AttributeError (outnc self);
  s ← read_disk h;
  mret (h, s).

Definition put_store (h : string) (s : ncstore) : M world () :=
  λ w, Ok () {| clock := clock w; disk := <[h := s]> (disk w) |}.

Definition set_var (s : ncstore) (name : string) (v : svar) : ncstore :=
  {| st_vars := <[name := v]> (st_vars s); st_log := st_log s |}.

(** The value the store library puts in a cell that was never written. *)
Definition fill_value : Z := 9969209968386869046778552952102584320.

(** [var[a:a+len(vals)] = vals] on a one-dimensional variable along the
    unlimited dimension; the axis grows as needed. *)
Definition write_axis (a : nat) (vals : list Z) (old : list Z) : list Z :=
  take a (old ++ replicate (a - length old) fill_value) ++ vals
    ++ drop (a + length vals) old.

(** [var[a:b,...] = data] on a record variable: the records of [data] go
    to the positions [a .. b-1]; an array with one dimension less than
    the variable stands for one record and is repeated over them. *)
Definition records_of (n : nat) (data : ndarray) : option (list ndarray) :=
  let recs := records data in
  if decide (length recs = n) then Some recs
  else match recs with
       | [r] => Some (replicate n r)
       | _ => None
       end.

Definition write_records (a : nat) (recs : list ndarray)
  (old : list (option ndarray)) : list (option ndarray) :=
  take a (old ++ replicate (a - length old) None) ++ (Some <$> recs)
    ++ drop (a + length recs) old.

(** [create_ncvar_fromvarname(varname, ...)]: nothing is done for a
    variable the store has; otherwise the remote variable of that name
    gives the layout of the new variable.  Dimensions are not kept apart
    from the variables that lie along them. *)
Definition create_ncvar_fromvarname (self : t) (varname : string) : M world () :=
  '(h, s) ← the_store self;
  if hasvar s (Some varname) then mret ()
  else
    lift KeyError (ds_variables (nc self) !! varname);;
    put_store h (set_var s varname SNew).

(** [self._outnc.variables[name][:] = value] for a coordinate variable. *)
Definition write_coord (self : t) (name : string) (value : svar) : M world () :=
  '(h, s) ← the_store self;
  lift KeyError (st_vars s !! name);;
  put_store h (set_var s name value).

(** [gettime(self._outnc, timecoord)] on the output store. *)
Definition stored_time (s : ncstore) (timecoord : string)
  : M world (list datetime) :=
  v ← lift KeyError (st_vars s !! timecoord);
  match v with
  | SNew => mret []
  | SAxis l => mret l
  | _ => raise ValueError
  end.

(** [write_time_var(tout, timecoord)] *)
Definition write_time_var (E : env) (self : t) (tout : list datetime)
  (timecoord : option string) : M world t :=
  '(h, s) ← the_store self;
  if hasvar s timecoord then
    tc ← lift KeyError timecoord;
    localtime ← stored_time s tc;
    t1 ← try_except
           (d ← lift IndexError (head tout);
            lift ValueError (date2index E d localtime))
           (d ← lift IndexError (head tout);
            l0 ← lift IndexError (head localtime);
            mret (if decide (d > l0) then 1%nat else 0%nat));
    let tindex := (t1, (t1 + length tout)%nat) in
    (if decide (length localtime < tindex.2)%nat
     then put_store h (set_var s tc (SAxis (write_axis tindex.1 tout localtime)))
     else mret ());;
    mret (with_tindex self tindex)
  else
    match timecoord with
    | Some tc => create_ncvar_fromvarname self tc
    | None =>
        if hasvar s (Some "time") then mret ()
        else put_store h (set_var s "time" SNew)
    end;;
    let tc := default "time" timecoord in
    '(h, s) ← the_store self;
    localtime ← stored_time s tc;
    put_store h (set_var s tc (SAxis (write_axis 0 tout localtime)));;
    mret (with_tindex self (0%nat, length tout)).

Definition coord_x (g : GridDAP.grid) : svar :=
  match g with
  | GridDAP.Grid1 X _ => SAxis X
  | GridDAP.Grid2 X _ => SGrid X
  end.

Definition coord_y (g : GridDAP.grid) : svar :=
  match g with
  | GridDAP.Grid1 _ Y => SAxis Y
  | GridDAP.Grid2 _ Y => SGrid Y
  end.

(** [self._outnc.variables[remotevar][tindex[0]:tindex[1],...] = data] *)
Definition write_data (self : t) (remotevar : string) (data : ndarray)
  : M world () :=
  '(h, s) ← the_store self;
  v ← lift KeyError (st_vars s !! remotevar);
  old ← match v with
        | SNew => mret []
        | SRecs rows => mret rows
        | _ => raise ValueError
        end;
  let '(a, b) := tindex self in
  recs ← lift ValueError (records_of (b - a) data);
  put_store h
    {| st_vars := <[remotevar := SRecs (write_records a recs old)]> (st_vars s);
       st_log := reverse ((λ i, (remotevar, i)) <$> seq a (length recs))
                   ++ st_log s |}.

(** The head of [write_var]: an existing file is opened for appending;
    otherwise a new file is created, unless a handle is already held. *)
Definition open_outfile (self : t) (outfile : string) : M world t :=
  λ w,
    if bool_decide (is_Some (disk w !! outfile)) then
      Ok (with_outnc self (Some outfile)) w
    else
      match outnc self with
      | None =>
          Ok (with_outnc self (Some outfile))
             {| clock := clock w; disk := <[outfile := empty_store]> (disk w) |}
      | Some _ => Ok self w
      end.

(** [write_var(outfile, var, data)] *)
Definition write_var (E : env) (self : t) (outfile : string) (var : string)
  (data : ndarray) : M world t :=
  (* Check if the file is open and/or exists *)
  self ← open_outfile self outfile;
  self ← (if multifile self then
            mf ← lift AttributeError (MF self);
            name ← lift IndexError (MFncdap.get_filename_only mf);
            d ← Dataset E name;
            mret (with_nc self d)
          else mret self);
  remotevar ← lift AttributeError (names self !! var);
  dapobj ← lift AttributeError (daps self !! var);
  '(timecoord, xcoord, ycoord, zcoord) ←
    lift ValueError (get_coord_names E (nc self) remotevar);
  (* Write the coordinate variables *)
  create_ncvar_fromvarname self xcoord;;
  write_coord self xcoord (coord_x (GridDAP.localXY (GridDAP.loc dapobj)));;
  create_ncvar_fromvarname self ycoord;;
  write_coord self ycoord (coord_y (GridDAP.localXY (GridDAP.loc dapobj)));;
  match zcoord with
  | Some zc =>
      create_ncvar_fromvarname self zc;;
      write_coord self zc (SAxis (GridDAP.localZ (GridDAP.loc dapobj)))
  | None => mret ()
  end;;
  (* Write the time variable *)
  self ← write_time_var E self (GridDAP.localtime (GridDAP.loc dapobj)) timecoord;
  (* Create the actual variable *)
  create_ncvar_fromvarname self remotevar;;
  (* Write to the variable *)
  write_data self remotevar data;;
  mret self.

(** The loop [for vv in self.variables] of [__call__]; [data] is the
    variable of that name, unbound before the first iteration. *)
Fixpoint call_loop (E : env) (fuel : nat) (self : t) (vars : list string)
  (xrange yrange zrange : option (Z * Z)) (trange : option (tval * tval))
  (outfile : option string) (data : option ndarray)
  : M world (option ndarray * t) :=
  match vars with
  | [] => mret (data, self)
  | vv :: rest =>
      '(d, self) ← load_data E fuel self vv xrange yrange zrange trange;
      self ← match outfile with
             | Some f => write_var E self f vv d
             | None => mret self
             end;
      call_loop E fuel self rest xrange yrange zrange trange outfile (Some d)
  end.

(** [__call__(xrange, yrange, trange, zrange=None, outfile=None)] *)
Definition call (E : env) (fuel : nat) (self : t)
  (xrange yrange : option (Z * Z)) (trange : option (tval * tval))
  (zrange : option (Z * Z)) (outfile : option string) : M world (ndarray * t) :=
  trange ← check_trange E trange;
  '(data, self) ←
    call_loop E fuel self (variables self) xrange yrange zrange (Some trange)
      outfile None;
  data ← lift UnboundLocalError data;
  mret (data, self).

(** [get_coord_names(varname)], on the metadata [vars] of the variables
    of [self._nc].  The names bound by neither the [try] nor the [except]
    are unbound at [xcoord0.lower()].  The writer consumes this inference
    through the field [get_coord_names] of [env]. *)
Definition get_coord_names {S} (vars : gmap string varinfo) (varname : string)
  : M S (option string * string * string * option string) :=
  v ← lift KeyError (vars !! varname);
  let dims := dimensions v in
  '(timecoord, zcoord, ycoord0, xcoord0) ←
    try_except
      (coordinates ← lift AttributeError (coordinates v);
       let coordlist := reverse (str_split coordinates) in
       d0 ← lift IndexError (py_index dims 0);
       d1 ← lift IndexError (py_index dims 1);
       c2 ← lift IndexError (py_index coordlist (-2));
       c1 ← lift IndexError (py_index coordlist (-1));
       mret (Some d0, Some d1, c2, c1))
      (match dims with
       | [a; b; c; d] => mret (Some a, Some b, c, d)
       | [a; b; c] => mret (Some a, None, b, c)
       | [a; b] => mret (None, None, a, b)
       | _ => raise UnboundLocalError
       end);
  (* Do a hackish check to see if x and y are in the right order *)
  let '(xcoord, ycoord) :=
    if str_in "lat" (str_lower xcoord0) || str_in "lon" (str_lower ycoord0)
    then (ycoord0, xcoord0) else (xcoord0, ycoord0) in
  (* Another hack... *)
  let '(xcoord, ycoord) :=
    if bool_decide (xcoord = "X") || bool_decide (ycoord = "Y")
    then ("Longitude", "Latitude") else (xcoord, ycoord) in
  mret (timecoord, xcoord, ycoord, zcoord).

End GetDAP.

(** ** Vocabulary of the properties *)

(** The world in which the store at [h] is [s]. *)
Definition with_store (w : world) (h : string) (s : ncstore) : world :=
  {| clock := clock w; disk := <[h := s]> (disk w) |}.

(** The world after [n] more requests. *)
Definition tick (n : nat) (w : world) : world :=
  {| clock := (n + clock w)%nat; disk := disk w |}.

(** A computation that leaves the local disk as it found it. *)
Definition keeps_disk {A} (m : M world A) : Prop :=
  ∀ w, match m w with
       | Ok _ w' | Raise _ w' => disk w' = disk w
       | Diverge => True
       end.


(** The append offset in the words of the specification: the exact
    position of the first new timestamp in the stored axis; failing that, 1
    if the first new timestamp is greater than the first stored one, and 0
    otherwise. *)
Definition spec_append_offset (E : env) (d : datetime) (stored : list datetime)
  : option nat :=
  match date2index E d stored with
  | Some i => Some i
  | None => l0 ← head stored; Some (if decide (d > l0) then 1%nat else 0%nat)
  end.

(** The time axis a file reports: what [MFncdap.scan_files] reads from it. *)
Definition file_times (E : env) (timevar : option string) (f : string)
  : option (list datetime) :=
  nc ← remote E !! f; ravel <$> variable nc timevar.

(** From request number [c] on, the first [k] requests fail and the next one
    succeeds. *)
Definition fails_until (E : env) (c k : nat) : Prop :=
  (∀ i, (i < k)%nat → net E (c + i)%nat = false) ∧ net E (c + k)%nat = true.



(** A block of a window: [n] consecutive records of the file [f], from the
    record [a] on, written [(f, a, n)]. *)
Definition block : Type := string * nat * nat.

(** The (file, local index) pairs of a block, in increasing order. *)
Definition block_hits (b : block) : list (string * nat) :=
  let '(f, a, n) := b in (λ i, (f, i)) <$> seq a n.

(** The records of a remote variable of three or four dimensions, cut to
    the window: [var[k, y1:y2, x1:x2]] or [var[k, z1:z2, y1:y2, x1:x2]] for
    every [k]. *)
Definition window_records (win : GridDAP.window) (var : ndarray)
  : option (list ndarray) :=
  match var with
  | A3 a => Some (A2 ∘ GridDAP.sub2 win <$> a)
  | A4 a =>
      '(z1, z2, _) ← GridDAP.zwin win;
      Some (A3 ∘ GridDAP.sub3 z1 z2 win <$> a)
  | _ => None
  end.

(** The rows of a block: its records, cut to the window, for a variable of
    [nd] dimensions. *)
Definition block_rows (E : env) (win : GridDAP.window) (nd : nat)
  (varname : string) (b : block) (c : list ndarray) : Prop :=
  ∃ nc var recs,
    remote E !! b.1.1 = Some nc
    ∧ ds_variables nc !! varname = Some var
    ∧ ndim var = nd
    ∧ window_records win var = Some recs
    ∧ (b.1.2 + b.2 ≤ length recs)%nat
    ∧ c = slice b.1.2 (b.1.2 + b.2) recs.

(** The rows the global time order expects for a window: for every
    timestamp, in order, the record its lookup designates. *)
Definition expected_rows (E : env) (win : GridDAP.window) (varname : string)
  (mf : MFncdap.t) (times : list datetime) : option (list ndarray) :=
  mapM (λ tm,
          '(f, ii) ← MFncdap.timelookup mf !! strftime E tm;
          nc ← remote E !! f;
          var ← ds_variables nc !! varname;
          recs ← window_records win var;
          recs !! ii) times.

(** The number of dimensions of the arrays a retrieval object handles. *)
Definition session_ndim (self : GridDAP.t) : nat :=
  match GridDAP.zcoord (GridDAP.conf self) with
  | Some _ => 4%nat
  | None => 3%nat
  end.

(** The grouping loop of [MFncdap.__call__], from the dictionary [d]. *)
Definition group (d : list (string * list nat)) (hits : list (string * nat))
  : list (string * list nat) :=
  foldl (λ d h, MFncdap.od_append h.1 h.2 d) d hits.

(** One iteration of the loop of [GetDAP.__call__], for the variable [vv]. *)
Definition call_step (E : env) (fuel : nat)
  (xrange yrange zrange : option (Z * Z)) (outfile : option string)
  (self : GetDAP.t) (vv : string) (trange : option (tval * tval))
  : M world (ndarray * GetDAP.t) :=
  '(d, self) ← GetDAP.load_data E fuel self vv xrange yrange zrange trange;
  self ← match outfile with
         | Some f => GetDAP.write_var E self f vv d
         | None => mret self
         end;
  mret (d, self).

(** ** Vocabulary of the further properties *)




(** The reasons for which [get_data_singlefile] raises before it sends any
    request: the variable is missing, it has one dimension, so that no
    branch binds [data], it has four dimensions and no depth window was
    resolved, or it has two dimensions and an extent of the window is
    negative. *)
Inductive unreadable (self : GridDAP.t) (nc : dataset) (varname : string)
  : exn → Prop :=
| unreadable_missing :
    ds_variables nc !! varname = None → unreadable self nc varname KeyError
| unreadable_one_dimension a :
    ds_variables nc !! varname = Some (A1 a) →
    unreadable self nc varname UnboundLocalError
| unreadable_no_depth a :
    ds_variables nc !! varname = Some (A4 a) →
    GridDAP.zwin (GridDAP.win self) = None →
    unreadable self nc varname AttributeError
| unreadable_negative_extent a :
    ds_variables nc !! varname = Some (A2 a) →
    GridDAP.nx (GridDAP.win self) < 0 ∨ GridDAP.ny (GridDAP.win self) < 0 →
    unreadable self nc varname ValueError.

(** A dictionary of the grouping loop of [MFncdap.__call__] in which the
    files are distinct and no file has an empty list of indices. *)
Definition well_grouped (d : list (string * list nat)) : Prop :=
  NoDup d.*1 ∧ Forall (λ g, g.2 ≠ []) d.

(** A coordinate variable that the writer can write: the store has it, or
    the remote dataset has a variable of that name to create it from. *)
Definition available (self : GetDAP.t) (s : ncstore) (name : string) : Prop :=
  is_Some (st_vars s !! name) ∨ is_Some (ds_variables (GetDAP.nc self) !! name).

(** The store after the coordinate variables were written. *)
Definition coords_written (dapobj : GridDAP.t) (xc yc : string)
  (zc : option string) (s : ncstore) : ncstore :=
  let g := GridDAP.localXY (GridDAP.loc dapobj) in
  let s2 := GetDAP.set_var (GetDAP.set_var s xc (GetDAP.coord_x g)) yc
              (GetDAP.coord_y g) in
  match zc with
  | Some z => GetDAP.set_var s2 z (SAxis (GridDAP.localZ (GridDAP.loc dapobj)))
  | None => s2
  end.

(** The world [w'] differs from [w] at most by the files that satisfy [F],
    and no file of [w] lost a variable or disappeared. *)
Definition grows_only (F : string → Prop) (w w' : world) : Prop :=
  (∀ f, ¬ F f → disk w' !! f = disk w !! f)
  ∧ (∀ f s, disk w !! f = Some s →
       ∃ s', disk w' !! f = Some s'
             ∧ ∀ name, is_Some (st_vars s !! name) → is_Some (st_vars s' !! name)).

(** A computation that, from [w], writes to the files that satisfy [F]
    only, and only adds to them; when it returns, its result satisfies
    [P]. *)
Definition writes_only {A} (F : string → Prop) (P : A → Prop) (m : M world A)
  (w : world) : Prop :=
  match m w with
  | Ok a w' => grows_only F w w' ∧ P a
  | Raise _ w' => grows_only F w w'
  | Diverge => True
  end.

(** ** Concrete instances used to run the model *)

Module Sample.

(** An exact search, the documented behaviour of [date2index] with
    [select='exact']: the position of the timestamp, if it is stored. *)
Definition date2index_exact (d : datetime) (l : list datetime) : option nat :=
  head (argwhere d l).

(** A nearest-timestamp search. *)
Definition nearest_time (d : datetime) (l : list datetime) : option nat :=
  find_nearest_1d l d.

(** A record of one cell. *)
Definition cell (k : Z) : list (list Z) := [[k]].

(** Two remote files of three records each; the time axis of [fileA] is
    not increasing. *)
Definition fileA : dataset :=
  {| ds_variables :=
       {[ "time" := A1 [0; 20; 10];
          "temp" := A3 [cell 100; cell 101; cell 102] ]} |}.

Definition fileB : dataset :=
  {| ds_variables :=
       {[ "time" := A1 [30; 40; 50];
          "temp" := A3 [cell 200; cell 201; cell 202] ]} |}.

(** Two files with increasing time axes that share the timestamp 20. *)
Definition fileC : dataset :=
  {| ds_variables :=
       {[ "time" := A1 [0; 10; 20];
          "temp" := A3 [cell 300; cell 301; cell 302] ]} |}.

Definition fileD : dataset :=
  {| ds_variables :=
       {[ "time" := A1 [20; 30; 40];
          "temp" := A3 [cell 400; cell 401; cell 402] ]} |}.

(** A file with a two-dimensional variable of 2 x 3 cells and two
    three-dimensional variables of 10 time steps. *)
Definition fileG : dataset :=
  {| ds_variables :=
       {[ "time" := A1 [0; 1; 2; 3; 4; 5; 6; 7; 8; 9];
          "lon" := A1 [0]; "lat" := A1 [0];
          "depth" := A2 [[1; 2; 3]; [4; 5; 6]];
          "ssh" := A3 (cell <$> [0; 1; 2; 3; 4; 5; 6; 7; 8; 9]);
          "temp" := A3 (cell <$> [20; 21; 22; 23; 24; 25; 26; 27; 28; 29]) ]} |}.

Definition env_with (net : nat → bool) : env :=
  {| net := net;
     remote := {[ "A" := fileA; "B" := fileB; "C" := fileC; "D" := fileD;
                  "G" := fileG ]};
     findNearest := nearest_time;
     strftime := pretty;
     strptime := λ _, None;
     date2index := date2index_exact;
     get_coord_names := λ _ _, Some (Some "time", "lon", "lat", None) |}.

(** The server answers every request. *)
Definition env_ok : env := env_with (λ _, true).

(** The server refuses the requests whose numbers are listed. *)
Definition env_failing (l : list nat) : env :=
  env_with (λ n, bool_decide (n ∉ l)).

(** The server refuses the first [k] requests. *)
Definition env_late (k : nat) : env := env_with (λ n, bool_decide (k ≤ n)%nat).

Definition w0 : world := {| clock := 0; disk := ∅ |}.

Definition window0 (x2 y2 : nat) : GridDAP.window :=
  {| GridDAP.x1 := 0; GridDAP.x2 := x2; GridDAP.y1 := 0; GridDAP.y2 := y2;
     GridDAP.nx := Z.of_nat x2; GridDAP.ny := Z.of_nat y2;
     GridDAP.zwin := None |}.

(** A retrieval object on the file [nc], with a window of [x2] by [y2]
    cells and a time window of [nt] records. *)
Definition dap (nc : dataset) (files : list string) (multi : bool)
  (X Y : list Z) (x2 y2 : nat) (nt : nat) : GridDAP.t :=
  {| GridDAP.conf :=
       {| GridDAP.nc := nc; GridDAP.ncfiles := files;
          GridDAP.timecoord := Some "time"; GridDAP.zcoord := None;
          GridDAP.multifile := multi; GridDAP.graball := true;
          GridDAP.XY := GridDAP.Grid1 X Y; GridDAP.Zc := [] |};
     GridDAP.win := window0 x2 y2;
     GridDAP.tw :=
       {| GridDAP.MF := None; GridDAP.time := []; GridDAP.t1 := 0;
          GridDAP.t2 := nt; GridDAP.nt := Z.of_nat nt |};
     GridDAP.loc :=
       {| GridDAP.localtime := []; GridDAP.localXY := GridDAP.Grid1 [] [];
          GridDAP.localZ := [] |} |}.

(** The same with a depth coordinate [Zc]. *)
Definition dap_with_depth (Zc : list Z) : GridDAP.t :=
  let d := dap fileG [] false [0] [0] 0 0 0 in
  {| GridDAP.conf :=
       {| GridDAP.nc := fileG; GridDAP.ncfiles := [];
          GridDAP.timecoord := Some "time"; GridDAP.zcoord := Some "depth";
          GridDAP.multifile := false; GridDAP.graball := true;
          GridDAP.XY := GridDAP.Grid1 [0] [0]; GridDAP.Zc := Zc |};
     GridDAP.win := GridDAP.win d; GridDAP.tw := GridDAP.tw d;
     GridDAP.loc := GridDAP.loc d |}.

(** The time index of the files C and D, as [MFncdap.__init__] builds it,
    and the one of the files A and B. *)
Definition mfCD : MFncdap.t :=
  {| MFncdap.ncfilelist := ["C"; "D"];
     MFncdap.timevar := Some "time";
     MFncdap.timelookup :=
       {[ "0" := ("C", 0%nat); "10" := ("C", 1%nat); "20" := ("D", 0%nat);
          "30" := ("D", 1%nat); "40" := ("D", 2%nat) ]};
     MFncdap.time := [0; 10; 20; 30; 40] |}.

Definition mfAB : MFncdap.t :=
  {| MFncdap.ncfilelist := ["A"; "B"];
     MFncdap.timevar := Some "time";
     MFncdap.timelookup :=
       {[ "0" := ("A", 0%nat); "20" := ("A", 1%nat); "10" := ("A", 2%nat);
          "30" := ("B", 0%nat); "40" := ("B", 1%nat); "50" := ("B", 2%nat) ]};
     MFncdap.time := [0; 10; 20; 30; 40; 50] |}.

(** A multi-file retrieval object on the files C and D whose window is the
    whole logical axis. *)
Definition dapCD : GridDAP.t :=
  let d := dap fileC ["C"; "D"] true [0] [0] 1 1 5 in
  {| GridDAP.conf := GridDAP.conf d; GridDAP.win := GridDAP.win d;
     GridDAP.tw :=
       {| GridDAP.MF := Some mfCD; GridDAP.time := [0; 10; 20; 30; 40];
          GridDAP.t1 := 0; GridDAP.t2 := 5; GridDAP.nt := 5 |};
     GridDAP.loc :=
       {| GridDAP.localtime := [0; 10; 20; 30; 40];
          GridDAP.localXY := GridDAP.Grid1 [] []; GridDAP.localZ := [] |} |}.

(** A retrieval object that has just loaded the window [times]. *)
Definition dap_loaded (times : list datetime) : GridDAP.t :=
  let d := dap fileG [] false [0] [0] 1 1 (length times) in
  {| GridDAP.conf := GridDAP.conf d; GridDAP.win := GridDAP.win d;
     GridDAP.tw := GridDAP.tw d;
     GridDAP.loc :=
       {| GridDAP.localtime := times; GridDAP.localXY := GridDAP.Grid1 [0] [0];
          GridDAP.localZ := [] |} |}.

Definition getdap (vars : list string) (d : GridDAP.t) (h : option string)
  : GetDAP.t :=
  {| GetDAP.variables := vars;
     GetDAP.names := {[ "ssh" := "ssh"; "temp" := "temp" ]};
     GetDAP.daps := {[ "ssh" := d; "temp" := d ]};
     GetDAP.multifile := false; GetDAP.MF := None;
     GetDAP.nc := GridDAP.nc (GridDAP.conf d);
     GetDAP.outnc := h; GetDAP.tindex := (0%nat, 0%nat) |}.

(** The store after the window 0..3 of [ssh] was written, and the world
    that holds it as [out.nc]. *)
Definition store1 : ncstore :=
  {| st_vars :=
       {[ "lon" := SAxis [0]; "lat" := SAxis [0];
          "time" := SAxis [0; 1; 2; 3];
          "ssh" := SRecs [Some (A2 (cell 0)); Some (A2 (cell 1));
                          Some (A2 (cell 2)); Some (A2 (cell 3))] ]};
     st_log := [("ssh", 3%nat); ("ssh", 2%nat); ("ssh", 1%nat); ("ssh", 0%nat)] |}.

Definition w1 : world := {| clock := 0; disk := {[ "out.nc" := store1 ]} |}.

(** What is kept of an outcome when it is displayed. *)
Definition value {S A} (o : outcome S A) : option A :=
  match o with
  | Ok a _ => Some a
  | _ => None
  end.

Definition after {S A} (o : outcome S A) : option S :=
  match o with
  | Ok _ s => Some s
  | _ => None
  end.

Definition raised {S A} (o : outcome S A) : option exn :=
  match o with
  | Raise e _ => Some e
  | _ => None
  end.

(** The content of the variable [var] of the file [file], and the trace
    of the record assignments on that file. *)
Definition stored (w : world) (file var : string) : option svar :=
  s ← disk w !! file; st_vars s !! var.

Definition trace (w : world) (file : string) : option (list (string * nat)) :=
  st_log <$> disk w !! file.


(** A retrieval object with [graball] off: the data are read step by
    step. *)
Definition stepwise (d : GridDAP.t) : GridDAP.t :=
  let c := GridDAP.conf d in
  {| GridDAP.conf :=
       {| GridDAP.nc := GridDAP.nc c; GridDAP.ncfiles := GridDAP.ncfiles c;
          GridDAP.timecoord := GridDAP.timecoord c;
          GridDAP.zcoord := GridDAP.zcoord c;
          GridDAP.multifile := GridDAP.multifile c; GridDAP.graball := false;
          GridDAP.XY := GridDAP.XY c; GridDAP.Zc := GridDAP.Zc c |};
     GridDAP.win := GridDAP.win d; GridDAP.tw := GridDAP.tw d;
     GridDAP.loc := GridDAP.loc d |}.

(** The metadata of some remote variables: dimensions in the usual
    order, in the order (time, x, y), named [X] and [Y], and with a
    [coordinates] attribute. *)
Definition meta : gmap string varinfo :=
  {[ "temp" := {| dimensions := ["time"; "depth"; "lat"; "lon"];
                  coordinates := None |};
     "wind" := {| dimensions := ["time"; "longitude"; "latitude"];
                  coordinates := None |};
     "u" := {| dimensions := ["MT"; "Y"; "X"]; coordinates := None |};
     "ssh" := {| dimensions := ["MT"; "Y"; "X"];
                 coordinates := Some "Longitude Latitude Date" |};
     "station" := {| dimensions := ["time"]; coordinates := None |} ]}.

End Sample.

(** * Properties *)

(** ** Reasoning in the monad *)

Ltac munfold :=
  unfold mbind, mret, M_bind, M_ret, bind, ret, raise, lift, try_except in *.

Lemma bind_Ok {S A B} (m : M S A) (k : A → M S B) s b s' :
  (m ≫= k) s = Ok b s' → ∃ a s1, m s = Ok a s1 ∧ k a s1 = Ok b s'.
Proof. munfold. destruct (m s) as [a s1 | |]; [eauto | done | done]. Qed.

Lemma bind_Ok_intro {S A B} (m : M S A) (k : A → M S B) s a s1 :
  m s = Ok a s1 → (m ≫= k) s = k a s1.
Proof. munfold. by intros ->. Qed.

Lemma lift_Ok {S A} e (o : option A) (s : S) a s' :
  lift e o s = Ok a s' → o = Some a ∧ s' = s.
Proof. munfold. destruct o; [ | done]. by intros [= -> ->]. Qed.

Lemma lift_Some {S A} e (a : A) (s : S) : lift e (Some a) s = Ok a s.
Proof. done. Qed.

Lemma ret_bind {S A B} (a : A) (k : A → M S B) (s : S) :
  (mret a ≫= k) s = k a s.
Proof. done. Qed.

Lemma ret_bind_raw {S A B} (a : A) (k : A → M S B) (s : S) :
  (ret a ≫= k) s = k a s.
Proof. done. Qed.

Lemma lift_Some_bind {S A B} e (a : A) (k : A → M S B) (s : S) :
  (lift e (Some a) ≫= k) s = k a s.
Proof. done. Qed.

Lemma bind_Raise_intro {S A B} (m : M S A) (k : A → M S B) s e s1 :
  m s = Raise e s1 → (m ≫= k) s = Raise e s1.
Proof. munfold. by intros ->. Qed.

(** ** Arrays *)

Section Arrays.

Lemma slice_length {A} (a n : nat) (l : list A) :
  (a + n ≤ length l)%nat → length (slice a (a + n) l) = n.
Proof.
  intros H. unfold slice. rewrite length_take, length_drop. lia.
Qed.

Lemma set_rows_middle {A} (done c rest : list A) n :
  length c = n → (n ≤ length rest)%nat →
  set_rows (length done) (length done + n) c (done ++ rest)
  = Some ((done ++ c) ++ drop n rest).
Proof.
  intros Hc Hn. unfold set_rows. rewrite length_app.
  rewrite Nat.min_l by lia. rewrite Nat.min_l by lia.
  replace (length done + n - length done)%nat with n by lia.
  rewrite decide_True by done. f_equal.
  rewrite take_app_length, drop_app_add', <- app_assoc; done.
Qed.

Lemma slice_lookup {A} (l : list A) n : ∀ a,
  (a + n ≤ length l)%nat →
  Forall2 (λ i x, l !! i = Some x) (seq a n) (slice a (a + n) l).
Proof.
  unfold slice. induction n as [|n IH]; intros a Ha.
  - replace (a + 0 - a)%nat with 0%nat by lia. constructor.
  - replace (a + S n - a)%nat with (S n) by lia.
    destruct (lookup_lt_is_Some_2 l a) as [x Hx]; [lia|].
    rewrite (drop_S _ _ _ Hx). simpl. constructor; [done|].
    specialize (IH (S a)). replace (S a + n - S a)%nat with n in IH by lia.
    apply IH. lia.
Qed.

Lemma Forall2_compose {A B C} (P : A → B → Prop) (Q : B → C → Prop)
    (R : A → C → Prop) l1 l2 l3 :
  (∀ a b c, P a b → Q b c → R a c) →
  Forall2 P l1 l2 → Forall2 Q l2 l3 → Forall2 R l1 l3.
Proof.
  intros H H1. revert l3.
  induction H1 as [|a b l1 l2 Hab H1 IH]; intros l3 H2.
  - apply Forall2_nil_inv_l in H2 as ->. constructor.
  - apply Forall2_cons_inv_l in H2 as (c & l3' & Hbc & H2 & ->).
    constructor; eauto.
Qed.

Lemma np_zeros3_nonneg n0 n1 n2 :
  0 ≤ n0 → 0 ≤ n1 → 0 ≤ n2 →
  np_zeros3 n0 n1 n2
  = Some (replicate (Z.to_nat n0)
            (replicate (Z.to_nat n1) (replicate (Z.to_nat n2) 0))).
Proof.
  intros H0 H1 H2. unfold np_zeros3, zeros.
  rewrite (decide_False (P := n2 < 0)) by lia. simpl.
  rewrite (decide_False (P := n1 < 0)) by lia. simpl.
  by rewrite (decide_False (P := n0 < 0)) by lia.
Qed.

Lemma slice_fmap {A B} (f : A → B) i j (l : list A) :
  slice i j (f <$> l) = f <$> slice i j l.
Proof. unfold slice. by rewrite fmap_take, fmap_drop. Qed.

Lemma set_rows_fmap {A B} (f : A → B) p1 p2 (c d : list A) :
  set_rows p1 p2 (f <$> c) (f <$> d)
  = fmap (M := list) f <$> set_rows p1 p2 c d.
Proof.
  unfold set_rows. rewrite !length_fmap.
  destruct (decide (length c = _)) as [Hc|Hc].
  - simpl. by rewrite !fmap_app, fmap_take, fmap_drop.
  - destruct c as [|c0 [|c1 c]]; [done| |done]. simpl.
    by rewrite !fmap_app, fmap_take, fmap_drop, fmap_replicate.
Qed.

Lemma np_zeros4_nonneg n0 n1 n2 n3 :
  0 ≤ n0 → 0 ≤ n1 → 0 ≤ n2 → 0 ≤ n3 →
  np_zeros4 n0 n1 n2 n3
  = Some (replicate (Z.to_nat n0)
            (replicate (Z.to_nat n1)
               (replicate (Z.to_nat n2) (replicate (Z.to_nat n3) 0)))).
Proof.
  intros H0 H1 H2 H3. unfold np_zeros4, zeros.
  rewrite (decide_False (P := n3 < 0)) by lia. simpl.
  rewrite (decide_False (P := n2 < 0)) by lia. simpl.
  rewrite (decide_False (P := n1 < 0)) by lia. simpl.
  by rewrite (decide_False (P := n0 < 0)) by lia.
Qed.

End Arrays.

(** ** C3: index windows *)









(** A depth range whose two bounds resolve to the same level, on the depth
    axis [0, 10, 20]: the window is widened to one level. *)
Example depth_window_is_widened :
  (GridDAP.zwin ∘ GridDAP.win) <$>
    Sample.value (GridDAP.get_indices (Sample.dap_with_depth [0; 10; 20])
                    None None (Some (10, 12)) Sample.w0)
  = Some (Some (1%nat, 2%nat, 1)).
Proof. vm_compute. reflexivity. Qed.

(** ** C9: retry without bound *)

Section Retry.
Context (E : env).

Lemma request_ok w : net E (clock w) = true → request E w = Ok () (tick 1 w).
Proof. intros H. unfold request. by rewrite H. Qed.

Lemma request_fail w :
  net E (clock w) = false → request E w = Raise IOError (tick 1 w).
Proof. intros H. unfold request. by rewrite H. Qed.

Lemma fails_until_0 c : fails_until E c 0 → net E c = true.
Proof. intros [_ H]. by rewrite Nat.add_0_r in H. Qed.

Lemma fails_until_S c k :
  fails_until E c (S k) → net E c = false ∧ fails_until E (S c) k.
Proof.
  intros [Hf Ht]. split.
  - specialize (Hf 0%nat). rewrite Nat.add_0_r in Hf. apply Hf. lia.
  - split.
    + intros i Hi. replace (S c + i)%nat with (c + S i)%nat by lia.
      apply Hf. lia.
    + by replace (S c + k)%nat with (c + S k)%nat by lia.
Qed.


Lemma tick_tick n m w : tick n (tick m w) = tick (n + m) w.
Proof. unfold tick. simpl. f_equal. lia. Qed.

(** A generic retry loop: [try: op  except: retry]. *)
Section Loop.
Context {A : Type} (op : M world A) (loop : nat → M world A) (a : A).
Hypothesis loop_0 : ∀ w, loop 0%nat w = Diverge.
Hypothesis loop_S : ∀ fuel, loop (S fuel) = try_except op (loop fuel).
Hypothesis op_ok : ∀ w, net E (clock w) = true → op w = Ok a (tick 1 w).
Hypothesis op_fail :
  ∀ w, net E (clock w) = false → ∃ e, op w = Raise e (tick 1 w).

Lemma loop_retries k : ∀ w fuel,
  fails_until E (clock w) k → (k < fuel)%nat →
  loop fuel w = Ok a (tick (S k) w).
Proof.
  induction k as [|k IH]; intros w fuel Hk Hfuel;
    (destruct fuel as [|fuel]; [lia|]); rewrite loop_S; unfold try_except.
  - by rewrite op_ok by by apply fails_until_0.
  - apply fails_until_S in Hk as [Hf Hk].
    destruct (op_fail w Hf) as [e ->].
    rewrite (IH (tick 1 w) fuel) by (done || lia).
    by rewrite tick_tick, Nat.add_1_r.
Qed.

End Loop.

Lemma Dataset_ok ff nc w :
  remote E !! ff = Some nc → net E (clock w) = true →
  Dataset E ff w = Ok nc (tick 1 w).
Proof.
  intros Hr Hn. unfold Dataset.
  rewrite (bind_Ok_intro _ _ _ _ _ (request_ok _ Hn)). by rewrite Hr.
Qed.

Lemma Dataset_fail ff w :
  net E (clock w) = false → ∃ e, Dataset E ff w = Raise e (tick 1 w).
Proof.
  intros Hn. exists IOError. unfold Dataset.
  by rewrite (bind_Raise_intro _ _ _ _ _ (request_fail _ Hn)).
Qed.

Lemma remote_read_ok {A} (v : A) w :
  net E (clock w) = true → remote_read E (Some v) w = Ok v (tick 1 w).
Proof.
  intros Hn. unfold remote_read.
  by rewrite (bind_Ok_intro _ _ _ _ _ (request_ok _ Hn)).
Qed.

Lemma remote_read_fail {A} (v : option A) w :
  net E (clock w) = false → remote_read E v w = Raise IOError (tick 1 w).
Proof.
  intros Hn. unfold remote_read.
  by rewrite (bind_Raise_intro _ _ _ _ _ (request_fail _ Hn)).
Qed.

Lemma openfile_retries ff nc k w fuel :
  remote E !! ff = Some nc →
  fails_until E (clock w) k → (k < fuel)%nat →
  GridDAP.openfile E fuel ff w = Ok nc (tick (S k) w).
Proof.
  intros Hr. apply (loop_retries (Dataset E ff) (λ f, GridDAP.openfile E f ff));
    [done| |by apply Dataset_fail].
  intros. by apply Dataset_ok.
Qed.





End Retry.

Section StepRetry.
Context (E : env) {R : Type} (read : nat → option R) (t2 : nat).

Lemma step_once_ok ii k data rec w :
  net E (clock w) = true → read k = Some rec → (ii < length data)%nat →
  GridDAP.step_once E read ii k data w = Ok (<[ii := rec]> data) (tick 1 w).
Proof.
  intros Hn Hr Hi. unfold GridDAP.step_once. rewrite Hr.
  rewrite (bind_Ok_intro _ _ _ _ _ (remote_read_ok E rec w Hn)).
  unfold set_row. by rewrite decide_True.
Qed.







End StepRetry.

(** *** Transport failures stay inside the retrieval *)







Section Hidden.
Context (E : env).






End Hidden.



(** The server refuses everything: the helper runs out of any fuel. *)
Example openfile_server_down :
  GridDAP.openfile (Sample.env_with (λ _, false)) 50 "A" Sample.w0 = Diverge.
Proof. vm_compute. reflexivity. Qed.

(** ** C4: the aggregated time index *)

Section Aggregator.
Context (E : env).

Lemma record_times_eq f ii ts lk :
  MFncdap.record_times E f ii ts lk
  = match ts with
    | [] => lk
    | tm :: r => MFncdap.record_times E f (S ii) r (<[strftime E tm := (f, ii)]> lk)
    end.
Proof. destruct ts; [done|]. simpl. by case_bool_decide. Qed.

Lemma record_times_miss f ii ts lk k :
  (∀ t', t' ∈ ts → strftime E t' ≠ k) →
  MFncdap.record_times E f ii ts lk !! k = lk !! k.
Proof.
  revert ii lk. induction ts as [|tm r IH]; intros ii lk Hk; [done|].
  rewrite record_times_eq, IH.
  - apply lookup_insert_ne, Hk. left.
  - intros t' Ht'. apply Hk. by right.
Qed.

Lemma record_times_hit f ii ts lk jj t :
  ts !! jj = Some t →
  (∀ kk t', (jj < kk)%nat → ts !! kk = Some t' → strftime E t' ≠ strftime E t) →
  MFncdap.record_times E f ii ts lk !! strftime E t = Some (f, (ii + jj)%nat).
Proof.
  revert ii lk jj. induction ts as [|tm r IH]; intros ii lk jj Hj Hlast; [done|].
  rewrite record_times_eq. destruct jj as [|jj]; simpl in Hj.
  - injection Hj as ->. rewrite record_times_miss.
    + rewrite lookup_insert_eq. do 2 f_equal. lia.
    + intros t' [kk Hkk]%list_elem_of_lookup. apply (Hlast (S kk)); [lia|done].
  - rewrite (IH _ _ jj Hj).
    + do 2 f_equal. lia.
    + intros kk t' Hlt Hkk. apply (Hlast (S kk)); [lia|done].
Qed.

(** What [scan_files] computes, when it ends without an exception. *)
Lemma scan_files_Ok tv files lk ta w lk' ta' w' :
  MFncdap.scan_files E tv files lk ta w = Ok (lk', ta') w' →
  ∃ tss, Forall2 (λ f ts, file_times E tv f = Some ts) files tss
         ∧ ta' = ta ++ tss
         ∧ lk' = foldl (λ l ft, MFncdap.record_times E ft.1 0 ft.2 l) lk
                   (zip files tss).
Proof.
  revert lk ta w. induction files as [|f r IH]; intros lk ta w H; simpl in H.
  - injection H as <- <- _. exists []. by rewrite app_nil_r.
  - apply bind_Ok in H as (nc & s1 & H1 & H).
    apply bind_Ok in H1 as (? & s0 & _ & H1). apply lift_Ok in H1 as [H1 ->].
    apply bind_Ok in H as (tv0 & s2 & H2 & H). apply lift_Ok in H2 as [H2 ->].
    apply bind_Ok in H as (ts & s3 & H3 & H).
    apply bind_Ok in H3 as (? & s4 & _ & H3). apply lift_Ok in H3 as [[= <-] ->].
    apply IH in H as (tss & Hm & -> & ->).
    exists (ravel tv0 :: tss). split; [|split].
    + constructor; [|done]. unfold file_times. rewrite H1. simpl.
      by rewrite H2.
    + by rewrite <- app_assoc.
    + done.
Qed.

Lemma record_all_miss (fts : list (string * list datetime)) lk k :
  (∀ ft t', ft ∈ fts → t' ∈ ft.2 → strftime E t' ≠ k) →
  foldl (λ l ft, MFncdap.record_times E ft.1 0 ft.2 l) lk fts !! k = lk !! k.
Proof.
  revert lk. induction fts as [|ft r IH]; intros lk Hk; [done|]. simpl.
  rewrite IH.
  - apply record_times_miss. intros t' Ht'. apply (Hk ft); [left|done].
  - intros ft' t' Hft. apply Hk. by right.
Qed.

Lemma record_all_hit pre f ts post lk jj t :
  ts !! jj = Some t →
  (∀ kk t', (jj < kk)%nat → ts !! kk = Some t' → strftime E t' ≠ strftime E t) →
  (∀ ft t', ft ∈ post → t' ∈ ft.2 → strftime E t' ≠ strftime E t) →
  foldl (λ l ft, MFncdap.record_times E ft.1 0 ft.2 l) lk
    (pre ++ (f, ts) :: post) !! strftime E t = Some (f, jj).
Proof.
  intros Hj Hlast Hpost. rewrite foldl_app. simpl.
  rewrite record_all_miss by done. by rewrite (record_times_hit _ _ _ _ jj t).
Qed.

(** *** [np.unique] *)

Lemma elem_of_insert_unique x l y :
  y ∈ MFncdap.insert_unique x l ↔ y = x ∨ y ∈ l.
Proof.
  induction l as [|z r IH]; simpl.
  - rewrite list_elem_of_singleton, elem_of_nil. tauto.
  - repeat case_decide; rewrite ?elem_of_cons, ?IH; subst; tauto.
Qed.

Lemma insert_unique_sorted x l :
  StronglySorted Z.lt l → StronglySorted Z.lt (MFncdap.insert_unique x l).
Proof.
  induction 1 as [|z r Hs IH Hall]; simpl.
  - repeat constructor.
  - repeat case_decide.
    + constructor; [by constructor|]. constructor; [done|].
      eapply Forall_impl; [exact Hall|]. simpl. lia.
    + by constructor.
    + constructor; [done|]. apply Forall_forall. intros y Hy.
      apply elem_of_insert_unique in Hy as [->|Hy]; [lia|].
      by eapply Forall_forall in Hall.
Qed.

Lemma np_unique_sorted a : StronglySorted Z.lt (MFncdap.np_unique a).
Proof.
  unfold MFncdap.np_unique. induction (concat a) as [|x l IH]; simpl.
  - constructor.
  - by apply insert_unique_sorted.
Qed.

Lemma elem_of_np_unique a y : y ∈ MFncdap.np_unique a ↔ y ∈ concat a.
Proof.
  unfold MFncdap.np_unique. induction (concat a) as [|x l IH]; simpl.
  - done.
  - rewrite elem_of_insert_unique, IH, elem_of_cons. tauto.
Qed.

Lemma sorted_lt_NoDup (l : list Z) : StronglySorted Z.lt l → NoDup l.
Proof.
  induction 1 as [|x l Hs IH Hall]; constructor; [|done].
  intros Hx. eapply Forall_forall in Hall; [|exact Hx]. lia.
Qed.

Lemma elem_of_concat (x : Z) (ls : list (list Z)) :
  x ∈ concat ls ↔ ∃ l, l ∈ ls ∧ x ∈ l.
Proof.
  induction ls as [|l r IH]; simpl.
  - split; [by intros ?%elem_of_nil|]. by intros (l & ?%elem_of_nil & _).
  - rewrite elem_of_app, IH. split.
    + intros [Hx|(l' & Hl' & Hx)]; [exists l; split; [left|done]|].
      exists l'. split; [by right|done].
    + intros (l' & [->|Hl']%elem_of_cons & Hx); [by left|]. right. eauto.
Qed.

Lemma np_array_Some ta a : MFncdap.np_array ta = Some a → a = ta.
Proof.
  unfold MFncdap.np_array. destruct ta as [|r rs]; [by intros [= <-]|].
  case_match; [by intros [= <-]|done].
Qed.

(** The index is built whenever the requests succeed, every file is
    reachable and has the time variable, and the files have the same number
    of records. *)
Lemma scan_files_returns tv files : ∀ tss lk ta w,
  (∀ n, net E n = true) →
  Forall2 (λ f ts, file_times E tv f = Some ts) files tss →
  ∃ lk' w', MFncdap.scan_files E tv files lk ta w = Ok (lk', ta ++ tss) w'.
Proof.
  induction files as [|f r IH]; intros tss lk ta w Hnet Hf.
  - apply Forall2_nil_inv_l in Hf as ->. simpl. rewrite app_nil_r. eauto.
  - apply Forall2_cons_inv_l in Hf as (ts & tss' & Hts & Hf & ->). simpl.
    unfold file_times in Hts.
    destruct (remote E !! f) as [nc|] eqn:Hr; [|done]. simpl in Hts.
    destruct (variable nc tv) as [v|] eqn:Hv; [|done]. injection Hts as <-.
    rewrite (bind_Ok_intro _ _ _ _ _ (Dataset_ok E f nc w Hr (Hnet _))).
    rewrite Hv, lift_Some_bind.
    rewrite (bind_Ok_intro _ _ _ _ _ (remote_read_ok E (ravel v) _ (Hnet _))).
    destruct (IH tss' (MFncdap.record_times E f 0 (ravel v) lk) (ta ++ [ravel v])
                (tick 1 (tick 1 w)) Hnet Hf) as (lk' & w' & Hs).
    exists lk', w'. rewrite <- app_assoc in Hs. exact Hs.
Qed.

Lemma init_returns files timevar tss w :
  (∀ n, net E n = true) →
  Forall2 (λ f ts, file_times E timevar f = Some ts) files tss →
  (∀ ts ts', ts ∈ tss → ts' ∈ tss → length ts = length ts') →
  ∃ mf w', MFncdap.init E files timevar w = Ok mf w'.
Proof.
  intros Hnet Hf Hlen. unfold MFncdap.init.
  destruct (scan_files_returns timevar files tss ∅ [] w Hnet Hf)
    as (lk & w' & Hs).
  rewrite (bind_Ok_intro _ _ _ _ _ Hs). simpl.
  assert (MFncdap.np_array tss = Some tss) as ->; [|simpl; eauto].
  unfold MFncdap.np_array. destruct tss as [|r rs]; [done|].
  assert (forallb (λ x, bool_decide (length x = length r)) rs = true) as ->;
    [|done].
  assert (∀ x, x ∈ rs → length x = length r) as Hrs.
  { intros x Hx. apply Hlen; [by right|left]. }
  clear -Hrs. induction rs as [|x rs IH]; [done|]. simpl.
  rewrite bool_decide_eq_true_2 by (apply Hrs; left).
  apply IH. intros y Hy. apply Hrs. by right.
Qed.

(** C4.  When the index is built, a timestamp reported by a file is
    looked up at the last (file, index) pair, in the order of the file list
    and of the records, that reports it (the lookup key is the formatted
    timestamp, so "it" is any timestamp with the same key): a later file
    overwrites an earlier one.  The logical time axis is strictly
    increasing, hence without repetition, and consists of the timestamps
    the files report. *)
Theorem aggregated_lookup_is_last_writer files timevar w mf w' :
  MFncdap.init E files timevar w = Ok mf w' →
  (∀ pre f post ts ii t,
     files = pre ++ f :: post →
     file_times E timevar f = Some ts →
     ts !! ii = Some t →
     (∀ kk t', (ii < kk)%nat → ts !! kk = Some t' →
               strftime E t' ≠ strftime E t) →
     (∀ g ts' t', g ∈ post → file_times E timevar g = Some ts' → t' ∈ ts' →
                  strftime E t' ≠ strftime E t) →
     MFncdap.timelookup mf !! strftime E t = Some (f, ii))
  ∧ StronglySorted Z.lt (MFncdap.time mf)
  ∧ NoDup (MFncdap.time mf)
  ∧ (∀ t, t ∈ MFncdap.time mf ↔
          ∃ f ts, f ∈ files ∧ file_times E timevar f = Some ts ∧ t ∈ ts).
Proof.
  intros H. unfold MFncdap.init in H.
  apply bind_Ok in H as ([lk ta] & s1 & Hs & H).
  apply bind_Ok in H as (a & s2 & Ha & H). injection H as <- _.
  apply lift_Ok in Ha as [Ha ->]. apply np_array_Some in Ha as ->.
  apply scan_files_Ok in Hs as (tss & Hm & -> & ->). simpl.
  split; [|split; [apply np_unique_sorted|split;
                   [apply sorted_lt_NoDup, np_unique_sorted|]]].
  - intros pre f post ts ii t -> Hf Hi Hlast Hpost.
    apply Forall2_app_inv_l in Hm as (tpre & trest & Hpre & Hrest & ->).
    apply Forall2_cons_inv_l in Hrest as (ts0 & tpost & Hf0 & Hpost0 & ->).
    rewrite Hf in Hf0. injection Hf0 as <-.
    rewrite zip_with_app by (by eapply Forall2_length).
    apply record_all_hit; [done|done|].
    intros [g ts'] t' Hin Ht'. simpl in *.
    apply list_elem_of_lookup in Hin as [k Hk].
    apply lookup_zip_with_Some in Hk as (g0 & ts0 & [= <- <-] & Hg & Hts).
    apply (Hpost g ts' t'); [by eapply list_elem_of_lookup_2| |done].
    by eapply Forall2_lookup_lr in Hpost0.
  - intros t. rewrite elem_of_np_unique. simpl. split.
    + intros (ts & Hts & Ht)%elem_of_concat.
      apply list_elem_of_lookup in Hts as [k Hk].
      destruct (Forall2_lookup_r _ _ _ _ _ Hm Hk) as (f & Hf & Hft).
      exists f, ts. split; [by eapply list_elem_of_lookup_2|done].
    + intros (f & ts & Hf & Hft & Ht).
      apply list_elem_of_lookup in Hf as [k Hk].
      destruct (Forall2_lookup_l _ _ _ _ _ Hm Hk) as (ts0 & Hts0 & Hft0).
      rewrite Hft in Hft0. injection Hft0 as <-.
      apply elem_of_concat. exists ts. split; [|done].
      by eapply list_elem_of_lookup_2.
Qed.
End Aggregator.

Lemma aggregated_lookup_is_last_writer_witness :
  MFncdap.init Sample.env_ok ["C"; "D"] (Some "time") Sample.w0
  = Ok Sample.mfCD (tick 4 Sample.w0)
  ∧ MFncdap.timelookup Sample.mfCD !! strftime Sample.env_ok 20 = Some ("D", 0%nat)
  ∧ NoDup (MFncdap.time Sample.mfCD).
Proof.
  assert (MFncdap.init Sample.env_ok ["C"; "D"] (Some "time") Sample.w0
          = Ok Sample.mfCD (tick 4 Sample.w0)) as H by (vm_compute; reflexivity).
  split; [exact H|].
  destruct (aggregated_lookup_is_last_writer Sample.env_ok ["C"; "D"]
              (Some "time") Sample.w0 Sample.mfCD (tick 4 Sample.w0) H)
    as (Hlast & _ & Hnd & _).
  split; [|exact Hnd].
  apply (Hlast ["C"] "D" [] [20; 30; 40] 0%nat 20).
  - reflexivity.
  - reflexivity.
  - reflexivity.
  - intros [|[|[|kk]]] t' Hlt Hk; [lia| | |done].
    + injection Hk as <-. vm_compute. discriminate.
    + injection Hk as <-. vm_compute. discriminate.
  - intros g ts' t' Hg. by apply elem_of_nil in Hg.
Defined.

(** ** C8: two-dimensional variables *)

(** The retry helper [get_2d] answers, when it answers, with the slice it
    read: a two-dimensional array. *)
Lemma get_2d_result E w a fuel s d s' :
  GridDAP.get_2d E w a fuel s = Ok d s' → d = A2 (GridDAP.sub2 w a).
Proof.
  revert s. induction fuel as [|fuel IH]; intros s; simpl; [done|].
  unfold try_except, remote_read.
  destruct ((request E ≫= λ _, lift IndexError (Some (A2 (GridDAP.sub2 w a)))) s)
    as [d0 s0 | e s0 |] eqn:Hr; [ | apply IH | done].
  intros [= <- <-]. apply bind_Ok in Hr as (? & s1 & _ & Hl).
  by apply lift_Ok in Hl as [[= <-] _].
Qed.

(** For a variable of two dimensions [get_data_singlefile] returns the
    window of the variable itself, an array of two dimensions. *)
Lemma get_data_singlefile_2d E fuel self varname nc t1 t2 a w data self' w' :
  ds_variables nc !! varname = Some (A2 a) →
  GridDAP.get_data_singlefile E fuel self varname nc t1 t2 w = Ok (data, self') w' →
  data = A2 (GridDAP.sub2 (GridDAP.win self) a) ∧ ndim data = 2%nat.
Proof.
  intros Hv H. unfold GridDAP.get_data_singlefile in H.
  apply bind_Ok in H as (var & s1 & H1 & H).
  apply lift_Ok in H1 as [H1 ->]. rewrite Hv in H1. injection H1 as <-.
  apply bind_Ok in H as ([d lz] & s2 & H2 & H).
  apply bind_Ok in H2 as (z & s3 & _ & H2).
  apply bind_Ok in H2 as (d' & s4 & H2 & H3).
  apply get_2d_result in H2 as ->.
  injection H3 as <- _ _. by injection H as <- _ _.
Qed.

(** C8 (the code at a failing input).  A variable of 2 x 3 cells, read over
    its whole extent: the array returned has the shape (2, 3), not
    (1, 2, 3). *)
Theorem get_data_singlefile_2d_has_no_record_axis :
  (shape ∘ fst) <$>
    Sample.value (GridDAP.get_data_singlefile Sample.env_ok 3
                    (Sample.dap Sample.fileG [] false [0; 1; 2] [0; 1] 3 2 1)
                    "depth" Sample.fileG 0 1 Sample.w0)
  = Some [2; 3]%nat.
Proof. vm_compute. reflexivity. Qed.

(** ** C6: the step-by-step fallback *)

Section Fallback.
Context (E : env).

(** A pass of the loop in which every request succeeds fills the rows
    [ii], [ii+1], ... with the records read. *)
Lemma step_loop_all_ok {R} (read : nat → option R) steps : ∀ recs ii data w,
  Forall2 (λ k rec, read k = Some rec) steps recs →
  (∀ j, (j < length steps)%nat → net E (clock w + j)%nat = true) →
  (ii + length steps ≤ length data)%nat →
  GridDAP.step_loop E read ii steps data w
  = (take ii data ++ recs ++ drop (ii + length steps) data,
     tick (length steps) w, None).
Proof.
  induction steps as [|k rest IH]; intros recs ii data w Hr Hnet Hlen.
  - apply Forall2_nil_inv_l in Hr as ->. simpl.
    rewrite Nat.add_0_r, take_drop. by destruct w.
  - apply Forall2_cons_inv_l in Hr as (rec & recs' & Hk & Hr & ->).
    simpl in *.
    rewrite (step_once_ok E read ii k data rec w);
      [|specialize (Hnet 0%nat); rewrite Nat.add_0_r in Hnet; apply Hnet; lia
       |done|lia].
    rewrite (IH recs' (S ii) (<[ii := rec]> data) (tick 1 w)); [|done| |].
    + rewrite tick_tick, Nat.add_1_r. do 2 f_equal.
      rewrite (take_S_r _ _ rec) by (apply list_lookup_insert_eq; lia).
      rewrite take_insert_ge by lia. rewrite <- app_assoc. simpl.
      do 3 f_equal. rewrite drop_insert_lt by lia. f_equal. lia.
    + intros j Hj. simpl. replace (S (clock w + j)) with (clock w + S j)%nat by lia.
      apply Hnet. lia.
    + rewrite length_insert. lia.
Qed.

(** In a single-file retrieval (the array has as many rows as the window
    has records), when the bulk read fails and then every step is read at
    the first attempt, the fallback returns what the bulk read would have
    returned. *)
Lemma fallback_without_retry_equals_bulk fuel self varname nc arr t1 t2 w :
  GridDAP.graball (GridDAP.conf self) = true →
  ds_variables nc !! varname = Some (A3 arr) →
  net E (clock w) = false →
  (∀ j, (j < t2 - t1)%nat → net E (S (clock w) + j)%nat = true) →
  (t1 ≤ t2)%nat → (t2 ≤ length arr)%nat →
  GridDAP.nt (GridDAP.tw self) = Z.of_nat t2 - Z.of_nat t1 →
  0 ≤ GridDAP.ny (GridDAP.win self) → 0 ≤ GridDAP.nx (GridDAP.win self) →
  ∃ self',
    GridDAP.get_data_singlefile E (S fuel) self varname nc t1 t2 w
    = Ok (A3 (map (GridDAP.sub2 (GridDAP.win self)) (slice t1 t2 arr)), self')
         (tick (S (t2 - t1)) w).
Proof.
  intros Hg Hv Hfail Hok Ht Hlen Hnt Hny Hnx.
  set (n := (t2 - t1)%nat).
  assert (GridDAP.step_loop E (λ k, GridDAP.sub2 (GridDAP.win self) <$> arr !! k)
            0 (seq t1 n)
            (replicate n (replicate (Z.to_nat (GridDAP.ny (GridDAP.win self)))
                            (replicate (Z.to_nat (GridDAP.nx (GridDAP.win self))) 0)))
            (tick 1 w)
          = (map (GridDAP.sub2 (GridDAP.win self)) (slice t1 t2 arr),
             tick (S n) w, None)) as Hloop.
  { rewrite (step_loop_all_ok _ _
               (map (GridDAP.sub2 (GridDAP.win self)) (slice t1 (t1 + n) arr))).
    - rewrite length_seq, tick_tick, Nat.add_1_r. simpl.
      rewrite drop_ge, app_nil_r by (rewrite length_replicate; lia).
      by replace (t1 + n)%nat with t2 by lia.
    - apply Forall2_fmap_r. eapply Forall2_impl; [apply slice_lookup; lia|].
      intros k x Hk. simpl. by rewrite Hk.
    - intros j Hj. rewrite length_seq in Hj. by apply Hok.
    - rewrite length_seq, length_replicate. lia. }
  unfold GridDAP.get_data_singlefile.
  rewrite Hv, lift_Some_bind, Hg, Hnt.
  eexists. munfold. unfold remote_read. munfold.
  rewrite (request_fail E w Hfail).
  rewrite np_zeros3_nonneg by lia.
  replace (Z.to_nat (Z.of_nat t2 - Z.of_nat t1)) with n by lia.
  unfold GridDAP.get_3d_step. simpl GridDAP.get_step. fold n.
  rewrite Hloop. reflexivity.
Qed.
End Fallback.

(** C6 (the code at two failing inputs).  A variable of three records of
    one cell, 300, 301 and 302.
    - Window 0..3 of a single file.  The bulk read returns the records 300,
      301, 302.  When the bulk read fails (request 0) and the step for the
      record 1 fails once (request 2), the helper restarts from the record 1
      but numbers the rows from 0 again: the fallback completes and returns
      301, 302, 0.
    - The block 0..2 of a file inside a window of five records (multi-file
      session).  The bulk read returns two rows; when the bulk read fails and
      every step succeeds, the fallback returns an array of five rows, the
      size of the whole window. *)
Theorem fallback_differs_from_bulk :
  let d := Sample.dap Sample.fileC [] false [0] [0] 1 1 3 in
  let m := Sample.dap Sample.fileC ["C"; "D"] true [0] [0] 1 1 5 in
  fst <$> Sample.value
            (GridDAP.get_data_singlefile Sample.env_ok 5 d "temp" Sample.fileC 0 3
               Sample.w0)
  = Some (A3 [Sample.cell 300; Sample.cell 301; Sample.cell 302])
  ∧ fst <$> Sample.value
              (GridDAP.get_data_singlefile (Sample.env_failing [0; 2]%nat) 5 d
                 "temp" Sample.fileC 0 3 Sample.w0)
    = Some (A3 [Sample.cell 301; Sample.cell 302; Sample.cell 0])
  ∧ fst <$> Sample.value
              (GridDAP.get_data_singlefile Sample.env_ok 5 m "temp" Sample.fileC 0 2
                 Sample.w0)
    = Some (A3 [Sample.cell 300; Sample.cell 301])
  ∧ fst <$> Sample.value
              (GridDAP.get_data_singlefile (Sample.env_failing [0]%nat) 5 m
                 "temp" Sample.fileC 0 2 Sample.w0)
    = Some (A3 [Sample.cell 300; Sample.cell 301; Sample.cell 0; Sample.cell 0;
                Sample.cell 0]).
Proof. vm_compute. repeat split. Qed.

(** ** C5: stitching the files of a window *)

Section Grouping.

Lemma od_append_fresh f ti (d : list (string * list nat)) :
  f ∉ d.*1 → MFncdap.od_append f ti d = d ++ [(f, [ti])].
Proof.
  induction d as [|[g vals] r IH]; intros Hf; simpl; [done|].
  rewrite fmap_cons, not_elem_of_cons in Hf. destruct Hf as [Hne Hf].
  rewrite decide_False by done. by rewrite IH.
Qed.

Lemma od_append_last f ti vals (d : list (string * list nat)) :
  f ∉ d.*1 →
  MFncdap.od_append f ti (d ++ [(f, vals)]) = d ++ [(f, vals ++ [ti])].
Proof.
  induction d as [|[g vals'] r IH]; intros Hf; simpl.
  - by rewrite decide_True.
  - rewrite fmap_cons, not_elem_of_cons in Hf. destruct Hf as [Hne Hf].
    rewrite decide_False by done. by rewrite IH.
Qed.

Lemma group_more f d n : ∀ b vals,
  f ∉ d.*1 →
  group (d ++ [(f, vals)]) (block_hits (f, b, n)) = d ++ [(f, vals ++ seq b n)].
Proof.
  induction n as [|n IH]; intros b vals Hf; simpl.
  - by rewrite app_nil_r.
  - unfold group in *. simpl. rewrite od_append_last by done.
    rewrite (IH (S b)) by done. by rewrite <- app_assoc.
Qed.

Lemma group_block f a n d :
  f ∉ d.*1 → (1 ≤ n)%nat →
  group d (block_hits (f, a, n)) = d ++ [(f, seq a n)].
Proof.
  intros Hf Hn. destruct n as [|n]; [lia|]. unfold group. simpl.
  rewrite od_append_fresh by done. by apply (group_more f d n (S a) [a]).
Qed.

Lemma group_app d l1 l2 : group d (l1 ++ l2) = group (group d l1) l2.
Proof. apply foldl_app. Qed.

Lemma group_blocks (blocks : list block) : ∀ d,
  NoDup (d.*1 ++ blocks.*1.*1) →
  Forall (λ b : block, (1 ≤ b.2)%nat) blocks →
  group d (blocks ≫= block_hits)
  = d ++ ((λ b : block, (b.1.1, seq b.1.2 b.2)) <$> blocks).
Proof.
  induction blocks as [|[[f a] n] r IH]; intros d Hnd Hn.
  - simpl. by rewrite app_nil_r.
  - apply Forall_cons in Hn as [Hn Hr].
    rewrite !fmap_cons in Hnd. simpl in Hnd, Hn.
    apply NoDup_app in Hnd as (Hd & Hdis & Hnd).
    apply NoDup_cons in Hnd as [Hf Hnd].
    change (((f, a, n) :: r) ≫= block_hits)
      with (block_hits (f, a, n) ++ (r ≫= block_hits)).
    rewrite group_app, group_block; [|intros ?; eapply Hdis; [done|left]|done].
    rewrite IH; [by rewrite <- app_assoc| |done].
    rewrite fmap_app. simpl. rewrite <- app_assoc. simpl.
    apply NoDup_app. split; [done|]. split.
    + intros x Hx Hx'. apply (Hdis x Hx). done.
    + by apply NoDup_cons.
Qed.

Lemma py_min_seq a n : MFncdap.py_min (seq a (S n)) = Some a.
Proof.
  simpl. f_equal. revert a. induction n as [|n IH]; intros a; [done|].
  change (seq (S a) (S n)) with (S a :: seq (S (S a)) n).
  rewrite foldr_cons, (Nat.min_comm (S a)).
  assert (∀ b, (a ≤ b)%nat → foldr Nat.min a (seq b n) = a) as Hge; [|].
  { clear IH. revert a. induction n as [|m IHm]; intros a0 b Hb; [done|].
    simpl. rewrite IHm by lia. lia. }
  rewrite Hge by lia. lia.
Qed.

Lemma foldr_max_seq a b n :
  (a ≤ b)%nat → foldr Nat.max a (seq b n) = (if n is O then a else (b + n - 1)%nat).
Proof.
  revert a b. induction n as [|n IH]; intros a b Hab; simpl; [done|].
  rewrite IH by lia. destruct n; lia.
Qed.

Lemma py_max_seq a n : MFncdap.py_max (seq a (S n)) = Some (a + n)%nat.
Proof.
  simpl. f_equal. rewrite foldr_max_seq by lia. destruct n; lia.
Qed.

Lemma zip_swap (hits : list (string * nat)) :
  zip (hits.*2) (hits.*1) = (λ h, (h.2, h.1)) <$> hits.
Proof.
  induction hits as [|[f i] r IH]; [done|].
  rewrite !fmap_cons. simpl. f_equal. exact IH.
Qed.

(** [MFncdap.__call__] on a window made of blocks with distinct files: the
    slice of every file is its block. *)
Lemma call_blocks E mf times (blocks : list block) :
  mapM (λ tm, MFncdap.timelookup mf !! strftime E tm) times
  = Some (blocks ≫= block_hits) →
  NoDup (blocks.*1.*1) →
  Forall (λ b : block, (1 ≤ b.2)%nat) blocks →
  ∃ tind fname,
    MFncdap.call E mf times
    = Some (tind, fname,
            (λ b : block, (b.1.1, (b.1.2, (b.1.2 + b.2 - 1)%nat))) <$> blocks).
Proof.
  intros Hm Hnd Hn. unfold MFncdap.call. rewrite Hm. simpl.
  rewrite zip_swap.
  assert (∀ d l, foldl (λ d '(ti, f), MFncdap.od_append f ti d) d
                   ((λ h : string * nat, (h.2, h.1)) <$> l) = group d l) as Hg.
  { intros d l. revert d. induction l as [|[f i] r IH]; intros d; [done|].
    simpl. by rewrite IH. }
  rewrite Hg, group_blocks by done. simpl.
  assert (mapM (λ '(f, vals),
                  lo ← MFncdap.py_min vals; hi ← MFncdap.py_max vals;
                  Some (f, (lo, hi)))
            ((λ b : block, (b.1.1, seq b.1.2 b.2)) <$> blocks)
          = Some ((λ b : block, (b.1.1, (b.1.2, (b.1.2 + b.2 - 1)%nat)))
                    <$> blocks)) as ->.
  { apply mapM_Some. clear Hm Hnd.
    induction Hn as [|[[f a] n] r Hb Hr IH]; simpl; constructor; [|done].
    simpl in *. destruct n as [|n]; [lia|].
    rewrite py_min_seq, py_max_seq. simpl. do 4 f_equal. lia. }
  simpl. eauto.
Qed.
End Grouping.

Section Stitching.
Context (E : env) (varname : string).
Hypothesis net_ok : ∀ n, net E n = true.

(** When the request succeeds, the bulk read of [get_data_singlefile]
    returns the records [t1 .. t2-1] of the variable, cut to the window. *)
Lemma get_data_singlefile_bulk fuel self nc var recs t1 t2 w :
  GridDAP.graball (GridDAP.conf self) = true →
  ds_variables nc !! varname = Some var →
  window_records (GridDAP.win self) var = Some recs →
  ∃ chunk self',
    GridDAP.get_data_singlefile E fuel self varname nc t1 t2 w
    = Ok (chunk, self') (tick 1 w)
    ∧ records chunk = slice t1 t2 recs
    ∧ ndim chunk = ndim var
    ∧ GridDAP.conf self' = GridDAP.conf self
    ∧ GridDAP.win self' = GridDAP.win self
    ∧ GridDAP.tw self' = GridDAP.tw self.
Proof.
  intros Hg Hv Hrecs. unfold GridDAP.get_data_singlefile.
  rewrite Hv, lift_Some_bind, Hg.
  destruct var as [a|a|a|a]; simpl in Hrecs; [done|done| |].
  - injection Hrecs as <-. eexists _, _. split.
    + munfold. unfold remote_read. munfold.
      rewrite (request_ok E w (net_ok _)). reflexivity.
    + split; [|done]. simpl.
      by rewrite slice_fmap, list_fmap_compose.
  - destruct (GridDAP.zwin (GridDAP.win self)) as [[[z1 z2] nz]|] eqn:Hz;
      [|done].
    injection Hrecs as <-. eexists _, _. split.
    + munfold. unfold remote_read. munfold. simpl.
      rewrite (request_ok E w (net_ok _)). reflexivity.
    + split; [|done]. simpl.
      by rewrite slice_fmap, list_fmap_compose.
Qed.

(** Copying a chunk into the output array, seen on their records. *)
Lemma assign_chunk_records p1 p2 chunk data r :
  ndim chunk = ndim data → (3 ≤ ndim data)%nat →
  set_rows p1 p2 (records chunk) (records data) = Some r →
  ∃ data',
    GridDAP.assign_chunk p1 p2 chunk data = Some data'
    ∧ records data' = r ∧ ndim data' = ndim data.
Proof.
  intros Hnd H3 Hset.
  destruct data as [d|d|d|d], chunk as [c|c|c|c]; simpl in *; try lia; try done.
  - rewrite set_rows_fmap in Hset.
    destruct (set_rows p1 p2 c d) as [r0|]; [|done]. injection Hset as <-.
    by exists (A3 r0).
  - rewrite set_rows_fmap in Hset.
    destruct (set_rows p1 p2 c d) as [r0|]; [|done]. injection Hset as <-.
    by exists (A4 r0).
Qed.

Lemma fill_from_files_blocks fuel nd (blocks : list block) :
  ∀ chunks done rest data self w,
    Forall2 (block_rows E (GridDAP.win self) nd varname) blocks chunks →
    Forall (λ b : block, (1 ≤ b.2)%nat) blocks →
    GridDAP.graball (GridDAP.conf self) = true →
    records data = done ++ rest → ndim data = nd → (3 ≤ nd)%nat →
    (sum_list (blocks.*2) ≤ length rest)%nat →
    ∃ data' self' w',
      GridDAP.fill_from_files E (S fuel) varname
        ((λ b : block, (b.1.1, (b.1.2, (b.1.2 + b.2 - 1)%nat))) <$> blocks)
        (length done) data self w
      = Ok (data', self') w'
      ∧ records data' = done ++ concat chunks ++ drop (sum_list (blocks.*2)) rest.
Proof.
  induction blocks as [|[[f a] n] r IH];
    intros chunks done rest data self w Hc Hn Hg Hdata Hnd H3 Hlen.
  - apply Forall2_nil_inv_l in Hc as ->. simpl. eauto.
  - apply Forall2_cons_inv_l in Hc
      as (c & cs & (nc & var & recs & Hr & Hv & Hvar & Hrecs & Hl & ->) & Hcs & ->).
    apply Forall_cons in Hn as [Hn1 Hn]. simpl in Hr, Hl, Hn1.
    rewrite fmap_cons. cbn [fst snd]. cbn [GridDAP.fill_from_files].
    rewrite (bind_Ok_intro _ _ _ _ _
               (openfile_retries E f nc 0 w (S fuel) Hr
                  ltac:(split; [lia|apply net_ok]) ltac:(lia))).
    destruct (get_data_singlefile_bulk (S fuel) self nc var recs a (a + n - 1 + 1)
                (tick 1 w) Hg Hv Hrecs)
      as (chunk & self1 & Hget & Hchunk & Hcnd & Hconf & Hwin & Htw).
    rewrite (bind_Ok_intro _ _ _ _ _ Hget).
    replace (a + n - 1 + 1)%nat with (a + n)%nat in Hchunk by lia.
    replace (length done + (a + n - 1) - a + 1)%nat with (length done + n)%nat by lia.
    destruct (assign_chunk_records (length done) (length done + n) chunk data
                ((done ++ slice a (a + n) recs) ++ drop n rest))
      as (data1 & Hassign & Hdata1 & Hnd1); [congruence|lia| |].
    { rewrite Hchunk, Hdata. apply set_rows_middle; [|rewrite fmap_cons in Hlen; simpl in Hlen; lia].
      by apply slice_length. }
    rewrite Hassign, lift_Some_bind.
    replace (length done + n)%nat with (length (done ++ slice a (a + n) recs))
      by (rewrite length_app, slice_length; lia).
    destruct (IH cs (done ++ slice a (a + n) recs) (drop n rest) data1 self1
                (tick 1 (tick 1 w))) as (data' & self' & w' & Hfill & Hrec').
    + by rewrite Hwin.
    + done.
    + by rewrite Hconf.
    + done.
    + congruence.
    + done.
    + rewrite length_drop. rewrite fmap_cons in Hlen. simpl in Hlen. lia.
    + exists data', self', w'. split; [exact Hfill|].
      rewrite Hrec', <- !app_assoc, drop_drop. simpl. by rewrite <- app_assoc.
Qed.

(** The rows of the blocks are the rows the time order expects. *)
Lemma expected_rows_blocks win nd mf times (blocks : list block) chunks :
  mapM (λ tm, MFncdap.timelookup mf !! strftime E tm) times
  = Some (blocks ≫= block_hits) →
  Forall2 (block_rows E win nd varname) blocks chunks →
  expected_rows E win varname mf times = Some (concat chunks).
Proof.
  intros Hm Hc. apply mapM_Some in Hm. apply mapM_Some.
  assert (Forall2 (λ (h : string * nat) row,
                     (nc ← remote E !! h.1;
                      var ← ds_variables nc !! varname;
                      recs ← window_records win var;
                      recs !! h.2) = Some row)
            (blocks ≫= block_hits) (concat chunks)) as Hrows.
  { clear Hm.
    induction Hc as [|[[f a] n] c bs cs
                      (nc & var & recs & Hr & Hv & _ & Hrecs & Hl & ->) Hcs IH].
    - constructor.
    - change (((f, a, n) :: bs) ≫= block_hits)
        with (block_hits (f, a, n) ++ (bs ≫= block_hits)).
      simpl. apply Forall2_app; [|done].
      apply Forall2_fmap_l. simpl in *.
      eapply Forall2_impl; [apply slice_lookup; done|].
      intros i x Hi. simpl. rewrite Hr. simpl. rewrite Hv. simpl.
      rewrite Hrecs. simpl. exact Hi. }
  eapply Forall2_compose; [|exact Hm|exact Hrows].
  intros tm [f i] row Hl Hrow. simpl in *. by rewrite Hl.
Qed.

Lemma sum_hits_length (blocks : list block) :
  length (blocks ≫= block_hits) = sum_list (blocks.*2).
Proof.
  induction blocks as [|[[f a] n] r IH]; [done|].
  change (((f, a, n) :: r) ≫= block_hits)
    with (block_hits (f, a, n) ++ (r ≫= block_hits)).
  rewrite length_app, IH. simpl. by rewrite length_fmap, length_seq.
Qed.

(** The array allocated by [get_data_multifile]. *)
Lemma multifile_zeros self n :
  GridDAP.nt (GridDAP.tw self) = Z.of_nat n →
  0 ≤ GridDAP.ny (GridDAP.win self) → 0 ≤ GridDAP.nx (GridDAP.win self) →
  (∀ zc, GridDAP.zcoord (GridDAP.conf self) = Some zc →
         ∃ z1 z2 nz, GridDAP.zwin (GridDAP.win self) = Some (z1, z2, nz) ∧ 0 ≤ nz) →
  ∃ data0,
    (∀ B (k : ndarray → M world B) w,
       (match GridDAP.zcoord (GridDAP.conf self) with
        | None =>
            lift ValueError
              (A3 <$> np_zeros3 (GridDAP.nt (GridDAP.tw self))
                        (GridDAP.ny (GridDAP.win self))
                        (GridDAP.nx (GridDAP.win self)))
        | Some _ =>
            '(z1, z2, nz) ← lift AttributeError (GridDAP.zwin (GridDAP.win self));
            lift ValueError
              (A4 <$> np_zeros4 (GridDAP.nt (GridDAP.tw self)) nz
                        (GridDAP.ny (GridDAP.win self))
                        (GridDAP.nx (GridDAP.win self)))
        end ≫= k) w = k data0 w)
    ∧ length (records data0) = n
    ∧ ndim data0 = session_ndim self.
Proof.
  intros Hnt Hny Hnx Hz. unfold session_ndim.
  destruct (GridDAP.zcoord (GridDAP.conf self)) as [zc|].
  - destruct (Hz zc eq_refl) as (z1 & z2 & nz & Hzw & Hnz).
    exists (A4 (replicate n
                  (replicate (Z.to_nat nz)
                     (replicate (Z.to_nat (GridDAP.ny (GridDAP.win self)))
                        (replicate (Z.to_nat (GridDAP.nx (GridDAP.win self))) 0))))).
    split; [|simpl; by rewrite length_fmap, length_replicate].
    intros B k w. rewrite Hzw, Hnt. munfold. simpl.
    rewrite np_zeros4_nonneg by lia. simpl. by rewrite Nat2Z.id.
  - exists (A3 (replicate n
                  (replicate (Z.to_nat (GridDAP.ny (GridDAP.win self)))
                     (replicate (Z.to_nat (GridDAP.nx (GridDAP.win self))) 0)))).
    split; [|simpl; by rewrite length_fmap, length_replicate].
    intros B k w. rewrite Hnt. munfold.
    rewrite np_zeros3_nonneg by lia. simpl. by rewrite Nat2Z.id.
Qed.

(** C5 (amended).  When every request succeeds, the bulk reads are used
    and the window is a sequence of blocks, one per file, each made of
    consecutive records of its file in increasing order (as A3, A4, A5
    then B0, B1), the output rows are exactly the rows the global time
    order expects: row [p] is the record that the lookup designates for
    the timestamp [p] of the window.  This holds for variables with and
    without a depth axis. *)
Theorem multifile_rows_in_time_order fuel self mf times (blocks : list block)
    chunks w :
  GridDAP.graball (GridDAP.conf self) = true →
  GridDAP.MF (GridDAP.tw self) = Some mf →
  GridDAP.localtime (GridDAP.loc self) = times →
  GridDAP.nt (GridDAP.tw self) = Z.of_nat (length times) →
  0 ≤ GridDAP.ny (GridDAP.win self) → 0 ≤ GridDAP.nx (GridDAP.win self) →
  (∀ zc, GridDAP.zcoord (GridDAP.conf self) = Some zc →
         ∃ z1 z2 nz, GridDAP.zwin (GridDAP.win self) = Some (z1, z2, nz) ∧ 0 ≤ nz) →
  mapM (λ tm, MFncdap.timelookup mf !! strftime E tm) times
  = Some (blocks ≫= block_hits) →
  NoDup (blocks.*1.*1) →
  Forall (λ b : block, (1 ≤ b.2)%nat) blocks →
  Forall2 (block_rows E (GridDAP.win self) (session_ndim self) varname)
    blocks chunks →
  ∃ data self' w',
    GridDAP.get_data_multifile E (S fuel) self varname w = Ok (data, self') w'
    ∧ expected_rows E (GridDAP.win self) varname mf times = Some (records data).
Proof.
  intros Hg Hmf Hlt Hnt Hny Hnx Hz Hm Hnd Hn Hc.
  destruct (multifile_zeros self (length times) Hnt Hny Hnx Hz)
    as (data0 & Hzeros & Hlen0 & Hnd0).
  unfold GridDAP.get_data_multifile. rewrite Hzeros, Hmf, Hlt, lift_Some_bind.
  destruct (call_blocks E mf times blocks Hm Hnd Hn) as (tind & fname & ->).
  rewrite lift_Some_bind.
  assert (sum_list (blocks.*2) = length times) as Hsum.
  { rewrite <- sum_hits_length. apply length_mapM in Hm. lia. }
  destruct (fill_from_files_blocks fuel (session_ndim self) blocks chunks []
              (records data0) data0 self w Hc Hn Hg eq_refl Hnd0)
    as (data & self' & w' & Hfill & Hrec).
  { unfold session_ndim. destruct (GridDAP.zcoord _); lia. }
  { lia. }
  exists data, self', w'. split; [exact Hfill|].
  rewrite Hrec. simpl. rewrite drop_ge, app_nil_r by lia.
  by apply expected_rows_blocks with (session_ndim self) blocks.
Qed.
End Stitching.

(** C5 as stated fails.  The files A and B report the times 0, 20, 10 and
    30, 40, 50.  Over the whole axis the records of A fill the positions
    0..2 and those of B the positions 3..5, one block each; the rows are
    filled in the order A0, A1, A2, B0, B1, B2 while the time order 0, 10,
    20, ... expects A0, A2, A1, B0, B1, B2.  And on the files C and D, when
    the bulk read of the first file fails (request 5), the fallback array
    has the size of the whole window and the call raises a [ValueError]. *)
Lemma rows_of_unsorted_file_are_misordered :
  Sample.value (MFncdap.init Sample.env_ok ["A"; "B"] (Some "time") Sample.w0)
  = Some Sample.mfAB
  ∧ fst <$> Sample.value
              (GridDAP.get_data Sample.env_ok 3
                 (Sample.dap Sample.fileA ["A"; "B"] true [0] [0] 0 0 0)
                 "temp" None None None None Sample.w0)
    = Some (A3 [Sample.cell 100; Sample.cell 101; Sample.cell 102;
                Sample.cell 200; Sample.cell 201; Sample.cell 202])
  ∧ expected_rows Sample.env_ok (Sample.window0 1 1) "temp" Sample.mfAB
      [0; 10; 20; 30; 40; 50]
    = Some (A2 ∘ Sample.cell <$> [100; 102; 101; 200; 201; 202])
  ∧ Sample.raised
      (GridDAP.get_data (Sample.env_failing [5]%nat) 3
         (Sample.dap Sample.fileC ["C"; "D"] true [0] [0] 0 0 0)
         "temp" None None None None Sample.w0)
    = Some ValueError.
Proof. vm_compute. repeat split. Qed.

Lemma multifile_rows_in_time_order_witness :
  ∃ data self' w',
    GridDAP.get_data_multifile Sample.env_ok 1 Sample.dapCD "temp" Sample.w0
    = Ok (data, self') w'
    ∧ expected_rows Sample.env_ok (GridDAP.win Sample.dapCD) "temp" Sample.mfCD
        [0; 10; 20; 30; 40] = Some (records data).
Proof.
  apply (multifile_rows_in_time_order Sample.env_ok "temp" (λ _, eq_refl) 0
           Sample.dapCD Sample.mfCD [0; 10; 20; 30; 40]
           [("C", 0%nat, 2%nat); ("D", 0%nat, 3%nat)]
           [A2 ∘ Sample.cell <$> [300; 301]; A2 ∘ Sample.cell <$> [400; 401; 402]]).
  - reflexivity.
  - reflexivity.
  - reflexivity.
  - reflexivity.
  - simpl. lia.
  - simpl. lia.
  - intros zc Hzc. discriminate Hzc.
  - vm_compute. reflexivity.
  - apply (bool_decide_unpack _). vm_compute. exact I.
  - repeat constructor; simpl; lia.
  - constructor; [|constructor; [|constructor]].
    + exists Sample.fileC, (A3 (Sample.cell <$> [300; 301; 302])),
        (A2 ∘ Sample.cell <$> [300; 301; 302]).
      repeat split; simpl; lia.
    + exists Sample.fileD, (A3 (Sample.cell <$> [400; 401; 402])),
        (A2 ∘ Sample.cell <$> [400; 401; 402]).
      repeat split; simpl; lia.
Defined.

(** ** C7 and C1: the writer of the output store *)

Section Writer.
Context (E : env).

Lemma the_store_eq self h s w :
  GetDAP.outnc self = Some h → disk w !! h = Some s →
  GetDAP.the_store self w = Ok (h, s) w.
Proof.
  intros Ho Hd. unfold GetDAP.the_store. rewrite Ho. munfold. simpl.
  unfold GetDAP.read_disk. by rewrite Hd.
Qed.

Lemma put_store_eq h s w : GetDAP.put_store h s w = Ok () (with_store w h s).
Proof. done. Qed.

Lemma hasvar_true s name v :
  st_vars s !! name = Some v → hasvar s (Some name) = true.
Proof. intros H. unfold hasvar. rewrite H. by apply bool_decide_eq_true_2. Qed.

Lemma create_existing self h s name v w :
  GetDAP.outnc self = Some h → disk w !! h = Some s →
  st_vars s !! name = Some v →
  GetDAP.create_ncvar_fromvarname self name w = Ok () w.
Proof.
  intros Ho Hd Hv. unfold GetDAP.create_ncvar_fromvarname.
  rewrite (bind_Ok_intro _ _ _ _ _ (the_store_eq _ _ _ _ Ho Hd)).
  by rewrite (hasvar_true _ _ _ Hv).
Qed.

Lemma write_coord_eq self h s name v value w :
  GetDAP.outnc self = Some h → disk w !! h = Some s →
  st_vars s !! name = Some v →
  GetDAP.write_coord self name value w
  = Ok () (with_store w h (GetDAP.set_var s name value)).
Proof.
  intros Ho Hd Hv. unfold GetDAP.write_coord.
  rewrite (bind_Ok_intro _ _ _ _ _ (the_store_eq _ _ _ _ Ho Hd)).
  munfold. by rewrite Hv.
Qed.

(** The offset computed by [write_time_var] is the one of the
    specification. *)
Lemma offset_eq tout d lt t1 (w : world) :
  head tout = Some d →
  spec_append_offset E d lt = Some t1 →
  try_except
    (d ← lift IndexError (head tout); lift ValueError (date2index E d lt))
    (d ← lift IndexError (head tout);
     l0 ← lift IndexError (head lt);
     mret (if decide (d > l0) then 1%nat else 0%nat)) w
  = Ok t1 w.
Proof.
  intros Hd Ho. unfold spec_append_offset in Ho. munfold. rewrite Hd.
  simpl. destruct (date2index E d lt) as [i|]; simpl.
  - by injection Ho as <-.
  - destruct (head lt) as [l0|]; [|done]. simpl in *. by injection Ho as <-.
Qed.

Lemma write_time_var_existing self tout tc h s lt d t1 w :
  GetDAP.outnc self = Some h →
  disk w !! h = Some s →
  st_vars s !! tc = Some (SAxis lt) →
  head tout = Some d →
  spec_append_offset E d lt = Some t1 →
  GetDAP.write_time_var E self tout (Some tc) w
  = Ok (GetDAP.with_tindex self (t1, (t1 + length tout)%nat))
       (if decide (length lt < t1 + length tout)%nat
        then with_store w h
               (GetDAP.set_var s tc (SAxis (GetDAP.write_axis t1 tout lt)))
        else w).
Proof.
  intros Ho Hd Hv Ht Hoff. unfold GetDAP.write_time_var.
  rewrite (bind_Ok_intro _ _ _ _ _ (the_store_eq _ _ _ _ Ho Hd)).
  rewrite (hasvar_true _ _ _ Hv).
  assert (GetDAP.stored_time s tc w = Ok lt w) as Hst.
  { unfold GetDAP.stored_time. munfold. by rewrite Hv. }
  rewrite lift_Some_bind.
  rewrite (bind_Ok_intro _ _ _ _ _ Hst).
  rewrite (bind_Ok_intro _ _ _ _ _ (offset_eq _ _ _ _ _ Ht Hoff)).
  simpl. case_decide; done.
Qed.
End Writer.

Section WriteVar.
Context (E : env).

Lemma write_records_length a (recs : list ndarray) old :
  length (GetDAP.write_records a recs old)
  = (length old `max` (a + length recs))%nat.
Proof.
  unfold GetDAP.write_records.
  rewrite !length_app, length_take, length_app, length_replicate,
    length_fmap, length_drop. lia.
Qed.

Lemma write_records_before a (recs : list ndarray) old k :
  (k < a)%nat → (k < length old)%nat →
  GetDAP.write_records a recs old !! k = old !! k.
Proof.
  intros Hk Hl. unfold GetDAP.write_records.
  rewrite lookup_app_l by (rewrite length_take, length_app; lia).
  rewrite lookup_take_lt by done. by rewrite lookup_app_l.
Qed.

Lemma write_records_window a (recs : list ndarray) old k r :
  recs !! k = Some r →
  GetDAP.write_records a recs old !! (a + k)%nat = Some (Some r).
Proof.
  intros Hk. unfold GetDAP.write_records.
  assert (length (take a (old ++ replicate (a - length old) None)) = a) as Hl.
  { rewrite length_take, length_app, length_replicate. lia. }
  rewrite lookup_app_r by lia. rewrite Hl.
  replace (a + k - a)%nat with k by lia.
  rewrite lookup_app_l by (rewrite length_fmap; by eapply lookup_lt_Some).
  by rewrite list_lookup_fmap, Hk.
Qed.

Lemma write_data_eq self h s rv rows i n data w :
  GetDAP.outnc self = Some h → disk w !! h = Some s →
  st_vars s !! rv = Some (SRecs rows) →
  GetDAP.tindex self = (i, (i + n)%nat) →
  length (records data) = n →
  GetDAP.write_data self rv data w
  = Ok () (with_store w h
             {| st_vars := <[rv := SRecs (GetDAP.write_records i (records data) rows)]>
                             (st_vars s);
                st_log := reverse ((λ k, (rv, k)) <$> seq i n) ++ st_log s |}).
Proof.
  intros Ho Hd Hr Hti Hlen. unfold GetDAP.write_data.
  rewrite (bind_Ok_intro _ _ _ _ _ (the_store_eq _ _ _ _ Ho Hd)).
  rewrite Hr, lift_Some_bind, ret_bind, Hti.
  assert (GetDAP.records_of (i + n - i) data = Some (records data)) as Hrec.
  { unfold GetDAP.records_of. rewrite decide_True; [done|]. lia. }
  rewrite Hrec, lift_Some_bind, Hlen. done.
Qed.

Lemma write_var_existing self outfile var rv dapobj tc xc yc zc
    s lt rows data d i w :
  let tout := GridDAP.localtime (GridDAP.loc dapobj) in
  let n := length tout in
  disk w !! outfile = Some s →
  GetDAP.multifile self = false →
  GetDAP.names self !! var = Some rv →
  GetDAP.daps self !! var = Some dapobj →
  get_coord_names E (GetDAP.nc self) rv = Some (Some tc, xc, yc, zc) →
  is_Some (st_vars s !! xc) → is_Some (st_vars s !! yc) →
  (∀ z, zc = Some z → is_Some (st_vars s !! z)) →
  tc ≠ xc → tc ≠ yc → zc ≠ Some tc →
  rv ≠ xc → rv ≠ yc → zc ≠ Some rv → rv ≠ tc →
  st_vars s !! tc = Some (SAxis lt) →
  st_vars s !! rv = Some (SRecs rows) →
  head tout = Some d →
  date2index E d lt = Some i →
  length (records data) = n →
  ∃ self' w' s',
    GetDAP.write_var E self outfile var data w = Ok self' w'
    ∧ GetDAP.tindex self' = (i, (i + n)%nat)
    ∧ disk w' !! outfile = Some s'
    ∧ st_vars s' !! rv = Some (SRecs (GetDAP.write_records i (records data) rows))
    ∧ st_vars s' !! tc
      = Some (SAxis (if decide (length lt < i + n)%nat
                     then GetDAP.write_axis i tout lt else lt))
    ∧ st_log s' = reverse ((λ k, (rv, k)) <$> seq i n) ++ st_log s.
Proof.
  intros tout n Hd Hm Hn Hdap Hc [vx Hx] [vy Hy] Hz Htx Hty Htz Hrx Hry Hrz Hrt
    Ht Hr Hh Hi Hlen.
  unfold GetDAP.write_var.
  set (self1 := GetDAP.with_outnc self (Some outfile)).
  assert (GetDAP.open_outfile self outfile w = Ok self1 w) as H0.
  { unfold GetDAP.open_outfile. rewrite Hd.
    by rewrite bool_decide_eq_true_2 by eauto. }
  rewrite (bind_Ok_intro _ _ _ _ _ H0). simpl. rewrite Hm.
  rewrite ret_bind.
  change (GetDAP.names self1) with (GetDAP.names self).
  change (GetDAP.daps self1) with (GetDAP.daps self).
  change (GetDAP.nc self1) with (GetDAP.nc self).
  rewrite Hn, lift_Some_bind, Hdap, lift_Some_bind.
  change (GetDAP.nc self1) with (GetDAP.nc self).
  rewrite Hc, lift_Some_bind.
  assert (GetDAP.outnc self1 = Some outfile) as Ho by done.
  (* x *)
  rewrite (bind_Ok_intro _ _ _ _ _ (create_existing _ _ _ _ _ _ Ho Hd Hx)).
  rewrite (bind_Ok_intro _ _ _ _ _ (write_coord_eq _ _ _ _ _ _ _ Ho Hd Hx)).
  set (s1 := GetDAP.set_var s xc _). set (w1 := with_store w outfile s1).
  assert (disk w1 !! outfile = Some s1) as Hd1 by apply lookup_insert_eq.
  assert (∃ v, st_vars s1 !! yc = Some v) as [vy1 Hy1].
  { unfold s1. simpl. destruct (decide (xc = yc)) as [->|Hne].
    - rewrite lookup_insert_eq. eauto.
    - rewrite lookup_insert_ne by done. eauto. }
  (* y *)
  rewrite (bind_Ok_intro _ _ _ _ _ (create_existing _ _ _ _ _ _ Ho Hd1 Hy1)).
  rewrite (bind_Ok_intro _ _ _ _ _ (write_coord_eq _ _ _ _ _ _ _ Ho Hd1 Hy1)).
  set (s2 := GetDAP.set_var s1 yc _). set (w2 := with_store w1 outfile s2).
  assert (disk w2 !! outfile = Some s2) as Hd2 by apply lookup_insert_eq.
  (* z *)
  assert (∃ s3 w3,
    (match zc with
     | Some zc0 =>
         GetDAP.create_ncvar_fromvarname self1 zc0
         ≫= λ _, GetDAP.write_coord self1 zc0
                   (SAxis (GridDAP.localZ (GridDAP.loc dapobj)))
     | None => mret ()
     end) w2 = Ok () w3
    ∧ disk w3 !! outfile = Some s3
    ∧ st_vars s3 !! tc = Some (SAxis lt)
    ∧ st_vars s3 !! rv = Some (SRecs rows)
    ∧ st_log s3 = st_log s) as (s3 & w3 & Hz3 & Hd3 & Ht3 & Hr3 & Hl3).
  { destruct zc as [z|].
    - assert (∃ v, st_vars s2 !! z = Some v) as [vz Hvz].
      { destruct (Hz z eq_refl) as [v0 Hv0]. unfold s2, s1. simpl.
        destruct (decide (yc = z)) as [->|?];
          [rewrite lookup_insert_eq; eauto|rewrite lookup_insert_ne by done].
        destruct (decide (xc = z)) as [->|?];
          [rewrite lookup_insert_eq; eauto|rewrite lookup_insert_ne by done].
        eauto. }
      eexists _, _. split.
      { rewrite (bind_Ok_intro _ _ _ _ _ (create_existing _ _ _ _ _ _ Ho Hd2 Hvz)).
        apply (write_coord_eq _ _ _ _ _ _ _ Ho Hd2 Hvz). }
      split; [apply lookup_insert_eq|]. simpl.
      rewrite !lookup_insert_ne by congruence. done.
    - exists s2, w2. split; [done|]. split; [done|]. simpl.
      rewrite !lookup_insert_ne by congruence. done. }
  rewrite (bind_Ok_intro _ _ _ _ _ Hz3).
  (* time *)
  assert (spec_append_offset E d lt = Some i) as Hoff.
  { unfold spec_append_offset. by rewrite Hi. }
  rewrite (bind_Ok_intro _ _ _ _ _
             (write_time_var_existing E _ _ _ _ _ _ _ _ _ Ho Hd3 Ht3 Hh Hoff)).
  fold tout. fold n.
  set (self2 := GetDAP.with_tindex self1 _).
  set (w4 := if decide (length lt < i + n)%nat then _ else w3).
  set (s4 := if decide (length lt < i + n)%nat
             then GetDAP.set_var s3 tc (SAxis (GetDAP.write_axis i tout lt))
             else s3).
  assert (disk w4 !! outfile = Some s4) as Hd4.
  { unfold w4, s4. case_decide; [apply lookup_insert_eq|done]. }
  assert (st_vars s4 !! rv = Some (SRecs rows)) as Hr4.
  { unfold s4. case_decide; [|done]. simpl. by rewrite lookup_insert_ne. }
  assert (st_vars s4 !! tc
          = Some (SAxis (if decide (length lt < i + n)%nat
                         then GetDAP.write_axis i tout lt else lt))) as Ht4.
  { unfold s4. case_decide; [|done]. simpl. by rewrite lookup_insert_eq. }
  assert (st_log s4 = st_log s) as Hl4.
  { unfold s4. case_decide; done. }
  assert (GetDAP.outnc self2 = Some outfile) as Ho2 by done.
  rewrite (bind_Ok_intro _ _ _ _ _ (create_existing _ _ _ _ _ _ Ho2 Hd4 Hr4)).
  (* data *)
  assert (GetDAP.tindex self2 = (i, (i + n)%nat)) as Hti by done.
  rewrite (bind_Ok_intro _ _ _ _ _
             (write_data_eq _ _ _ _ _ _ _ _ _ Ho2 Hd4 Hr4 Hti Hlen)).
  eexists _, _, _. split; [reflexivity|].
  split; [done|]. split; [apply lookup_insert_eq|]. simpl.
  rewrite lookup_insert_eq, lookup_insert_ne by done.
  rewrite Hl4. done.
Qed.
End WriteVar.



(** A store that holds one timestamp: the exact search of another timestamp
    fails and the offset is 1 for a later timestamp, 0 for an earlier one;
    a window that the stored axis covers is not written. *)
Example append_offset_fallback :
  spec_append_offset Sample.env_ok 7 [5] = Some 1%nat
  ∧ spec_append_offset Sample.env_ok 2 [5] = Some 0%nat
  ∧ Sample.after
      (GetDAP.write_time_var Sample.env_ok
         (Sample.getdap ["ssh"] (Sample.dap_loaded [1; 2]) (Some "out.nc"))
         [1; 2] (Some "time") Sample.w1)
    = Some Sample.w1.
Proof. vm_compute. repeat split. Qed.

(** A window that starts on a stored timestamp and reaches past the stored
    axis replaces the end of the axis, which stays strictly increasing. *)
Lemma write_axis_extends_sorted i tout lt d :
  StronglySorted Z.lt lt → StronglySorted Z.lt tout →
  lt !! i = Some d → head tout = Some d →
  (length lt < i + length tout)%nat →
  GetDAP.write_axis i tout lt = take i lt ++ tout
  ∧ StronglySorted Z.lt (take i lt ++ tout).
Proof.
  intros Hlt Htout Hi Hd Hlen. pose proof (lookup_lt_Some _ _ _ Hi) as Hil. split.
  - unfold GetDAP.write_axis.
    replace (i - length lt)%nat with 0%nat by lia. simpl.
    by rewrite !app_nil_r, drop_ge, app_nil_r by lia.
  - rewrite <- (take_drop_middle _ _ _ Hi) in Hlt.
    apply StronglySorted_app in Hlt as (Hlow & Htake & _).
    apply StronglySorted_app_2; [|done|done].
    intros x1 x2 Hx1 Hx2. specialize (Hlow x1 d Hx1 ltac:(left)).
    destruct tout as [|d' rest]; [done|]. injection Hd as ->.
    apply StronglySorted_cons in Htout as [Hall _].
    apply elem_of_cons in Hx2 as [->|Hx2]; [done|].
    eapply Forall_forall in Hall; [|exact Hx2]. lia.
Qed.

(** C1 as stated fails.  The window 0..3 of [ssh] is written to a new file,
    then the window 3..5, with other samples.  After the first call the
    store holds the rows 0, 1, 2, 3.  The second call assigns the rows 3, 4
    and 5: the row of the timestamp 3, already stored, is assigned a second
    time (it appears twice in the trace) and its sample 3 is replaced by
    13. *)
Lemma overlapping_writes_rewrite_stored_rows :
  let first := Sample.getdap ["ssh"] (Sample.dap_loaded [0; 1; 2; 3]) None in
  (wa ← Sample.after
          (GetDAP.write_var Sample.env_ok first "out.nc" "ssh"
             (A3 (Sample.cell <$> [0; 1; 2; 3])) Sample.w0);
   wb ← Sample.after
          (GetDAP.write_var Sample.env_ok
             (Sample.getdap ["ssh"] (Sample.dap_loaded [3; 4; 5]) (Some "out.nc"))
             "out.nc" "ssh" (A3 (Sample.cell <$> [13; 14; 15])) wa);
   Some (Sample.stored wa "out.nc" "ssh", Sample.stored wb "out.nc" "ssh",
         Sample.stored wb "out.nc" "time", Sample.trace wb "out.nc"))
  = Some (Some (SRecs (Some ∘ A2 ∘ Sample.cell <$> [0; 1; 2; 3])),
          Some (SRecs (Some ∘ A2 ∘ Sample.cell <$> [0; 1; 2; 13; 14; 15])),
          Some (SAxis [0; 1; 2; 3; 4; 5]),
          Some [("ssh", 5%nat); ("ssh", 4%nat); ("ssh", 3%nat);
                ("ssh", 3%nat); ("ssh", 2%nat); ("ssh", 1%nat); ("ssh", 0%nat)]).
Proof. vm_compute. reflexivity. Qed.

(** C1 (amended).  A write call whose window overlaps what the store holds
    (the first new timestamp is found at the index [i] of the stored time
    axis) assigns its [n] data rows to the positions [i .. i+n-1] of the
    variable, once each, over the rows already stored there: the rows of the
    overlapping timestamps are written again, in place.  The rows before [i]
    are left as they were, and the variable ends with
    [max(old length, i + n)] rows, so that no timestamp gets a second row;
    when the stored axis and the window are strictly increasing and the
    window starts on the stored timestamp of index [i], the stored time axis
    stays strictly increasing. *)
Theorem overlapping_write_overwrites_in_place E self outfile var rv dapobj
    tc xc yc zc s lt rows data d i w :
  let tout := GridDAP.localtime (GridDAP.loc dapobj) in
  let n := length tout in
  disk w !! outfile = Some s →
  GetDAP.multifile self = false →
  GetDAP.names self !! var = Some rv →
  GetDAP.daps self !! var = Some dapobj →
  get_coord_names E (GetDAP.nc self) rv = Some (Some tc, xc, yc, zc) →
  is_Some (st_vars s !! xc) → is_Some (st_vars s !! yc) →
  (∀ z, zc = Some z → is_Some (st_vars s !! z)) →
  tc ≠ xc → tc ≠ yc → zc ≠ Some tc →
  rv ≠ xc → rv ≠ yc → zc ≠ Some rv → rv ≠ tc →
  st_vars s !! tc = Some (SAxis lt) →
  st_vars s !! rv = Some (SRecs rows) →
  head tout = Some d →
  date2index E d lt = Some i →
  length (records data) = n →
  ∃ self' w' s' rows',
    GetDAP.write_var E self outfile var data w = Ok self' w'
    ∧ disk w' !! outfile = Some s'
    ∧ st_vars s' !! rv = Some (SRecs rows')
    ∧ (∀ k r, records data !! k = Some r → rows' !! (i + k)%nat = Some (Some r))
    ∧ (∀ k, (k < i)%nat → (k < length rows)%nat → rows' !! k = rows !! k)
    ∧ length rows' = (length rows `max` (i + n))%nat
    ∧ st_log s' = reverse ((λ k, (rv, k)) <$> seq i n) ++ st_log s
    ∧ st_vars s' !! tc
      = Some (SAxis (if decide (length lt < i + n)%nat
                     then GetDAP.write_axis i tout lt else lt))
    ∧ (StronglySorted Z.lt lt → StronglySorted Z.lt tout → lt !! i = Some d →
       StronglySorted Z.lt (if decide (length lt < i + n)%nat
                            then GetDAP.write_axis i tout lt else lt)).
Proof.
  intros tout n Hd Hm Hn Hdap Hc Hx Hy Hz Htx Hty Htz Hrx Hry Hrz Hrt Ht Hr Hh Hi Hlen.
  destruct (write_var_existing E self outfile var rv dapobj tc xc yc zc s lt rows
              data d i w Hd Hm Hn Hdap Hc Hx Hy Hz Htx Hty Htz Hrx Hry Hrz Hrt Ht Hr
              Hh Hi Hlen) as (self' & w' & s' & Hw & _ & Hd' & Hrows & Htime & Hlog).
  exists self', w', s', (GetDAP.write_records i (records data) rows).
  split; [done|]. split; [done|]. split; [done|].
  split; [|split; [|split; [|split; [done|split; [done|]]]]].
  - intros k r Hk. by apply write_records_window.
  - intros k Hk Hl. by apply write_records_before.
  - rewrite write_records_length. fold tout in Hlen. fold n in Hlen.
    by rewrite Hlen.
  - intros Hslt Hstout Hlti.
    destruct (decide (length lt < i + n)%nat) as [Hlt|Hge]; [|exact Hslt].
    destruct (write_axis_extends_sorted i tout lt d Hslt Hstout Hlti Hh Hlt)
      as [-> Hs]. exact Hs.
Qed.

Lemma overlapping_write_overwrites_in_place_witness :
  ∃ self' w' s' rows',
    GetDAP.write_var Sample.env_ok
      (Sample.getdap ["ssh"] (Sample.dap_loaded [3; 4; 5]) (Some "out.nc"))
      "out.nc" "ssh" (A3 (Sample.cell <$> [13; 14; 15])) Sample.w1 = Ok self' w'
    ∧ disk w' !! "out.nc" = Some s'
    ∧ st_vars s' !! "ssh" = Some (SRecs rows')
    ∧ (∀ k r, records (A3 (Sample.cell <$> [13; 14; 15])) !! k = Some r →
              rows' !! (3 + k)%nat = Some (Some r))
    ∧ (∀ k, (k < 3)%nat → (k < 4)%nat →
            rows' !! k = (Some ∘ A2 ∘ Sample.cell <$> [0; 1; 2; 3]) !! k)
    ∧ length rows' = 6%nat
    ∧ st_log s' = [("ssh", 5%nat); ("ssh", 4%nat); ("ssh", 3%nat)]
                    ++ st_log Sample.store1
    ∧ st_vars s' !! "time" = Some (SAxis [0; 1; 2; 3; 4; 5])
    ∧ (StronglySorted Z.lt [0; 1; 2; 3] → StronglySorted Z.lt [3; 4; 5] →
       [0; 1; 2; 3] !! 3%nat = Some 3 →
       StronglySorted Z.lt [0; 1; 2; 3; 4; 5]).
Proof.
  refine (overlapping_write_overwrites_in_place Sample.env_ok
            (Sample.getdap ["ssh"] (Sample.dap_loaded [3; 4; 5]) (Some "out.nc"))
            "out.nc" "ssh" "ssh" (Sample.dap_loaded [3; 4; 5])
            "time" "lon" "lat" None Sample.store1 [0; 1; 2; 3]
            (Some ∘ A2 ∘ Sample.cell <$> [0; 1; 2; 3])
            (A3 (Sample.cell <$> [13; 14; 15])) 3 3%nat Sample.w1
            _ _ _ _ _ _ _ _ _ _ _ _ _ _ _ _ _ _ _ _);
    try reflexivity; try discriminate.
  - eexists. reflexivity.
  - eexists. reflexivity.
Defined.

(** ** C2: a time range of [None] at the top level *)

(** C2 (the code at the failing input).  Whatever the session and the other
    arguments, [GetDAP.__call__] with [trange=None] raises a [TypeError]
    in [check_trange], before anything is retrieved. *)
Theorem call_with_trange_None_raises E fuel self xrange yrange zrange outfile w :
  GetDAP.call E fuel self xrange yrange None zrange outfile w = Raise TypeError w.
Proof. reflexivity. Qed.

(** The retrieval object itself accepts [trange=None]: on a variable of ten
    time steps it returns ten records. *)
Lemma get_data_trange_None_ten_records :
  (shape ∘ fst) <$>
    Sample.value (GridDAP.get_data Sample.env_ok 3
                    (Sample.dap Sample.fileG [] false [0] [0] 0 0 0)
                    "ssh" None None None None Sample.w0)
  = Some [10; 1; 1]%nat.
Proof. vm_compute. reflexivity. Qed.

(** ** C10: the value returned by the driver *)

Section Driver.
Context (E : env) (fuel : nat).
Context (xrange yrange zrange : option (Z * Z)) (outfile : option string).

Lemma call_loop_snoc vs : ∀ v self trange acc w,
  GetDAP.call_loop E fuel self (vs ++ [v]) xrange yrange zrange trange outfile acc w
  = ('(_, self1) ← GetDAP.call_loop E fuel self vs xrange yrange zrange trange
                     outfile acc;
     '(d, self2) ← call_step E fuel xrange yrange zrange outfile self1 v trange;
     mret (Some d, self2)) w.
Proof.
  induction vs as [|v0 vs IH]; intros v self trange acc w; simpl.
  - unfold call_step. munfold.
    destruct (GetDAP.load_data _ _ _ _ _ _ _ _ w) as [[d s1] w1| |]; [|done|done].
    destruct outfile; [|done].
    by destruct (GetDAP.write_var _ _ _ _ _ w1).
  - munfold.
    destruct (GetDAP.load_data _ _ _ _ _ _ _ _ w) as [[d s1] w1| |]; [|done|done].
    destruct outfile as [f|].
    + destruct (GetDAP.write_var _ _ _ _ _ w1) as [s2 w2| |]; [|done|done].
      apply IH.
    + apply IH.
Qed.

(** The loop hands on the array of its last iteration only: the array it
    held before is dropped. *)
Lemma call_is_last_step self vs v trange w :
  GetDAP.variables self = vs ++ [v] →
  GetDAP.call E fuel self xrange yrange trange zrange outfile w
  = (tr ← GetDAP.check_trange E trange;
     '(_, self1) ← GetDAP.call_loop E fuel self vs xrange yrange zrange
                     (Some tr) outfile None;
     call_step E fuel xrange yrange zrange outfile self1 v (Some tr)) w.
Proof.
  intros Hv. unfold GetDAP.call. rewrite Hv. munfold.
  destruct (GetDAP.check_trange E trange w) as [tr w0| |]; [|done|done].
  pose proof (call_loop_snoc vs v self (Some tr) None w0) as H.
  munfold. rewrite H.
  destruct (GetDAP.call_loop _ _ _ vs _ _ _ _ _ _ w0) as [[d0 s1] w1| |];
    [|done|done].
  by destruct (call_step _ _ _ _ _ _ s1 v (Some tr) w1) as [[d s2] w2| |].
Qed.
End Driver.

(** *** Retrieval leaves the local disk alone *)

Create HintDb keeps.

Lemma keeps_ret {A} (a : A) : keeps_disk (mret a).
Proof. by intros w. Qed.

Lemma keeps_raise {A} e : keeps_disk (raise e : M world A).
Proof. by intros w. Qed.

Lemma keeps_lift {A} e (o : option A) : keeps_disk (lift e o).
Proof. intros w. by destruct o. Qed.

Lemma keeps_diverge {A} : keeps_disk ((λ _, Diverge) : M world A).
Proof. by intros w. Qed.

Lemma keeps_bind {A B} (m : M world A) (k : A → M world B) :
  keeps_disk m → (∀ a, keeps_disk (k a)) → keeps_disk (m ≫= k).
Proof.
  intros Hm Hk w. munfold. specialize (Hm w).
  destruct (m w) as [a w1|e w1|]; [|done|done].
  specialize (Hk a w1). destruct (k a w1); congruence.
Qed.

Lemma keeps_try {A} (m h : M world A) :
  keeps_disk m → keeps_disk h → keeps_disk (try_except m h).
Proof.
  intros Hm Hh w. unfold try_except. specialize (Hm w).
  destruct (m w) as [a w1|e w1|]; [done| |done].
  specialize (Hh w1). destruct (h w1); congruence.
Qed.

Lemma keeps_request E : keeps_disk (request E).
Proof. intros w. unfold request. by destruct (net E (clock w)). Qed.

#[export] Hint Resolve keeps_ret keeps_raise keeps_lift keeps_diverge
  keeps_request : keeps.

Ltac keeps :=
  repeat first
    [ progress intros
    | solve [eauto with keeps]
    | apply keeps_bind
    | apply keeps_try
    | progress cbv zeta
    | match goal with
      | |- keeps_disk (match ?x with _ => _ end) => destruct x
      end ].

Section Frame.
Context (E : env).

Lemma keeps_remote_read {A} (v : option A) : keeps_disk (remote_read E v).
Proof. unfold remote_read. keeps. Qed.

Lemma keeps_Dataset name : keeps_disk (Dataset E name).
Proof. unfold Dataset. keeps. Qed.

Hint Resolve keeps_remote_read keeps_Dataset : keeps.

Lemma keeps_gettime nc tn : keeps_disk (gettime E nc tn).
Proof. unfold gettime. keeps. Qed.

Lemma keeps_scan_files tv files : ∀ lk ta,
  keeps_disk (MFncdap.scan_files E tv files lk ta).
Proof. induction files as [|f r IH]; intros lk ta; simpl; keeps. Qed.

Hint Resolve keeps_gettime keeps_scan_files : keeps.

Lemma keeps_init files tv : keeps_disk (MFncdap.init E files tv).
Proof. unfold MFncdap.init. keeps. Qed.

Hint Resolve keeps_init : keeps.

Lemma keeps_get_time_indices self trange :
  keeps_disk (GridDAP.get_time_indices E self trange).
Proof. unfold GridDAP.get_time_indices. keeps. Qed.

Lemma keeps_get_indices self xr yr zr :
  keeps_disk (GridDAP.get_indices self xr yr zr).
Proof.
  unfold GridDAP.get_indices, GridDAP.get_indices_xy, GridDAP.get_indices_z.
  keeps.
Qed.

Lemma keeps_get_2d win a fuel : keeps_disk (GridDAP.get_2d E win a fuel).
Proof. induction fuel as [|fuel IH]; simpl; keeps. Qed.

Lemma keeps_openfile fuel ff : keeps_disk (GridDAP.openfile E fuel ff).
Proof. induction fuel as [|fuel IH]; simpl; keeps. Qed.

Hint Resolve keeps_get_time_indices keeps_get_indices keeps_get_2d
  keeps_openfile : keeps.

Lemma keeps_step_once {R} (read : nat → option R) ii k data :
  keeps_disk (GridDAP.step_once E read ii k data).
Proof. unfold GridDAP.step_once. keeps. Qed.

Lemma step_loop_disk {R} (read : nat → option R) steps : ∀ ii data w d' w' r,
  GridDAP.step_loop E read ii steps data w = (d', w', r) → disk w' = disk w.
Proof.
  induction steps as [|k rest IH]; intros ii data w d' w' r H; simpl in H.
  - by injection H as _ <- _.
  - pose proof (keeps_step_once read ii k data w) as Hk.
    destruct (GridDAP.step_once E read ii k data w) as [d1 w1|e w1|].
    + apply IH in H. congruence.
    + by injection H as _ <- _.
    + by injection H as _ <- _.
Qed.

Lemma keeps_get_step {R} (read : nat → option R) t2 fuel : ∀ data tstart,
  keeps_disk (GridDAP.get_step E read t2 fuel data tstart).
Proof.
  induction fuel as [|fuel IH]; intros data tstart w; simpl; [done|].
  destruct (GridDAP.step_loop E read 0 _ data w) as [[d1 w1] r] eqn:Hl.
  apply step_loop_disk in Hl. destruct r as [k|]; [|done].
  specialize (IH d1 k w1). destruct (GridDAP.get_step _ _ _ _ _ _ w1); congruence.
Qed.

Hint Resolve keeps_get_step : keeps.

Lemma keeps_get_data_singlefile fuel self varname nc t1 t2 :
  keeps_disk (GridDAP.get_data_singlefile E fuel self varname nc t1 t2).
Proof.
  unfold GridDAP.get_data_singlefile, GridDAP.get_3d_step, GridDAP.get_4d_step.
  keeps.
Qed.

Hint Resolve keeps_get_data_singlefile : keeps.

Lemma keeps_fill_from_files fuel varname tslice : ∀ p1 data self,
  keeps_disk (GridDAP.fill_from_files E fuel varname tslice p1 data self).
Proof.
  induction tslice as [|[ff [t1 t2]] rest IH]; intros p1 data self; simpl; keeps.
Qed.

Hint Resolve keeps_fill_from_files : keeps.

Lemma keeps_get_data_multifile fuel self varname :
  keeps_disk (GridDAP.get_data_multifile E fuel self varname).
Proof. unfold GridDAP.get_data_multifile. keeps. Qed.

Hint Resolve keeps_get_data_multifile : keeps.

Lemma keeps_get_data fuel self varname xr yr zr tr :
  keeps_disk (GridDAP.get_data E fuel self varname xr yr zr tr).
Proof. unfold GridDAP.get_data. keeps. Qed.

Hint Resolve keeps_get_data : keeps.

Lemma keeps_load_data fuel self varname xr yr zr tr :
  keeps_disk (GetDAP.load_data E fuel self varname xr yr zr tr).
Proof. unfold GetDAP.load_data. keeps. Qed.

Hint Resolve keeps_load_data : keeps.

Lemma keeps_call_loop fuel vars xr yr zr tr : ∀ self acc,
  keeps_disk (GetDAP.call_loop E fuel self vars xr yr zr tr None acc).
Proof. induction vars as [|v r IH]; intros self acc; simpl; keeps. Qed.

Hint Resolve keeps_call_loop : keeps.

Lemma keeps_check_trange tr : keeps_disk (GetDAP.check_trange E tr).
Proof. unfold GetDAP.check_trange. keeps. Qed.

Hint Resolve keeps_check_trange : keeps.

(** Without an output destination the driver writes nothing. *)
Lemma keeps_call fuel self xr yr tr zr :
  keeps_disk (GetDAP.call E fuel self xr yr tr zr None).
Proof. unfold GetDAP.call. keeps. Qed.
End Frame.

(** C10.  With the requested variables [vs ++ [v]], the call is the check of
    the time range, the loop over [vs], whose array is dropped, and the
    iteration for [v], whose array is the value returned: only the array of
    the last variable is returned.  Without an output destination the call
    leaves the local disk as it was: the arrays of the earlier variables
    reach the output store only through the writes made when a destination
    is given. *)
Theorem call_returns_last_variable E fuel self vs v xrange yrange trange zrange
    outfile w :
  GetDAP.variables self = vs ++ [v] →
  GetDAP.call E fuel self xrange yrange trange zrange outfile w
  = (tr ← GetDAP.check_trange E trange;
     '(_, self1) ← GetDAP.call_loop E fuel self vs xrange yrange zrange
                     (Some tr) outfile None;
     call_step E fuel xrange yrange zrange outfile self1 v (Some tr)) w
  ∧ (outfile = None →
     match GetDAP.call E fuel self xrange yrange trange zrange outfile w with
     | Ok _ w' | Raise _ w' => disk w' = disk w
     | Diverge => True
     end).
Proof.
  intros Hv. split; [by apply call_is_last_step|].
  intros ->. apply keeps_call.
Qed.

Lemma call_returns_last_variable_witness :
  let self := Sample.getdap ["temp"; "ssh"]
                (Sample.dap Sample.fileG [] false [0] [0] 0 0 0) None in
  let tr := Some (TDate 2, TDate 5) in
  GetDAP.call Sample.env_ok 1 self None None tr None None Sample.w0
  = (tr ← GetDAP.check_trange Sample.env_ok tr;
     '(_, self1) ← GetDAP.call_loop Sample.env_ok 1 self ["temp"] None None None
                     (Some tr) None None;
     call_step Sample.env_ok 1 None None None None self1 "ssh" (Some tr)) Sample.w0
  ∧ ((None : option string) = None →
     match GetDAP.call Sample.env_ok 1 self None None tr None None Sample.w0 with
     | Ok _ w' | Raise _ w' => disk w' = disk Sample.w0
     | Diverge => True
     end).
Proof.
  intros self tr.
  apply (call_returns_last_variable Sample.env_ok 1 self ["temp"] "ssh").
  reflexivity.
Defined.

(** Two variables requested, [temp] then [ssh], over the records 2..4: the
    array returned is the one of [ssh]. *)
Example call_two_variables :
  fst <$> Sample.value
            (GetDAP.call Sample.env_ok 1
               (Sample.getdap ["temp"; "ssh"]
                  (Sample.dap Sample.fileG [] false [0] [0] 0 0 0) None)
               None None (Some (TDate 2, TDate 5)) None None Sample.w0)
  = Some (A3 [Sample.cell 2; Sample.cell 3; Sample.cell 4]).
Proof. vm_compute. reflexivity. Qed.

(** ** The coordinate locator *)

Section Locator.

Lemma np_min_lower_bound dist m :
  np_min dist = Some m → ∀ d, d ∈ dist → m ≤ d.
Proof.
  destruct dist as [|d0 r]; [done|]. intros [= <-].
  induction r as [|e r IH]; intros d Hd.
  - apply list_elem_of_singleton in Hd as ->. simpl. lia.
  - simpl. apply elem_of_cons in Hd as [->|Hd].
    + specialize (IH d0 ltac:(left)). lia.
    + apply elem_of_cons in Hd as [->|Hd]; [lia|].
      specialize (IH d ltac:(by right)). lia.
Qed.

Lemma np_min_attained dist m : np_min dist = Some m → m ∈ dist.
Proof.
  destruct dist as [|d0 r]; [done|]. intros [= <-].
  induction r as [|e r IH]; simpl; [left|].
  destruct (Z.min_spec e (foldr Z.min d0 r)) as [[_ ->]|[_ ->]].
  - right. left.
  - apply elem_of_cons in IH as [->|IH]; [left|]. by do 2 right.
Qed.

(** The first index listed by [argwhere] is the first position of the
    value. *)
Lemma argwhere_from_head m dist : ∀ i,
  m ∈ dist →
  ∃ j, head (argwhere_from i m dist) = Some (i + j)%nat
       ∧ dist !! j = Some m
       ∧ ∀ k, (k < j)%nat → dist !! k ≠ Some m.
Proof.
  induction dist as [|d r IH]; intros i Hm; [by apply elem_of_nil in Hm|].
  simpl. destruct (decide (d = m)) as [->|Hne].
  - exists 0%nat. split; [simpl; f_equal; lia|]. split; [done|]. lia.
  - apply elem_of_cons in Hm as [->|Hm]; [done|].
    destruct (IH (S i) Hm) as (j & Hh & Hj & Hfirst).
    exists (S j). split; [rewrite Hh; f_equal; lia|]. split; [done|].
    intros [|k] Hk; simpl; [congruence|]. apply Hfirst. lia.
Qed.

(** What [find_nearest_1d] computes: nothing on an empty axis, and
    otherwise the first position of the least distance. *)
Lemma find_nearest_1d_first_minimum data value :
  match find_nearest_1d data value with
  | None => data = []
  | Some i =>
      ∃ d, data !! i = Some d
           ∧ (∀ j e, data !! j = Some e → Z.abs (d - value) ≤ Z.abs (e - value))
           ∧ (∀ j e, (j < i)%nat → data !! j = Some e →
                     Z.abs (d - value) < Z.abs (e - value))
  end.
Proof.
  unfold find_nearest_1d.
  set (dist := map (λ d, Z.abs (d - value)) data).
  destruct (np_min dist) as [m|] eqn:Hm; simpl.
  - pose proof (np_min_attained _ _ Hm) as Hin.
    pose proof (np_min_lower_bound _ _ Hm) as Hlow.
    destruct (argwhere_from_head m dist 0 Hin) as (i & Hh & Hi & Hfirst).
    unfold argwhere. rewrite Hh. simpl.
    unfold dist in Hi. change map with (@fmap list _) in *.
    rewrite list_lookup_fmap in Hi.
    destruct (data !! i) as [d|] eqn:Hd; [|done]. injection Hi as Hi.
    exists d. split; [done|]. split.
    + intros j e He. rewrite Hi. apply Hlow.
      apply list_elem_of_lookup. exists j.
      unfold dist. by rewrite list_lookup_fmap, He.
    + intros j e Hj He. rewrite Hi.
      assert (m ≤ Z.abs (e - value)) as Hle.
      { apply Hlow. apply list_elem_of_lookup. exists j.
        unfold dist. by rewrite list_lookup_fmap, He. }
      assert (Z.abs (e - value) ≠ m) as Hne.
      { intros Heq. apply (Hfirst j Hj).
        unfold dist. by rewrite list_lookup_fmap, He, <- Heq. }
      lia.
  - destruct data; [done|]. done.
Qed.

End Locator.




(** X3.  The depth axis is searched with the arguments in the other order,
    [find_nearest_1d(value, data)]; this gives the same position. *)
Theorem find_nearest_1d_arguments_commute value data :
  find_nearest_1d_scalar_first value data = find_nearest_1d data value.
Proof.
  unfold find_nearest_1d_scalar_first, find_nearest_1d.
  assert (map (λ d, Z.abs (value - d)) data = map (λ d, Z.abs (d - value)) data)
    as ->; [|done].
  apply map_ext. intros d. lia.
Qed.

Section Locator2.








End Locator2.


(** ** Index windows *)

Section Windows.

Lemma find_nearest_1d_in_range data value i :
  find_nearest_1d data value = Some i → (i < length data)%nat.
Proof.
  intros H. pose proof (find_nearest_1d_first_minimum data value) as Hs.
  rewrite H in Hs. destruct Hs as (d & Hd & _). by eapply lookup_lt_Some.
Qed.

Lemma bind_unfold {S A B} (m : M S A) (k : A → M S B) s :
  (m ≫= k) s
  = match m s with
    | Ok a s' => k a s'
    | Raise e s' => Raise e s'
    | Diverge => Diverge
    end.
Proof. done. Qed.

(** The horizontal window on one-dimensional axes. *)
Lemma get_indices_xy_Grid1 X Y xr yr (w : world) :
  GridDAP.get_indices_xy (GridDAP.Grid1 X Y) xr yr w
  = match xr with
    | None =>
        match yr with
        | None => Ok (0%nat, length X, 0%nat, length Y) w
        | Some yr =>
            match find_nearest_1d Y yr.1, find_nearest_1d Y yr.2 with
            | Some a, Some b => Ok (0%nat, length X, a `min` b, a `max` b)%nat w
            | _, _ => Raise ValueError w
            end
        end
    | Some xr =>
        match find_nearest_1d X xr.1, find_nearest_1d X xr.2 with
        | Some x1, Some x2 =>
            match yr with
            | None => Ok (x1, x2, 0%nat, length Y) w
            | Some yr =>
                match find_nearest_1d Y yr.1, find_nearest_1d Y yr.2 with
                | Some a, Some b => Ok (x1, x2, a `min` b, a `max` b)%nat w
                | _, _ => Raise ValueError w
                end
            end
        | _, _ => Raise ValueError w
        end
    end.
Proof.
  unfold GridDAP.get_indices_xy. munfold.
  destruct xr as [xr|], yr as [yr|]; simpl;
    repeat (match goal with
            | |- context [find_nearest_1d ?l ?v] =>
                destruct (find_nearest_1d l v); simpl
            end); done.
Qed.

Lemma get_indices_Ok self xr yr zr w self' w' :
  GridDAP.get_indices self xr yr zr w = Ok self' w' →
  ∃ x1 x2 y1 y2 zw,
    GridDAP.get_indices_xy (GridDAP.XY (GridDAP.conf self)) xr yr w
    = Ok (x1, x2, y1, y2) w
    ∧ w' = w
    ∧ self' = GridDAP.with_win self
                {| GridDAP.x1 := x1; GridDAP.x2 := x2;
                   GridDAP.y1 := y1; GridDAP.y2 := y2;
                   GridDAP.nx := Z.of_nat x2 - Z.of_nat x1;
                   GridDAP.ny := Z.of_nat y2 - Z.of_nat y1;
                   GridDAP.zwin := zw |}.
Proof.
  intros H. unfold GridDAP.get_indices in H.
  apply bind_Ok in H as ([[[x1 x2] y1] y2] & s1 & Hxy & H).
  assert (s1 = w) as ->.
  { destruct (GridDAP.XY (GridDAP.conf self)) as [X Y|X Y].
    - rewrite get_indices_xy_Grid1 in Hxy.
      repeat (match type of Hxy with
              | context [match ?x with _ => _ end] => destruct x
              end; try done); by injection Hxy.
    - unfold GridDAP.get_indices_xy in Hxy.
      destruct xr as [xr|], yr as [yr|]; try (by injection Hxy).
      apply bind_Ok in Hxy as (ind & s & H1 & Hxy). apply lift_Ok in H1 as [_ ->].
      apply bind_Ok in Hxy as ([a b] & s & H1 & Hxy). apply lift_Ok in H1 as [_ ->].
      apply bind_Ok in Hxy as (ind' & s & H1 & Hxy). apply lift_Ok in H1 as [_ ->].
      apply bind_Ok in Hxy as ([a' b'] & s & H1 & Hxy). apply lift_Ok in H1 as [_ ->].
      by injection Hxy. }
  apply bind_Ok in H as (zw & s2 & Hz & H).
  assert (s2 = w) as ->.
  { destruct (GridDAP.zcoord (GridDAP.conf self)); [|by injection Hz].
    apply bind_Ok in Hz as (zw' & s3 & Hz & Hr). injection Hr as _ <-.
    unfold GridDAP.get_indices_z in Hz.
    apply bind_Ok in Hz as ([z1 z2] & s4 & H1 & Hz). injection Hz as _ <-.
    destruct zr as [zr|]; [|by injection H1].
    apply bind_Ok in H1 as (a & s5 & H2 & H1). apply lift_Ok in H2 as [_ ->].
    apply bind_Ok in H1 as (b & s5 & H2 & H1). apply lift_Ok in H2 as [_ ->].
    by injection H1. }
  injection H as <- <-. exists x1, x2, y1, y2, zw. done.
Qed.

End Windows.

(** X5.  On one-dimensional axes the window that [get_indices] resolves
    lies inside the grid, and its y bounds are in increasing order whatever
    the order of the requested ones; a bound that was requested resolves to
    a position of the axis.  The search sends no request. *)
Theorem get_indices_window_lies_in_the_grid self X Y xr yr zr w self' w' :
  GridDAP.XY (GridDAP.conf self) = GridDAP.Grid1 X Y →
  GridDAP.get_indices self xr yr zr w = Ok self' w' →
  let win := GridDAP.win self' in
  w' = w
  ∧ (GridDAP.x1 win ≤ length X ∧ GridDAP.x2 win ≤ length X)%nat
  ∧ (GridDAP.y1 win ≤ GridDAP.y2 win ≤ length Y)%nat
  ∧ 0 ≤ GridDAP.ny win
  ∧ (is_Some xr → (GridDAP.x1 win < length X ∧ GridDAP.x2 win < length X)%nat)
  ∧ (is_Some yr → (GridDAP.y2 win < length Y)%nat).
Proof.
  intros HG H. apply get_indices_Ok in H as (x1 & x2 & y1 & y2 & zw & Hxy & -> & ->).
  rewrite HG, get_indices_xy_Grid1 in Hxy. simpl.
  split; [done|].
  destruct xr as [xr|].
  - destruct (find_nearest_1d X xr.1) as [a|] eqn:Ha; [|done].
    destruct (find_nearest_1d X xr.2) as [b|] eqn:Hb; [|done].
    apply find_nearest_1d_in_range in Ha, Hb.
    destruct yr as [yr|].
    + destruct (find_nearest_1d Y yr.1) as [c|] eqn:Hc; [|done].
      destruct (find_nearest_1d Y yr.2) as [d|] eqn:Hd; [|done].
      apply find_nearest_1d_in_range in Hc, Hd.
      injection Hxy as <- <- <- <-. split_and!; try lia; intros _; lia.
    + injection Hxy as <- <- <- <-. split_and!; try lia; intros [? ?]; done || lia.
  - destruct yr as [yr|].
    + destruct (find_nearest_1d Y yr.1) as [c|] eqn:Hc; [|done].
      destruct (find_nearest_1d Y yr.2) as [d|] eqn:Hd; [|done].
      apply find_nearest_1d_in_range in Hc, Hd.
      injection Hxy as <- <- <- <-. split_and!; try lia; intros [? ?]; done || lia.
    + injection Hxy as <- <- <- <-. split_and!; try lia; intros [? ?]; done || lia.
Qed.

Lemma get_indices_window_lies_in_the_grid_witness :
  let self := Sample.dap Sample.fileG [] false [0; 10; 20; 30] [5; 6; 7] 0 0 0 in
  ∃ self',
    GridDAP.get_indices self (Some (9, 31)) (Some (7, 5)) None Sample.w0
    = Ok self' Sample.w0
    ∧ (GridDAP.x1 (GridDAP.win self') < 4 ∧ GridDAP.x2 (GridDAP.win self') < 4)%nat
    ∧ (GridDAP.y1 (GridDAP.win self') ≤ GridDAP.y2 (GridDAP.win self') ≤ 3)%nat.
Proof.
  intros self.
  destruct (GridDAP.get_indices self (Some (9, 31)) (Some (7, 5)) None Sample.w0)
    as [self' w'| |] eqn:H; [|by vm_compute in H..].
  assert (w' = Sample.w0) as -> by (vm_compute in H; by injection H).
  exists self'. split; [done|].
  destruct (get_indices_window_lies_in_the_grid self [0; 10; 20; 30] [5; 6; 7]
              (Some (9, 31)) (Some (7, 5)) None Sample.w0 self' Sample.w0
              eq_refl H) as (_ & Hx & Hy & _ & Hxs & _).
  split; [apply Hxs; eauto|exact Hy].
Defined.

(** X6.  On one-dimensional axes the window does not depend on the order of
    the two y bounds, which are sorted; the x bounds are not: exchanging
    them exchanges the two x positions and changes the sign of [nx]. *)
Theorem get_indices_sorts_the_y_bounds_only self X Y a b c d zr w :
  GridDAP.XY (GridDAP.conf self) = GridDAP.Grid1 X Y →
  GridDAP.get_indices self (Some (a, b)) (Some (c, d)) zr w
  = GridDAP.get_indices self (Some (a, b)) (Some (d, c)) zr w
  ∧ ∀ self1 w1,
      GridDAP.get_indices self (Some (a, b)) (Some (c, d)) zr w = Ok self1 w1 →
      ∃ self2,
        GridDAP.get_indices self (Some (b, a)) (Some (c, d)) zr w = Ok self2 w1
        ∧ GridDAP.x1 (GridDAP.win self2) = GridDAP.x2 (GridDAP.win self1)
        ∧ GridDAP.x2 (GridDAP.win self2) = GridDAP.x1 (GridDAP.win self1)
        ∧ GridDAP.nx (GridDAP.win self2) = - GridDAP.nx (GridDAP.win self1)
        ∧ GridDAP.ny (GridDAP.win self2) = GridDAP.ny (GridDAP.win self1).
Proof.
  intros HG. unfold GridDAP.get_indices. rewrite HG.
  rewrite !(bind_unfold (GridDAP.get_indices_xy _ _ _)), !get_indices_xy_Grid1.
  simpl. split.
  - destruct (find_nearest_1d X a), (find_nearest_1d X b); try done.
    destruct (find_nearest_1d Y c) as [i|], (find_nearest_1d Y d) as [j|];
      try done.
    by rewrite (Nat.min_comm j i), (Nat.max_comm j i).
  - intros self1 w1.
    destruct (find_nearest_1d X a) as [i|], (find_nearest_1d X b) as [j|];
      try done.
    destruct (find_nearest_1d Y c) as [k|], (find_nearest_1d Y d) as [l|];
      try done.
    intros H. apply bind_Ok in H as (zw & s2 & Hz & H). injection H as <- <-.
    rewrite (bind_Ok_intro _ _ _ _ _ Hz). eexists. split; [done|]. simpl.
    repeat split; lia.
Qed.

Lemma get_indices_sorts_the_y_bounds_only_witness :
  let self := Sample.dap Sample.fileG [] false [0; 10; 20; 30] [5; 6; 7] 0 0 0 in
  GridDAP.get_indices self (Some (9, 31)) (Some (7, 5)) None Sample.w0
  = GridDAP.get_indices self (Some (9, 31)) (Some (5, 7)) None Sample.w0.
Proof.
  intros self.
  exact (proj1 (get_indices_sorts_the_y_bounds_only self [0; 10; 20; 30] [5; 6; 7]
                  9 31 7 5 None Sample.w0 eq_refl)).
Defined.



(** ** Retrieval from one file *)

(** X8.  [get_data_singlefile] raises without sending a request, whatever
    the state of the server, when the variable is missing ([KeyError]), has
    one dimension ([UnboundLocalError]), has four dimensions while no depth
    window was resolved ([AttributeError]), or has two dimensions while an
    extent of the window is negative ([ValueError]). *)
Theorem get_data_singlefile_raises_before_any_request E fuel self varname nc
    t1 t2 e w :
  unreadable self nc varname e →
  GridDAP.get_data_singlefile E fuel self varname nc t1 t2 w = Raise e w.
Proof.
  intros H. unfold GridDAP.get_data_singlefile.
  destruct H as [Hv|a Hv|a Hv Hz|a Hv Hn]; rewrite Hv; [done|done| |].
  - rewrite lift_Some_bind. munfold. rewrite Hz. simpl.
    by destruct (GridDAP.graball (GridDAP.conf self)).
  - rewrite lift_Some_bind.
    assert (np_zeros3 1 (GridDAP.ny (GridDAP.win self))
              (GridDAP.nx (GridDAP.win self)) = None) as Hz.
    { unfold np_zeros3, zeros.
      destruct (decide (GridDAP.nx (GridDAP.win self) < 0)); [done|]. simpl.
      destruct (decide (GridDAP.ny (GridDAP.win self) < 0)); [done|]. lia. }
    munfold. by rewrite Hz.
Qed.

Lemma get_data_singlefile_raises_before_any_request_witness :
  GridDAP.get_data_singlefile Sample.env_ok 5
    (Sample.dap Sample.fileG [] false [0] [0] 1 1 10) "time" Sample.fileG 0 10
    Sample.w0
  = Raise UnboundLocalError Sample.w0.
Proof.
  apply get_data_singlefile_raises_before_any_request.
  apply (unreadable_one_dimension _ _ _ [0; 1; 2; 3; 4; 5; 6; 7; 8; 9]).
  reflexivity.
Defined.

Section WholeVariable.
Context (E : env).

Lemma try_except_Ok {S A} (m h : M S A) s a s' :
  m s = Ok a s' → try_except m h s = Ok a s'.
Proof. unfold try_except. by intros ->. Qed.

Lemma slice_all {A} (l : list A) n : (length l ≤ n)%nat → slice 0 n l = l.
Proof. intros H. unfold slice. rewrite drop_0, take_ge; [done|lia]. Qed.

Lemma sub2_all win (rec : list (list Z)) :
  GridDAP.x1 win = 0%nat → GridDAP.y1 win = 0%nat →
  (length rec ≤ GridDAP.y2 win)%nat →
  Forall (λ row, (length row ≤ GridDAP.x2 win)%nat) rec →
  GridDAP.sub2 win rec = rec.
Proof.
  intros Hx Hy Hl Hrows. unfold GridDAP.sub2. rewrite Hx, Hy.
  rewrite slice_all by done.
  induction Hrows as [|row r Hrow _ IH]; [done|]. simpl in *.
  rewrite slice_all by done. f_equal. apply IH. lia.
Qed.

Lemma map_sub2_all win (a : list (list (list Z))) :
  GridDAP.x1 win = 0%nat → GridDAP.y1 win = 0%nat →
  Forall (λ rec, (length rec ≤ GridDAP.y2 win)%nat
                 ∧ Forall (λ row, (length row ≤ GridDAP.x2 win)%nat) rec) a →
  map (GridDAP.sub2 win) a = a.
Proof.
  intros Hx Hy Hshape. induction Hshape as [|rec r [Hl Hrows] _ IH]; [done|].
  simpl. rewrite IH. f_equal. by apply sub2_all.
Qed.

(** The time window of a single-file retrieval without time range. *)
Lemma get_time_indices_whole_axis self tm w :
  GridDAP.multifile (GridDAP.conf self) = false →
  variable (GridDAP.nc (GridDAP.conf self)) (GridDAP.timecoord (GridDAP.conf self))
  = Some (A1 tm) →
  net E (clock w) = true →
  let t2 := if decide (0 = length tm)%nat then S (length tm) else length tm in
  GridDAP.get_time_indices E self None w
  = Ok (GridDAP.with_tw self
          {| GridDAP.MF := GridDAP.MF (GridDAP.tw self); GridDAP.time := tm;
             GridDAP.t1 := 0; GridDAP.t2 := t2;
             GridDAP.nt := Z.of_nat t2 - Z.of_nat 0 |})
       (tick 1 w).
Proof.
  intros Hm Ht Hn t2. unfold GridDAP.get_time_indices. rewrite Hm. simpl.
  unfold gettime. rewrite Ht.
  rewrite bind_unfold, bind_unfold, lift_Some_bind, remote_read_ok by done.
  munfold. simpl. done.
Qed.

Lemma get_time_indices_axis_refused self tm trange w :
  GridDAP.multifile (GridDAP.conf self) = false →
  variable (GridDAP.nc (GridDAP.conf self)) (GridDAP.timecoord (GridDAP.conf self))
  = Some (A1 tm) →
  net E (clock w) = false →
  GridDAP.get_time_indices E self trange w = Raise IOError (tick 1 w).
Proof.
  intros Hm Ht Hn. unfold GridDAP.get_time_indices. rewrite Hm. simpl.
  unfold gettime. rewrite Ht.
  rewrite bind_unfold, bind_unfold, lift_Some_bind, remote_read_fail by done.
  done.
Qed.

End WholeVariable.

(** X9.  In single-file mode, a retrieval with no range at all returns the
    whole three-dimensional variable, unchanged, in two requests (the time
    axis, then the data), and keeps the whole time axis and the whole grid
    as local coordinates. *)
Theorem get_data_without_ranges_returns_the_variable E fuel self varname X Y tm
    a w :
  GridDAP.multifile (GridDAP.conf self) = false →
  GridDAP.graball (GridDAP.conf self) = true →
  GridDAP.XY (GridDAP.conf self) = GridDAP.Grid1 X Y →
  variable (GridDAP.nc (GridDAP.conf self)) (GridDAP.timecoord (GridDAP.conf self))
  = Some (A1 tm) →
  ds_variables (GridDAP.nc (GridDAP.conf self)) !! varname = Some (A3 a) →
  length a = length tm →
  Forall (λ rec, (length rec ≤ length Y)%nat
                 ∧ Forall (λ row, (length row ≤ length X)%nat) rec) a →
  net E (clock w) = true → net E (S (clock w)) = true →
  ∃ self',
    GridDAP.get_data E fuel self varname None None None None w
    = Ok (A3 a, self') (tick 2 w)
    ∧ GridDAP.localtime (GridDAP.loc self') = tm
    ∧ GridDAP.localXY (GridDAP.loc self') = GridDAP.Grid1 X Y.
Proof.
  intros Hm Hg HG Ht Hv Hlen Hshape Hn1 Hn2. unfold GridDAP.get_data.
  assert (∃ zw,
    GridDAP.get_indices self None None None w
    = Ok (GridDAP.with_win self
            {| GridDAP.x1 := 0; GridDAP.x2 := length X;
               GridDAP.y1 := 0; GridDAP.y2 := length Y;
               GridDAP.nx := Z.of_nat (length X) - Z.of_nat 0;
               GridDAP.ny := Z.of_nat (length Y) - Z.of_nat 0;
               GridDAP.zwin := zw |}) w) as [zw Hi].
  { unfold GridDAP.get_indices. rewrite HG.
    rewrite (bind_unfold (GridDAP.get_indices_xy _ _ _)), get_indices_xy_Grid1.
    destruct (GridDAP.zcoord (GridDAP.conf self)); eexists; done. }
  rewrite (bind_Ok_intro _ _ _ _ _ Hi).
  set (self1 := GridDAP.with_win self _) in *.
  rewrite (bind_Ok_intro _ _ _ _ _
             (get_time_indices_whole_axis E self1 tm w Hm Ht Hn1)).
  simpl. rewrite Hm. simpl.
  set (t2 := if decide (0 = length tm)%nat then S (length tm) else length tm).
  assert (length tm ≤ t2)%nat as Ht2 by (unfold t2; case_decide; lia).
  clearbody t2.
  unfold GridDAP.get_data_singlefile. simpl.
  rewrite Hv, lift_Some_bind, Hg.
  eexists. split.
  - erewrite bind_Ok_intro;
      [|erewrite bind_Ok_intro;
          [|apply try_except_Ok, remote_read_ok; exact Hn2]; reflexivity].
    simpl. rewrite tick_tick, (slice_all a t2) by lia.
    rewrite map_sub2_all; [reflexivity|done|done|done].
  - simpl. rewrite HG. simpl.
    split; [by apply slice_all|]. f_equal; by apply slice_all.
Qed.

Lemma get_data_without_ranges_returns_the_variable_witness :
  ∃ self',
    GridDAP.get_data Sample.env_ok 0
      (Sample.dap Sample.fileG [] false [0] [0] 0 0 0) "ssh" None None None None
      Sample.w0
    = Ok (A3 (Sample.cell <$> [0; 1; 2; 3; 4; 5; 6; 7; 8; 9]), self')
         (tick 2 Sample.w0)
    ∧ GridDAP.localtime (GridDAP.loc self') = [0; 1; 2; 3; 4; 5; 6; 7; 8; 9]
    ∧ GridDAP.localXY (GridDAP.loc self') = GridDAP.Grid1 [0] [0].
Proof.
  apply (get_data_without_ranges_returns_the_variable Sample.env_ok 0
           (Sample.dap Sample.fileG [] false [0] [0] 0 0 0) "ssh" [0] [0]
           [0; 1; 2; 3; 4; 5; 6; 7; 8; 9]);
    try reflexivity.
  repeat constructor.
Defined.

(** X10.  The read of the time axis is not protected by a retry: in
    single-file mode, when the window was resolved and the server refuses
    that request, [get_data] raises [IOError] after one request. *)
Theorem get_data_surfaces_a_refused_time_axis E fuel self varname xr yr zr trange
    tm self1 w :
  GridDAP.multifile (GridDAP.conf self) = false →
  variable (GridDAP.nc (GridDAP.conf self)) (GridDAP.timecoord (GridDAP.conf self))
  = Some (A1 tm) →
  GridDAP.get_indices self xr yr zr w = Ok self1 w →
  net E (clock w) = false →
  GridDAP.get_data E fuel self varname xr yr zr trange w
  = Raise IOError (tick 1 w).
Proof.
  intros Hm Ht Hi Hn. unfold GridDAP.get_data.
  rewrite (bind_Ok_intro _ _ _ _ _ Hi).
  pose proof Hi as Hi'.
  apply get_indices_Ok in Hi' as (x1 & x2 & y1 & y2 & zw & _ & _ & ->).
  apply bind_Raise_intro.
  by apply (get_time_indices_axis_refused E _ tm).
Qed.

Lemma get_data_surfaces_a_refused_time_axis_witness :
  GridDAP.get_data (Sample.env_late 1) 5
    (Sample.dap Sample.fileG [] false [0] [0] 0 0 0) "ssh" None None None None
    Sample.w0
  = Raise IOError (tick 1 Sample.w0).
Proof.
  eapply (get_data_surfaces_a_refused_time_axis (Sample.env_late 1) 5
            (Sample.dap Sample.fileG [] false [0] [0] 0 0 0) "ssh"
            None None None None [0; 1; 2; 3; 4; 5; 6; 7; 8; 9]);
    reflexivity.
Defined.

(** ** The multi-file time index *)

Section Index.
Context (E : env).

Lemma request_Ok_inv w u w' :
  request E w = Ok u w' → net E (clock w) = true ∧ w' = tick 1 w.
Proof.
  unfold request. destruct (net E (clock w)); [|done]. by intros [= _ <-].
Qed.

Lemma Dataset_Ok_inv f w nc w' :
  Dataset E f w = Ok nc w' →
  remote E !! f = Some nc ∧ net E (clock w) = true ∧ w' = tick 1 w.
Proof.
  intros H. unfold Dataset in H. apply bind_Ok in H as (u & s & Hr & H).
  apply request_Ok_inv in Hr as [Hn ->]. by apply lift_Ok in H as [-> ->].
Qed.

Lemma remote_read_Ok_inv {A} (v : option A) w a w' :
  remote_read E v w = Ok a w' →
  v = Some a ∧ net E (clock w) = true ∧ w' = tick 1 w.
Proof.
  intros H. unfold remote_read in H. apply bind_Ok in H as (u & s & Hr & H).
  apply request_Ok_inv in Hr as [Hn ->]. by apply lift_Ok in H as [-> ->].
Qed.

(** [scan_files] opens every file and reads its time axis: two requests
    a file. *)
Lemma scan_files_requests tv files : ∀ lk ta w r w',
  MFncdap.scan_files E tv files lk ta w = Ok r w' →
  w' = tick (2 * length files) w
  ∧ ∀ i, (i < 2 * length files)%nat → net E (clock w + i)%nat = true.
Proof.
  induction files as [|f rest IH]; intros lk ta w r w' H; simpl in H.
  - injection H as _ <-. split; [by destruct w|]. simpl. lia.
  - apply bind_Ok in H as (nc & s1 & H1 & H).
    apply Dataset_Ok_inv in H1 as (_ & Hn1 & ->).
    apply bind_Ok in H as (tv0 & s2 & H2 & H). apply lift_Ok in H2 as [_ ->].
    apply bind_Ok in H as (ts & s3 & H3 & H).
    apply remote_read_Ok_inv in H3 as (_ & Hn2 & ->).
    apply IH in H as [-> Hnet]. rewrite !tick_tick. split.
    + f_equal. simpl. lia.
    + intros i Hi. destruct i as [|[|i]].
      * by rewrite Nat.add_0_r.
      * simpl in Hn2. by rewrite Nat.add_1_r.
      * specialize (Hnet i). simpl in Hnet.
        replace (clock w + S (S i))%nat with (S (S (clock w + i))) by lia.
        apply Hnet. simpl in Hi. lia.
Qed.

(** An entry of the lookup either was there or was recorded for a
    timestamp that formats to its key. *)
Lemma record_times_lookup f ts : ∀ ii lk k g jj,
  MFncdap.record_times E f ii ts lk !! k = Some (g, jj) →
  lk !! k = Some (g, jj)
  ∨ (g = f ∧ ∃ j t, jj = (ii + j)%nat ∧ ts !! j = Some t ∧ strftime E t = k).
Proof.
  induction ts as [|tm r IH]; intros ii lk k g jj H; [by left|].
  rewrite record_times_eq in H.
  apply IH in H as [H|(-> & j & t & -> & Hj & Hk)].
  - destruct (decide (strftime E tm = k)) as [<-|Hne].
    + rewrite lookup_insert_eq in H. injection H as <- <-. right.
      split; [done|]. exists 0%nat, tm. split; [lia|done].
    + rewrite lookup_insert_ne in H by done. by left.
  - right. split; [done|]. exists (S j), t. split; [lia|done].
Qed.

Lemma record_times_keeps f ts : ∀ ii lk k,
  is_Some (lk !! k) → is_Some (MFncdap.record_times E f ii ts lk !! k).
Proof.
  induction ts as [|tm r IH]; intros ii lk k H; [done|].
  rewrite record_times_eq. apply IH.
  destruct (decide (strftime E tm = k)) as [<-|Hne].
  - rewrite lookup_insert_eq. eauto.
  - by rewrite lookup_insert_ne.
Qed.

Lemma record_times_records f ts : ∀ ii lk t,
  t ∈ ts → is_Some (MFncdap.record_times E f ii ts lk !! strftime E t).
Proof.
  induction ts as [|tm r IH]; intros ii lk t Ht; [by apply elem_of_nil in Ht|].
  rewrite record_times_eq. apply elem_of_cons in Ht as [->|Ht].
  - apply record_times_keeps. rewrite lookup_insert_eq. eauto.
  - by apply IH.
Qed.

Lemma record_all_lookup (fts : list (string * list datetime)) : ∀ lk k g jj,
  foldl (λ l ft, MFncdap.record_times E ft.1 0 ft.2 l) lk fts !! k = Some (g, jj) →
  lk !! k = Some (g, jj)
  ∨ ∃ ts t, (g, ts) ∈ fts ∧ ts !! jj = Some t ∧ strftime E t = k.
Proof.
  induction fts as [|[f ts] r IH]; intros lk k g jj H; [by left|].
  simpl in H. apply IH in H as [H|(ts' & t & Hin & Ht & Hk)].
  - apply record_times_lookup in H as [H|(-> & j & t & -> & Hj & Hk)];
      [by left|].
    right. exists ts, t. split; [left|done].
  - right. exists ts', t. split; [by right|done].
Qed.

Lemma record_all_keeps (fts : list (string * list datetime)) : ∀ lk k,
  is_Some (lk !! k) →
  is_Some (foldl (λ l ft, MFncdap.record_times E ft.1 0 ft.2 l) lk fts !! k).
Proof.
  induction fts as [|[f ts] r IH]; intros lk k H; [done|].
  simpl. by apply IH, record_times_keeps.
Qed.

Lemma record_all_records (fts : list (string * list datetime)) : ∀ lk ft t,
  ft ∈ fts → t ∈ ft.2 →
  is_Some (foldl (λ l ft, MFncdap.record_times E ft.1 0 ft.2 l) lk fts
             !! strftime E t).
Proof.
  induction fts as [|[f ts] r IH]; intros lk ft t Hft Ht;
    [by apply elem_of_nil in Hft|].
  simpl. apply elem_of_cons in Hft as [->|Hft].
  - by apply record_all_keeps, record_times_records.
  - by eapply IH.
Qed.

(** What [init] leaves in the index. *)
Lemma init_Ok files timevar w mf w' :
  MFncdap.init E files timevar w = Ok mf w' →
  ∃ tss,
    Forall2 (λ f ts, file_times E timevar f = Some ts) files tss
    ∧ MFncdap.ncfilelist mf = files
    ∧ MFncdap.timelookup mf
      = foldl (λ l ft, MFncdap.record_times E ft.1 0 ft.2 l) ∅ (zip files tss)
    ∧ MFncdap.time mf = MFncdap.np_unique tss
    ∧ w' = tick (2 * length files) w.
Proof.
  intros H. unfold MFncdap.init in H.
  apply bind_Ok in H as ([lk ta] & s1 & Hs & H).
  apply bind_Ok in H as (a & s2 & Ha & H). injection H as <- <-.
  apply lift_Ok in Ha as [Ha ->]. apply np_array_Some in Ha as ->.
  pose proof (scan_files_requests _ _ _ _ _ _ _ Hs) as [-> _].
  apply scan_files_Ok in Hs as (tss & Hm & -> & ->). by exists tss.
Qed.

Lemma elem_of_zip_files files tss tv f ts :
  Forall2 (λ f ts, file_times E tv f = Some ts) files tss →
  (f, ts) ∈ zip files tss → f ∈ files ∧ file_times E tv f = Some ts.
Proof.
  intros Hm [k Hk]%list_elem_of_lookup.
  apply lookup_zip_with_Some in Hk as (g & ts0 & [= <- <-] & Hg & Hts).
  split; [by eapply list_elem_of_lookup_2|].
  by eapply Forall2_lookup_lr in Hm.
Qed.

Lemma init_lookup_sound files timevar w mf w' k f ii :
  MFncdap.init E files timevar w = Ok mf w' →
  MFncdap.timelookup mf !! k = Some (f, ii) →
  f ∈ files
  ∧ ∃ ts t, file_times E timevar f = Some ts ∧ ts !! ii = Some t
            ∧ strftime E t = k.
Proof.
  intros Hi Hk. apply init_Ok in Hi as (tss & Hm & _ & Hlk & _).
  rewrite Hlk in Hk.
  apply record_all_lookup in Hk as [Hk|(ts & t & Hin & Ht & Hs)].
  - by rewrite lookup_empty in Hk.
  - destruct (elem_of_zip_files _ _ _ _ _ Hm Hin) as [Hf Hft].
    split; [done|]. by exists ts, t.
Qed.

(** *** The grouping of [__call__] *)

Lemma call_eq mf times :
  MFncdap.call E mf times
  = hits ← mapM (λ tm, MFncdap.timelookup mf !! strftime E tm) times;
    tslice ← mapM (λ '(f, vals),
                lo ← MFncdap.py_min vals; hi ← MFncdap.py_max vals;
                Some (f, (lo, hi))) (group [] hits);
    Some (hits.*2, hits.*1, tslice).
Proof.
  unfold MFncdap.call. destruct (mapM _ times) as [hits|]; [|done]. simpl.
  rewrite zip_swap.
  assert (∀ d l, foldl (λ d '(ti, f), MFncdap.od_append f ti d) d
                   ((λ h : string * nat, (h.2, h.1)) <$> l) = group d l) as Hg.
  { intros d l. revert d. induction l as [|[f i] r IH]; intros d; [done|].
    simpl. by rewrite IH. }
  by rewrite Hg.
Qed.

Lemma od_append_keys f ti d :
  (MFncdap.od_append f ti d).*1 = if decide (f ∈ d.*1) then d.*1 else d.*1 ++ [f].
Proof.
  induction d as [|[g vals] r IH]; simpl; [done|].
  destruct (decide (g = f)) as [->|Hne].
  - rewrite decide_True by left. done.
  - rewrite fmap_cons, IH. simpl. destruct (decide (f ∈ r.*1)).
    + rewrite decide_True by (by right). done.
    + rewrite decide_False; [done|]. rewrite not_elem_of_cons. done.
Qed.

Lemma od_append_well_grouped f ti d :
  well_grouped d → well_grouped (MFncdap.od_append f ti d).
Proof.
  intros [Hnd Hne]. split.
  - rewrite od_append_keys. case_decide; [done|].
    apply NoDup_app. split; [done|]. split; [|apply NoDup_singleton].
    intros x Hx ->%list_elem_of_singleton. done.
  - clear Hnd. induction Hne as [|[g vals] r Hg Hr IH]; simpl.
    + by repeat constructor.
    + case_decide; constructor; simpl in *; try done.
      by destruct vals.
Qed.

Lemma od_append_elem f ti d g i :
  (∃ vals, (g, vals) ∈ MFncdap.od_append f ti d ∧ i ∈ vals)
  ↔ (∃ vals, (g, vals) ∈ d ∧ i ∈ vals) ∨ (g = f ∧ i = ti).
Proof.
  induction d as [|[h vals] r IH]; simpl.
  - split.
    + intros (vals & Hin & Hi). apply list_elem_of_singleton in Hin as [= -> ->].
      apply list_elem_of_singleton in Hi. by right.
    + intros [(vals & Hin & _)|[-> ->]]; [by apply elem_of_nil in Hin|].
      exists [ti]. split; apply list_elem_of_singleton; done.
  - destruct (decide (h = f)) as [->|Hne].
    + split.
      * intros (vals' & Hin & Hi). apply elem_of_cons in Hin as [[= -> ->]|Hin].
        -- apply elem_of_app in Hi as [Hi|Hi%list_elem_of_singleton].
           ++ left. exists vals. split; [left|done].
           ++ by right.
        -- left. exists vals'. split; [by right|done].
      * intros [(vals' & Hin & Hi)|[-> ->]].
        -- apply elem_of_cons in Hin as [[= -> ->]|Hin].
           ++ exists (vals ++ [ti]). split; [left|]. apply elem_of_app. by left.
           ++ exists vals'. split; [by right|done].
        -- exists (vals ++ [ti]). split; [left|]. apply elem_of_app. right.
           by apply list_elem_of_singleton.
    + split.
      * intros (vals' & Hin & Hi). apply elem_of_cons in Hin as [[= -> ->]|Hin].
        -- left. exists vals. split; [left|done].
        -- destruct (proj1 IH) as [(v & Hv & Hiv)|Heq]; [eauto| |by right].
           left. exists v. split; [by right|done].
      * intros [(vals' & Hin & Hi)|[-> ->]].
        -- apply elem_of_cons in Hin as [[= -> ->]|Hin].
           ++ exists vals. split; [left|done].
           ++ destruct (proj2 IH) as (v & Hv & Hiv); [left; eauto|].
              exists v. split; [by right|done].
        -- destruct (proj2 IH) as (v & Hv & Hiv); [by right|].
           exists v. split; [by right|done].
Qed.

Lemma group_well_grouped hits : ∀ d,
  well_grouped d → well_grouped (group d hits).
Proof.
  induction hits as [|[f i] r IH]; intros d Hd; [done|].
  apply IH. by apply od_append_well_grouped.
Qed.

Lemma group_elem hits : ∀ d g i,
  (∃ vals, (g, vals) ∈ group d hits ∧ i ∈ vals)
  ↔ (∃ vals, (g, vals) ∈ d ∧ i ∈ vals) ∨ (g, i) ∈ hits.
Proof.
  induction hits as [|[f j] r IH]; intros d g i.
  - simpl. rewrite elem_of_nil. unfold group. simpl. tauto.
  - unfold group in *. simpl. rewrite IH, od_append_elem, elem_of_cons.
    split; [intros [[H|[-> ->]]|H]|intros [H|[[= -> ->]|H]]]; eauto.
Qed.

Lemma py_min_spec vals lo :
  MFncdap.py_min vals = Some lo → lo ∈ vals ∧ ∀ v, v ∈ vals → (lo ≤ v)%nat.
Proof.
  destruct vals as [|v0 r]; [done|]. intros [= <-].
  induction r as [|e r [IHin IHle]]; simpl.
  - split; [left|]. intros v ->%list_elem_of_singleton. done.
  - split.
    + destruct (Nat.min_spec e (foldr Nat.min v0 r)) as [[_ ->]|[_ ->]].
      * right. left.
      * apply elem_of_cons in IHin as [->|IHin]; [left|]. by do 2 right.
    + intros v [->|[->|Hv]%elem_of_cons]%elem_of_cons.
      * specialize (IHle v0 ltac:(left)). lia.
      * lia.
      * specialize (IHle v ltac:(by right)). lia.
Qed.

Lemma py_max_spec vals hi :
  MFncdap.py_max vals = Some hi → hi ∈ vals ∧ ∀ v, v ∈ vals → (v ≤ hi)%nat.
Proof.
  destruct vals as [|v0 r]; [done|]. intros [= <-].
  induction r as [|e r [IHin IHle]]; simpl.
  - split; [left|]. intros v ->%list_elem_of_singleton. done.
  - split.
    + destruct (Nat.max_spec e (foldr Nat.max v0 r)) as [[_ ->]|[_ ->]].
      * apply elem_of_cons in IHin as [->|IHin]; [left|]. by do 2 right.
      * right. left.
    + intros v [->|[->|Hv]%elem_of_cons]%elem_of_cons.
      * specialize (IHle v0 ltac:(left)). lia.
      * lia.
      * specialize (IHle v ltac:(by right)). lia.
Qed.

(** The spans of a well-grouped dictionary can always be computed. *)
Lemma spans_computed d :
  Forall (λ g : string * list nat, g.2 ≠ []) d →
  ∃ tslice,
    mapM (λ '(f, vals),
            lo ← MFncdap.py_min vals; hi ← MFncdap.py_max vals;
            Some (f, (lo, hi))) d = Some tslice.
Proof.
  intros H. apply (mapM_is_Some_2 (λ '(f, vals), _)).
  eapply Forall_impl; [exact H|]. intros [f [|v r]] Hne; [done|]. simpl. eauto.
Qed.

(** [__call__] answers exactly when every timestamp has its key in the
    lookup. *)
Lemma call_Some mf times hits :
  mapM (λ tm, MFncdap.timelookup mf !! strftime E tm) times = Some hits →
  ∃ tslice,
    MFncdap.call E mf times = Some (hits.*2, hits.*1, tslice)
    ∧ Forall2 (λ (g : string * list nat) (s : string * (nat * nat)),
                 s.1 = g.1 ∧ MFncdap.py_min g.2 = Some s.2.1
                 ∧ MFncdap.py_max g.2 = Some s.2.2)
        (group [] hits) tslice.
Proof.
  intros Hm. rewrite call_eq, Hm. simpl.
  destruct (spans_computed (group [] hits)) as [tslice Hs].
  { apply group_well_grouped. split; constructor. }
  rewrite Hs. simpl. exists tslice. split; [done|].
  apply mapM_Some_1 in Hs. eapply Forall2_impl; [exact Hs|].
  intros [f vals] [g [lo hi]] H. simpl in *.
  destruct (MFncdap.py_min vals) as [lo'|]; [|done]. simpl in H.
  destruct (MFncdap.py_max vals) as [hi'|]; [|done]. simpl in H.
  by injection H as -> -> ->.
Qed.

End Index.

(** X11.  Every entry of the lookup that [MFncdap.__init__] builds points
    at a record that exists: the file is one of the list, the index is a
    position of its time axis, and the timestamp there formats to the
    key. *)
Theorem timelookup_entries_are_records E files timevar w mf w' k f ii :
  MFncdap.init E files timevar w = Ok mf w' →
  MFncdap.timelookup mf !! k = Some (f, ii) →
  f ∈ files
  ∧ ∃ ts t, file_times E timevar f = Some ts ∧ ts !! ii = Some t
            ∧ strftime E t = k.
Proof. apply init_lookup_sound. Qed.

Lemma timelookup_entries_are_records_witness :
  "D" ∈ ["C"; "D"]
  ∧ ∃ ts t, file_times Sample.env_ok (Some "time") "D" = Some ts
            ∧ ts !! 1%nat = Some t ∧ strftime Sample.env_ok t = "30".
Proof.
  apply (timelookup_entries_are_records Sample.env_ok ["C"; "D"] (Some "time")
           Sample.w0 Sample.mfCD (tick 4 Sample.w0) "30" "D" 1%nat).
  - vm_compute. reflexivity.
  - vm_compute. reflexivity.
Defined.

(** X12.  [MFncdap.__init__] opens every file of the list once and reads
    its time axis once: when it returns, it has sent two requests a file,
    all of which were answered, and it keeps the file list as given. *)
Theorem init_sends_two_requests_a_file E files timevar w mf w' :
  MFncdap.init E files timevar w = Ok mf w' →
  w' = tick (2 * length files) w
  ∧ (∀ i, (i < 2 * length files)%nat → net E (clock w + i)%nat = true)
  ∧ MFncdap.ncfilelist mf = files.
Proof.
  intros Hi. pose proof Hi as (tss & _ & Hf & _ & _ & Hw)%init_Ok.
  split; [done|]. split; [|done].
  unfold MFncdap.init in Hi. apply bind_Ok in Hi as (r & s1 & Hs & _).
  by apply scan_files_requests in Hs as [_ Hn].
Qed.

Lemma init_sends_two_requests_a_file_witness :
  tick 4 Sample.w0 = tick (2 * length ["C"; "D"]) Sample.w0
  ∧ (∀ i, (i < 2 * length ["C"; "D"])%nat →
          net Sample.env_ok (clock Sample.w0 + i)%nat = true)
  ∧ MFncdap.ncfilelist Sample.mfCD = ["C"; "D"].
Proof.
  apply (init_sends_two_requests_a_file Sample.env_ok ["C"; "D"] (Some "time")
           Sample.w0 Sample.mfCD (tick 4 Sample.w0)).
  vm_compute. reflexivity.
Defined.

(** X13.  Once the index is built, [MFncdap.__call__] answers for every list
    of timestamps of its logical time axis: it raises no [KeyError], and for
    each timestamp it names a file of the list and a position of that
    file's time axis whose timestamp has the same key. *)
Theorem call_after_init_finds_every_timestamp E files timevar w mf w' times :
  MFncdap.init E files timevar w = Ok mf w' →
  (∀ t, t ∈ times → t ∈ MFncdap.time mf) →
  ∃ tind fname tslice,
    MFncdap.call E mf times = Some (tind, fname, tslice)
    ∧ length tind = length times ∧ length fname = length times
    ∧ ∀ k t, times !! k = Some t →
        ∃ f ii ts t',
          fname !! k = Some f ∧ tind !! k = Some ii
          ∧ f ∈ files ∧ file_times E timevar f = Some ts
          ∧ ts !! ii = Some t' ∧ strftime E t' = strftime E t.
Proof.
  intros Hi Hsub. pose proof Hi as (tss & Hm & _ & Hlk & Htime & _)%init_Ok.
  assert (∃ hits,
    mapM (λ tm, MFncdap.timelookup mf !! strftime E tm) times = Some hits)
    as [hits Hh].
  { apply (mapM_is_Some_2 (λ tm, MFncdap.timelookup mf !! strftime E tm)).
    apply Forall_forall. intros t Ht. simpl.
    apply Hsub in Ht. rewrite Htime in Ht.
    apply elem_of_np_unique, elem_of_concat in Ht as (ts & Hts & Ht).
    apply list_elem_of_lookup in Hts as [j Hj].
    destruct (Forall2_lookup_r _ _ _ _ _ Hm Hj) as (f & Hf & _).
    rewrite Hlk. apply (record_all_records E _ _ (f, ts)); [|done].
    apply list_elem_of_lookup. exists j. apply lookup_zip_with_Some. eauto. }
  destruct (call_Some E mf times hits Hh) as (tslice & Hc & _).
  exists (hits.*2), (hits.*1), tslice. split; [done|].
  apply mapM_Some_1 in Hh. pose proof (Forall2_length _ _ _ Hh) as Hlen.
  rewrite !length_fmap. split; [done|]. split; [done|].
  intros k t Hk. destruct (Forall2_lookup_l _ _ _ _ _ Hh Hk) as ([f ii] & Hhit & Hl).
  destruct (init_lookup_sound E files timevar w mf w' _ f ii Hi Hl)
    as (Hf & ts & t' & Hft & Ht' & Hs).
  exists f, ii, ts, t'. rewrite !list_lookup_fmap, Hhit. done.
Qed.

Lemma call_after_init_finds_every_timestamp_witness :
  ∃ tind fname tslice,
    MFncdap.call Sample.env_ok Sample.mfCD [10; 20; 30]
    = Some (tind, fname, tslice)
    ∧ length tind = 3%nat ∧ length fname = 3%nat.
Proof.
  destruct (call_after_init_finds_every_timestamp Sample.env_ok ["C"; "D"]
              (Some "time") Sample.w0 Sample.mfCD (tick 4 Sample.w0) [10; 20; 30])
    as (tind & fname & tslice & Hc & H1 & H2 & _).
  - vm_compute. reflexivity.
  - intros t Ht. vm_compute.
    repeat (apply elem_of_cons in Ht as [->|Ht];
            [repeat (first [by left|right])|]).
    by apply elem_of_nil in Ht.
  - by exists tind, fname, tslice.
Defined.

(** X14.  [MFncdap.__call__] raises exactly when the key of one of the
    timestamps is missing from the lookup (the [KeyError] of
    [self._timelookup[tstr]]); the grouping and the computation of the
    spans never fail. *)
Theorem call_raises_only_for_a_missing_key E mf times :
  MFncdap.call E mf times = None
  ↔ ∃ t, t ∈ times ∧ MFncdap.timelookup mf !! strftime E t = None.
Proof.
  split.
  - intros Hc.
    destruct (mapM (λ tm, MFncdap.timelookup mf !! strftime E tm) times)
      as [hits|] eqn:Hm.
    + destruct (call_Some E mf times hits Hm) as (tslice & Hc' & _). congruence.
    + apply mapM_None_1, Exists_exists in Hm. exact Hm.
  - intros Ht. rewrite call_eq.
    assert (mapM (λ tm, MFncdap.timelookup mf !! strftime E tm) times = None)
      as ->; [|done].
    apply mapM_None_2, Exists_exists. exact Ht.
Qed.

(** X15.  The spans that [MFncdap.__call__] returns: one span a file, the
    files being distinct; the span of a file is delimited by the least and
    the greatest index requested in that file, so that it is not empty,
    both its ends were requested, and every index requested in the file
    lies inside it. *)
Theorem call_spans_cover_the_requested_records E mf times tind fname tslice :
  MFncdap.call E mf times = Some (tind, fname, tslice) →
  NoDup tslice.*1
  ∧ (∀ f lo hi, (f, (lo, hi)) ∈ tslice →
       (lo ≤ hi)%nat
       ∧ (∃ k, fname !! k = Some f ∧ tind !! k = Some lo)
       ∧ (∃ k, fname !! k = Some f ∧ tind !! k = Some hi))
  ∧ (∀ k f ii, fname !! k = Some f → tind !! k = Some ii →
       ∃ lo hi, (f, (lo, hi)) ∈ tslice ∧ (lo ≤ ii ≤ hi)%nat).
Proof.
  intros Hc.
  destruct (mapM (λ tm, MFncdap.timelookup mf !! strftime E tm) times)
    as [hits|] eqn:Hm.
  2:{ rewrite call_eq, Hm in Hc. done. }
  destruct (call_Some E mf times hits Hm) as (tslice' & Hc' & Hs).
  rewrite Hc in Hc'. injection Hc' as -> -> <-.
  assert (well_grouped (group [] hits)) as [Hnd Hne].
  { apply group_well_grouped. split; constructor. }
  assert (∀ f i, (f, i) ∈ hits ↔ ∃ k, hits.*1 !! k = Some f ∧ hits.*2 !! k = Some i)
    as Hhits.
  { intros f i. rewrite list_elem_of_lookup. split.
    - intros [k Hk]. exists k. by rewrite !list_lookup_fmap, Hk.
    - intros (k & Hf & Hi). exists k.
      rewrite list_lookup_fmap in Hf. rewrite list_lookup_fmap in Hi.
      destruct (hits !! k) as [[g j]|]; [|done]. simpl in *. congruence. }
  assert (tslice.*1 = (group [] hits).*1) as Hkeys.
  { clear -Hs. induction Hs as [|g s d l (Hk & _) _ IH]; [done|].
    rewrite !fmap_cons. by f_equal. }
  split; [by rewrite Hkeys|]. split.
  - intros f lo hi [k Hk]%list_elem_of_lookup.
    destruct (Forall2_lookup_r _ _ _ _ _ Hs Hk) as ([g vals] & Hg & Hf & Hlo & Hhi).
    simpl in *. subst g.
    apply py_min_spec in Hlo as [Hlo Hmin]. apply py_max_spec in Hhi as [Hhi Hmax].
    split; [by apply Hmin|].
    assert (∀ i, i ∈ vals → (f, i) ∈ hits) as Hin.
    { intros i Hi.
      destruct (proj1 (group_elem hits [] f i)) as [(v & Hv & _)|H]; [|by apply elem_of_nil in Hv|done].
      exists vals. split; [by eapply list_elem_of_lookup_2|done]. }
    split; apply Hhits, Hin; done.
  - intros k f ii Hf Hi.
    assert ((f, ii) ∈ hits) as Hin by (apply Hhits; eauto).
    destruct (proj2 (group_elem hits [] f ii)) as (vals & Hv & Hiv); [by right|].
    apply list_elem_of_lookup in Hv as [j Hj].
    destruct (Forall2_lookup_l _ _ _ _ _ Hs Hj) as ([g [lo hi]] & Hg & Hk & Hlo & Hhi).
    simpl in *. subst g.
    apply py_min_spec in Hlo as [_ Hmin]. apply py_max_spec in Hhi as [_ Hmax].
    exists lo, hi. split; [by eapply list_elem_of_lookup_2|].
    split; [by apply Hmin|by apply Hmax].
Qed.

Lemma call_spans_cover_the_requested_records_witness :
  NoDup [("C", (1, 1)%nat); ("D", (0, 1)%nat)].*1
  ∧ ∀ f lo hi, (f, (lo, hi)) ∈ [("C", (1, 1)%nat); ("D", (0, 1)%nat)] →
      (lo ≤ hi)%nat.
Proof.
  destruct (call_spans_cover_the_requested_records Sample.env_ok Sample.mfCD
              [10; 20; 30] [1; 0; 1]%nat ["C"; "D"; "D"]
              [("C", (1, 1)%nat); ("D", (0, 1)%nat)])
    as (Hnd & Hspan & _).
  - vm_compute. reflexivity.
  - split; [exact Hnd|]. intros f lo hi H. by apply Hspan in H as [H _].
Defined.

(** ** The time range of the driver *)

(** X16.  When [check_trange] accepts a range, it sends no request and
    writes nothing, the first bound of its result is a timestamp, a range
    given as two strings comes back as two timestamps, and checking the
    result again returns it unchanged. *)
Theorem check_trange_normalises_the_range E trange r w w' :
  GetDAP.check_trange E trange w = Ok r w' →
  w' = w
  ∧ (∃ d, r.1 = TDate d)
  ∧ (∀ s1 b, trange = Some (TStr s1, b) →
       ∃ s2 d1 d2, b = TStr s2 ∧ strptime E s1 = Some d1
                   ∧ strptime E s2 = Some d2 ∧ r = (TDate d1, TDate d2))
  ∧ GetDAP.check_trange E (Some r) w = Ok r w.
Proof.
  intros H. unfold GetDAP.check_trange in H.
  destruct trange as [[a b]|]; [|done]. rewrite lift_Some_bind in H.
  destruct a as [s1|d|]; [| |done].
  - apply bind_Ok in H as (d1 & w1 & H1 & H). apply lift_Ok in H1 as [H1 ->].
    apply bind_Ok in H as (s2 & w1 & H2 & H). apply lift_Ok in H2 as [H2 ->].
    apply bind_Ok in H as (d2 & w1 & H3 & H). apply lift_Ok in H3 as [H3 ->].
    injection H as <- <-. destruct b as [s2'| |]; [|done..]. injection H2 as ->.
    split; [done|]. split; [by exists d1|]. split; [|done].
    intros s1' b' [= <- <-]. by exists s2, d1, d2.
  - injection H as <- <-. split; [done|]. split; [by exists d|]. split; [|done].
    intros s1 b' [=].
Qed.

Lemma check_trange_normalises_the_range_witness :
  GetDAP.check_trange Sample.env_ok (Some (TDate 3, TDate 5)) Sample.w0
  = Ok (TDate 3, TDate 5) Sample.w0.
Proof.
  apply (check_trange_normalises_the_range Sample.env_ok
           (Some (TDate 3, TDate 5)) (TDate 3, TDate 5) Sample.w0 Sample.w0).
  reflexivity.
Defined.

(** ** The writer, beyond the append position *)

Section Store.
Context (E : env).

Lemma with_store_twice w h s1 s2 :
  with_store (with_store w h s1) h s2 = with_store w h s2.
Proof. unfold with_store. simpl. f_equal. apply insert_insert_eq. Qed.

Lemma with_store_lookup w h s : disk (with_store w h s) !! h = Some s.
Proof. apply lookup_insert_eq. Qed.

Lemma set_var_twice s name v1 v2 :
  GetDAP.set_var (GetDAP.set_var s name v1) name v2 = GetDAP.set_var s name v2.
Proof. unfold GetDAP.set_var. simpl. f_equal. apply insert_insert_eq. Qed.

Lemma hasvar_false s name :
  st_vars s !! name = None → hasvar s (Some name) = false.
Proof.
  intros H. unfold hasvar. rewrite H. apply bool_decide_eq_false_2.
  by intros [? ?].
Qed.

Lemma create_fresh self h s name w :
  GetDAP.outnc self = Some h → disk w !! h = Some s →
  st_vars s !! name = None →
  is_Some (ds_variables (GetDAP.nc self) !! name) →
  GetDAP.create_ncvar_fromvarname self name w
  = Ok () (with_store w h (GetDAP.set_var s name SNew)).
Proof.
  intros Ho Hd Hv [v Hr]. unfold GetDAP.create_ncvar_fromvarname.
  rewrite (bind_Ok_intro _ _ _ _ _ (the_store_eq _ _ _ _ Ho Hd)).
  rewrite (hasvar_false _ _ Hv). by rewrite Hr.
Qed.

(** A coordinate variable is created if need be, then written. *)
Lemma coordinate_written {B} self h s name value (k : () → M world B) w :
  GetDAP.outnc self = Some h → disk w !! h = Some s →
  available self s name →
  (GetDAP.create_ncvar_fromvarname self name
     ≫= λ _, GetDAP.write_coord self name value ≫= k) w
  = k () (with_store w h (GetDAP.set_var s name value)).
Proof.
  intros Ho Hd Ha. destruct (st_vars s !! name) as [v|] eqn:Hv.
  - rewrite (bind_Ok_intro _ _ _ _ _ (create_existing _ _ _ _ _ _ Ho Hd Hv)).
    by rewrite (bind_Ok_intro _ _ _ _ _ (write_coord_eq _ _ _ _ _ _ _ Ho Hd Hv)).
  - destruct Ha as [[v Hv']|Hr]; [congruence|].
    rewrite (bind_Ok_intro _ _ _ _ _ (create_fresh _ _ _ _ _ Ho Hd Hv Hr)).
    erewrite (bind_Ok_intro _ _ _ _ _
                (write_coord_eq _ _ _ name SNew value _ Ho
                   (with_store_lookup _ _ _) _)).
    by rewrite with_store_twice, set_var_twice.
    Unshelve. apply lookup_insert_eq.
Qed.

Lemma coordinate_written_last self h s name value w :
  GetDAP.outnc self = Some h → disk w !! h = Some s →
  available self s name →
  (GetDAP.create_ncvar_fromvarname self name
     ≫= λ _, GetDAP.write_coord self name value) w
  = Ok () (with_store w h (GetDAP.set_var s name value)).
Proof.
  intros Ho Hd Ha. destruct (st_vars s !! name) as [v|] eqn:Hv.
  - rewrite (bind_Ok_intro _ _ _ _ _ (create_existing _ _ _ _ _ _ Ho Hd Hv)).
    apply (write_coord_eq _ _ _ _ _ _ _ Ho Hd Hv).
  - destruct Ha as [[v Hv']|Hr]; [congruence|].
    rewrite (bind_Ok_intro _ _ _ _ _ (create_fresh _ _ _ _ _ Ho Hd Hv Hr)).
    erewrite (write_coord_eq _ _ _ name SNew value _ Ho
                (with_store_lookup _ _ _) _).
    by rewrite with_store_twice, set_var_twice.
    Unshelve. apply lookup_insert_eq.
Qed.

Lemma coords_written_log dapobj xc yc zc s :
  st_log (coords_written dapobj xc yc zc s) = st_log s.
Proof. unfold coords_written. by destruct zc. Qed.

Lemma write_axis_from_0 tout old :
  GetDAP.write_axis 0 tout old = tout ++ drop (length tout) old.
Proof. unfold GetDAP.write_axis. by rewrite take_0. Qed.

Lemma write_records_from_0 (recs : list ndarray) :
  GetDAP.write_records 0 recs [] = Some <$> recs.
Proof.
  unfold GetDAP.write_records. rewrite take_0, drop_nil. simpl.
  by rewrite app_nil_r.
Qed.

(** The first write of a time variable. *)
Lemma write_time_var_fresh self tout tc h s w :
  GetDAP.outnc self = Some h → disk w !! h = Some s →
  st_vars s !! tc = None →
  is_Some (ds_variables (GetDAP.nc self) !! tc) →
  GetDAP.write_time_var E self tout (Some tc) w
  = Ok (GetDAP.with_tindex self (0%nat, length tout))
       (with_store w h (GetDAP.set_var s tc (SAxis tout))).
Proof.
  intros Ho Hd Hv Hr. unfold GetDAP.write_time_var.
  rewrite (bind_Ok_intro _ _ _ _ _ (the_store_eq _ _ _ _ Ho Hd)).
  rewrite (hasvar_false _ _ Hv).
  rewrite (bind_Ok_intro _ _ _ _ _ (create_fresh _ _ _ _ _ Ho Hd Hv Hr)).
  simpl.
  rewrite (bind_Ok_intro _ _ _ _ _
             (the_store_eq _ _ _ _ Ho (with_store_lookup _ _ _))).
  assert (GetDAP.stored_time (GetDAP.set_var s tc SNew) tc
            (with_store w h (GetDAP.set_var s tc SNew))
          = Ok [] (with_store w h (GetDAP.set_var s tc SNew))) as Hst.
  { unfold GetDAP.stored_time. simpl. by rewrite lookup_insert_eq. }
  rewrite (bind_Ok_intro _ _ _ _ _ Hst).
  rewrite (bind_Ok_intro _ _ _ _ _ (put_store_eq _ _ _)).
  rewrite with_store_twice, set_var_twice, write_axis_from_0, drop_nil.
  by rewrite app_nil_r.
Qed.

(** The data variable is created if need be, then its window assigned. *)
Lemma data_written {B} self h s rv rows i n data (k : () → M world B) w :
  GetDAP.outnc self = Some h → disk w !! h = Some s →
  (st_vars s !! rv = Some (SRecs rows)
   ∨ (st_vars s !! rv = None ∧ rows = []
      ∧ is_Some (ds_variables (GetDAP.nc self) !! rv))) →
  GetDAP.tindex self = (i, (i + n)%nat) →
  length (records data) = n →
  (GetDAP.create_ncvar_fromvarname self rv
     ≫= λ _, GetDAP.write_data self rv data ≫= k) w
  = k () (with_store w h
            {| st_vars := <[rv := SRecs (GetDAP.write_records i (records data) rows)]>
                            (st_vars s);
               st_log := reverse ((λ k, (rv, k)) <$> seq i n) ++ st_log s |}).
Proof.
  intros Ho Hd Hv Hti Hlen. destruct Hv as [Hv|(Hv & -> & Hr)].
  - rewrite (bind_Ok_intro _ _ _ _ _ (create_existing _ _ _ _ _ _ Ho Hd Hv)).
    by rewrite (bind_Ok_intro _ _ _ _ _
                  (write_data_eq _ _ _ _ _ _ _ _ _ Ho Hd Hv Hti Hlen)).
  - rewrite (bind_Ok_intro _ _ _ _ _ (create_fresh _ _ _ _ _ Ho Hd Hv Hr)).
    assert (GetDAP.write_data self rv data
              (with_store w h (GetDAP.set_var s rv SNew))
            = Ok () (with_store w h
                {| st_vars := <[rv := SRecs (GetDAP.write_records i (records data) [])]>
                                (st_vars s);
                   st_log := reverse ((λ k, (rv, k)) <$> seq i n) ++ st_log s |}))
      as Hw.
    { unfold GetDAP.write_data.
      rewrite (bind_Ok_intro _ _ _ _ _
                 (the_store_eq _ _ _ _ Ho (with_store_lookup _ _ _))).
      simpl. rewrite lookup_insert_eq, lift_Some_bind, ret_bind, Hti.
      assert (GetDAP.records_of (i + n - i) data = Some (records data)) as Hrec.
      { unfold GetDAP.records_of. rewrite decide_True; [done|]. lia. }
      rewrite Hrec, lift_Some_bind, Hlen.
      unfold GetDAP.put_store. simpl. unfold with_store. simpl.
      by rewrite !insert_insert_eq. }
    by rewrite (bind_Ok_intro _ _ _ _ _ Hw).
Qed.

(** [write_var], step by step: the file is opened, the coordinates are
    written, the time variable gives the window, the data are assigned. *)
Lemma write_var_steps self outfile var data w self1 w1 h s rv dapobj
    tc xc yc zc i rows s4 :
  let tout := GridDAP.localtime (GridDAP.loc dapobj) in
  let n := length tout in
  let s3 := coords_written dapobj xc yc zc s in
  GetDAP.open_outfile self outfile w = Ok self1 w1 →
  GetDAP.outnc self1 = Some h → disk w1 !! h = Some s →
  GetDAP.multifile self1 = false →
  GetDAP.names self1 !! var = Some rv →
  GetDAP.daps self1 !! var = Some dapobj →
  get_coord_names E (GetDAP.nc self1) rv = Some (tc, xc, yc, zc) →
  available self1 s xc → available self1 s yc →
  (∀ z, zc = Some z → available self1 s z) →
  GetDAP.write_time_var E self1 tout tc (with_store w1 h s3)
  = Ok (GetDAP.with_tindex self1 (i, (i + n)%nat)) (with_store w1 h s4) →
  (st_vars s4 !! rv = Some (SRecs rows)
   ∨ (st_vars s4 !! rv = None ∧ rows = []
      ∧ is_Some (ds_variables (GetDAP.nc self1) !! rv))) →
  length (records data) = n →
  GetDAP.write_var E self outfile var data w
  = Ok (GetDAP.with_tindex self1 (i, (i + n)%nat))
       (with_store w1 h
          {| st_vars := <[rv := SRecs (GetDAP.write_records i (records data) rows)]>
                          (st_vars s4);
             st_log := reverse ((λ k, (rv, k)) <$> seq i n) ++ st_log s4 |}).
Proof.
  intros tout n s3 Hopen Ho Hd Hm Hn Hdap Hc Hx Hy Hz Htime Hrv Hlen.
  unfold GetDAP.write_var.
  rewrite (bind_Ok_intro _ _ _ _ _ Hopen). rewrite Hm, ret_bind.
  rewrite Hn, lift_Some_bind, Hdap, lift_Some_bind, Hc, lift_Some_bind.
  rewrite (coordinate_written _ _ _ _ _ _ _ Ho Hd Hx).
  cbv beta.
  assert (available self1
            (GetDAP.set_var s xc
               (GetDAP.coord_x (GridDAP.localXY (GridDAP.loc dapobj)))) yc)
    as Hy1.
  { destruct Hy as [Hy|Hy]; [left|by right]. simpl.
    by apply lookup_insert_is_Some'; right. }
  rewrite (coordinate_written _ _ _ _ _ _ _ Ho (with_store_lookup _ _ _) Hy1).
  cbv beta. rewrite with_store_twice.
  set (s2 := GetDAP.set_var (GetDAP.set_var s xc _) yc _).
  assert ((match zc with
           | Some zc0 =>
               GetDAP.create_ncvar_fromvarname self1 zc0
               ≫= λ _, GetDAP.write_coord self1 zc0
                         (SAxis (GridDAP.localZ (GridDAP.loc dapobj)))
           | None => mret ()
           end) (with_store w1 h s2) = Ok () (with_store w1 h s3)) as Hz3.
  { unfold s3, coords_written. fold s2. destruct zc as [z|]; [|done].
    assert (available self1 s2 z) as Hz2.
    { destruct (Hz z eq_refl) as [Hz0|Hz0]; [left|by right]. simpl.
      by do 2 (apply lookup_insert_is_Some'; right). }
    rewrite (coordinate_written_last self1 h s2 z _ _ Ho
               (with_store_lookup _ _ _) Hz2).
    by rewrite with_store_twice. }
  rewrite (bind_Ok_intro _ _ _ _ _ Hz3).
  rewrite (bind_Ok_intro _ _ _ _ _ Htime).
  assert (GetDAP.outnc (GetDAP.with_tindex self1 (i, (i + n)%nat)) = Some h)
    as Ho2 by done.
  rewrite (data_written _ h s4 rv rows i n data _ _ Ho2
             (with_store_lookup _ _ _) Hrv eq_refl Hlen).
  by rewrite with_store_twice.
Qed.

End Store.

(** X17.  The first write to a file that does not exist, while no handle is
    held, creates the file with exactly the coordinate variables, the time
    variable and the data variable: the coordinates hold the local
    coordinates of the retrieval, the time axis is the local time axis, the
    data variable holds the records of the array in order, and the window
    recorded is [(0, n)]. *)
Theorem write_var_to_a_new_file_stores_the_window E self outfile var data w
    rv dapobj tc xc yc zc :
  let tout := GridDAP.localtime (GridDAP.loc dapobj) in
  disk w !! outfile = None →
  GetDAP.outnc self = None →
  GetDAP.multifile self = false →
  GetDAP.names self !! var = Some rv →
  GetDAP.daps self !! var = Some dapobj →
  get_coord_names E (GetDAP.nc self) rv = Some (Some tc, xc, yc, zc) →
  (∀ name, name ∈ [xc; yc; tc; rv] ∨ zc = Some name →
           is_Some (ds_variables (GetDAP.nc self) !! name)) →
  tc ≠ xc → tc ≠ yc → zc ≠ Some tc →
  rv ≠ xc → rv ≠ yc → zc ≠ Some rv → rv ≠ tc →
  length (records data) = length tout →
  ∃ self' w' s',
    GetDAP.write_var E self outfile var data w = Ok self' w'
    ∧ GetDAP.outnc self' = Some outfile
    ∧ GetDAP.tindex self' = (0%nat, length tout)
    ∧ disk w' !! outfile = Some s'
    ∧ st_vars s'
      = <[rv := SRecs (Some <$> records data)]>
          (<[tc := SAxis tout]>
             (st_vars (coords_written dapobj xc yc zc GetDAP.empty_store)))
    ∧ st_log s' = reverse ((λ k, (rv, k)) <$> seq 0 (length tout)).
Proof.
  intros tout Hd Ho Hm Hn Hdap Hc Hrem Htx Hty Htz Hrx Hry Hrz Hrt Hlen.
  set (self1 := GetDAP.with_outnc self (Some outfile)).
  set (w1 := with_store w outfile GetDAP.empty_store).
  set (s3 := coords_written dapobj xc yc zc GetDAP.empty_store).
  assert (GetDAP.open_outfile self outfile w = Ok self1 w1) as Hopen.
  { unfold GetDAP.open_outfile. rewrite Hd, Ho.
    rewrite bool_decide_eq_false_2; [done|]. by intros [? ?]. }
  assert (∀ name, st_vars s3 !! name = None ∨ name = xc ∨ name = yc ∨ zc = Some name)
    as Hs3.
  { intros name. unfold s3, coords_written.
    destruct (decide (name = xc)) as [->|?]; [by right; left|].
    destruct (decide (name = yc)) as [->|?]; [by right; right; left|].
    destruct zc as [z|].
    - destruct (decide (name = z)) as [->|?]; [by do 3 right|]. left. simpl.
      by rewrite !lookup_insert_ne by done.
    - left. simpl. by rewrite !lookup_insert_ne by done. }
  assert (st_vars s3 !! tc = None) as Ht3.
  { destruct (Hs3 tc) as [?|[?|[?|?]]]; [done|congruence..]. }
  assert (st_vars s3 !! rv = None) as Hr3.
  { destruct (Hs3 rv) as [?|[?|[?|?]]]; [done|congruence..]. }
  pose proof (write_time_var_fresh E self1 tout tc outfile s3
                (with_store w1 outfile s3) eq_refl (with_store_lookup _ _ _) Ht3
                (Hrem tc ltac:(left; set_solver))) as Htime.
  rewrite with_store_twice in Htime.
  eexists _, _, _. split.
  - apply (write_var_steps E self outfile var data w self1 w1 outfile
             GetDAP.empty_store rv dapobj (Some tc) xc yc zc 0 []
             (GetDAP.set_var s3 tc (SAxis tout)));
      try done.
    + apply lookup_insert_eq.
    + right. apply Hrem. left. set_solver.
    + right. apply Hrem. left. set_solver.
    + intros z ->. right. apply Hrem. by right.
    + right. simpl. rewrite lookup_insert_ne by done.
      split; [done|]. split; [done|]. apply Hrem. left. set_solver.
  - split; [done|]. split; [done|]. split; [apply lookup_insert_eq|].
    simpl. rewrite write_records_from_0. unfold s3.
    rewrite coords_written_log. simpl. by rewrite app_nil_r.
Qed.

Lemma write_var_to_a_new_file_stores_the_window_witness :
  ∃ self' w' s',
    GetDAP.write_var Sample.env_ok
      (Sample.getdap ["ssh"] (Sample.dap_loaded [0; 1; 2; 3]) None)
      "out.nc" "ssh" (A3 (Sample.cell <$> [0; 1; 2; 3])) Sample.w0 = Ok self' w'
    ∧ GetDAP.outnc self' = Some "out.nc"
    ∧ GetDAP.tindex self' = (0%nat, 4%nat)
    ∧ disk w' !! "out.nc" = Some s'
    ∧ st_vars s'
      = <["ssh" := SRecs (Some ∘ A2 ∘ Sample.cell <$> [0; 1; 2; 3])]>
          (<["time" := SAxis [0; 1; 2; 3]]>
             (<["lat" := SAxis [0]]> (<["lon" := SAxis [0]]> ∅)))
    ∧ st_log s' = [("ssh", 3%nat); ("ssh", 2%nat); ("ssh", 1%nat); ("ssh", 0%nat)].
Proof.
  refine (write_var_to_a_new_file_stores_the_window Sample.env_ok
            (Sample.getdap ["ssh"] (Sample.dap_loaded [0; 1; 2; 3]) None)
            "out.nc" "ssh" (A3 (Sample.cell <$> [0; 1; 2; 3])) Sample.w0
            "ssh" (Sample.dap_loaded [0; 1; 2; 3]) "time" "lon" "lat" None
            _ _ _ _ _ _ _ _ _ _ _ _ _ _ _);
    try reflexivity; try discriminate.
  intros name [Hin|[=]].
  repeat (apply elem_of_cons in Hin as [->|Hin]; [eexists; reflexivity|]).
  by apply elem_of_nil in Hin.
Defined.

Section Rewrite.
Context (E : env).

Lemma set_var_id s name v :
  st_vars s !! name = Some v → GetDAP.set_var s name v = s.
Proof.
  intros H. unfold GetDAP.set_var. rewrite insert_id by done. by destruct s.
Qed.

Lemma with_store_id w h s : disk w !! h = Some s → with_store w h s = w.
Proof.
  intros H. unfold with_store. rewrite insert_id by done. by destruct w.
Qed.

Lemma write_records_id i (recs : list ndarray) rows :
  (∀ k r, recs !! k = Some r → rows !! (i + k)%nat = Some (Some r)) →
  (i + length recs ≤ length rows)%nat →
  GetDAP.write_records i recs rows = rows.
Proof.
  intros Hrows Hlen. unfold GetDAP.write_records.
  replace (i - length rows)%nat with 0%nat by lia. simpl. rewrite app_nil_r.
  assert (Some <$> recs = take (length recs) (drop i rows)) as ->.
  { apply list_eq. intros k. rewrite list_lookup_fmap.
    destruct (decide (k < length recs)%nat) as [Hk|Hk].
    - rewrite lookup_take_lt, lookup_drop by done.
      destruct (lookup_lt_is_Some_2 recs k Hk) as [r Hr].
      by rewrite Hr, (Hrows k r Hr).
    - rewrite lookup_take_ge by lia. by rewrite lookup_ge_None_2 by lia. }
  by rewrite <- drop_drop, !take_drop.
Qed.

End Rewrite.

(** X18.  For a variable without time coordinate ([timecoord] is [None])
    the time values are always written from the position 0 of the variable
    [time], which is created if the store does not have it, and the window
    recorded is [(0, n)] whatever the store holds: such a write never
    appends.  No other variable of the store is touched. *)
Theorem write_time_var_without_time_coordinate_restarts E self tout h s old w :
  GetDAP.outnc self = Some h →
  disk w !! h = Some s →
  (st_vars s !! "time" = None ∧ old = []) ∨ st_vars s !! "time" = Some (SAxis old) →
  ∃ s',
    GetDAP.write_time_var E self tout None w
    = Ok (GetDAP.with_tindex self (0%nat, length tout)) (with_store w h s')
    ∧ st_vars s' !! "time" = Some (SAxis (tout ++ drop (length tout) old))
    ∧ (∀ name, name ≠ "time" → st_vars s' !! name = st_vars s !! name)
    ∧ st_log s' = st_log s.
Proof.
  intros Ho Hd Hold.
  exists (GetDAP.set_var s "time" (SAxis (tout ++ drop (length tout) old))).
  split; [|split; [apply lookup_insert_eq|split; [|done]]].
  2:{ intros name Hne. simpl. by rewrite lookup_insert_ne. }
  unfold GetDAP.write_time_var.
  rewrite (bind_Ok_intro _ _ _ _ _ (the_store_eq _ _ _ _ Ho Hd)).
  change (hasvar s None) with false. cbv iota.
  destruct Hold as [[Hv ->]|Hv].
  - rewrite (hasvar_false _ _ Hv).
    rewrite (bind_Ok_intro _ _ _ _ _ (put_store_eq _ _ _)).
    rewrite (bind_Ok_intro _ _ _ _ _
               (the_store_eq _ _ _ _ Ho (with_store_lookup _ _ _))).
    assert (GetDAP.stored_time (GetDAP.set_var s "time" SNew) "time"
              (with_store w h (GetDAP.set_var s "time" SNew))
            = Ok [] (with_store w h (GetDAP.set_var s "time" SNew))) as Hst.
    { unfold GetDAP.stored_time. simpl. by rewrite lookup_insert_eq. }
    simpl default.
    rewrite (bind_Ok_intro _ _ _ _ _ Hst).
    rewrite (bind_Ok_intro _ _ _ _ _ (put_store_eq _ _ _)).
    by rewrite with_store_twice, set_var_twice, write_axis_from_0.
  - rewrite (hasvar_true _ _ _ Hv). rewrite ret_bind.
    rewrite (bind_Ok_intro _ _ _ _ _ (the_store_eq _ _ _ _ Ho Hd)).
    assert (GetDAP.stored_time s "time" w = Ok old w) as Hst.
    { unfold GetDAP.stored_time. munfold. by rewrite Hv. }
    simpl default.
    rewrite (bind_Ok_intro _ _ _ _ _ Hst).
    rewrite (bind_Ok_intro _ _ _ _ _ (put_store_eq _ _ _)).
    by rewrite write_axis_from_0.
Qed.

Lemma write_time_var_without_time_coordinate_restarts_witness :
  let self := Sample.getdap ["ssh"] (Sample.dap_loaded [7; 8]) (Some "out.nc") in
  ∃ s',
    GetDAP.write_time_var Sample.env_ok self [7; 8] None Sample.w1
    = Ok (GetDAP.with_tindex self (0%nat, 2%nat)) (with_store Sample.w1 "out.nc" s')
    ∧ st_vars s' !! "time" = Some (SAxis [7; 8; 2; 3]).
Proof.
  intros self.
  destruct (write_time_var_without_time_coordinate_restarts Sample.env_ok self
              [7; 8] "out.nc" Sample.store1 [0; 1; 2; 3] Sample.w1)
    as (s' & Hw & Ht & _).
  - reflexivity.
  - reflexivity.
  - right. reflexivity.
  - exists s'. split; [exact Hw|exact Ht].
Defined.

(** X19.  Writing a window that the store already holds changes no
    variable of the store: when the coordinates stored are the local ones,
    the stored time axis covers the window from the position [i] of its
    first timestamp, and the stored rows [i .. i+n-1] are the records of the
    array, the call succeeds and leaves every variable as it was. *)
Theorem rewriting_a_stored_window_changes_nothing E self outfile var rv dapobj
    tc xc yc zc s lt rows data d i w :
  let tout := GridDAP.localtime (GridDAP.loc dapobj) in
  let n := length tout in
  let g := GridDAP.localXY (GridDAP.loc dapobj) in
  disk w !! outfile = Some s →
  GetDAP.multifile self = false →
  GetDAP.names self !! var = Some rv →
  GetDAP.daps self !! var = Some dapobj →
  get_coord_names E (GetDAP.nc self) rv = Some (Some tc, xc, yc, zc) →
  st_vars s !! xc = Some (GetDAP.coord_x g) →
  st_vars s !! yc = Some (GetDAP.coord_y g) →
  (∀ z, zc = Some z →
        st_vars s !! z = Some (SAxis (GridDAP.localZ (GridDAP.loc dapobj)))) →
  st_vars s !! tc = Some (SAxis lt) →
  st_vars s !! rv = Some (SRecs rows) →
  head tout = Some d →
  date2index E d lt = Some i →
  (i + n ≤ length lt)%nat →
  length (records data) = n →
  (∀ k r, records data !! k = Some r → rows !! (i + k)%nat = Some (Some r)) →
  ∃ self' s',
    GetDAP.write_var E self outfile var data w
    = Ok self' (with_store w outfile s')
    ∧ st_vars s' = st_vars s
    ∧ st_log s' = reverse ((λ k, (rv, k)) <$> seq i n) ++ st_log s
    ∧ GetDAP.tindex self' = (i, (i + n)%nat).
Proof.
  intros tout n g Hd Hm Hn Hdap Hc Hx Hy Hz Ht Hr Hh Hi Hcover Hlen Hrows.
  set (self1 := GetDAP.with_outnc self (Some outfile)).
  assert (GetDAP.open_outfile self outfile w = Ok self1 w) as Hopen.
  { unfold GetDAP.open_outfile. rewrite Hd.
    by rewrite bool_decide_eq_true_2 by eauto. }
  assert (coords_written dapobj xc yc zc s = s) as Hs3.
  { unfold coords_written. fold g.
    rewrite (set_var_id s xc) by done. rewrite (set_var_id s yc) by done.
    destruct zc as [z|]; [|done]. apply set_var_id. by apply Hz. }
  assert (spec_append_offset E d lt = Some i) as Hoff.
  { unfold spec_append_offset. by rewrite Hi. }
  assert (GetDAP.write_time_var E self1 tout (Some tc)
            (with_store w outfile (coords_written dapobj xc yc zc s))
          = Ok (GetDAP.with_tindex self1 (i, (i + n)%nat)) (with_store w outfile s))
    as Htime.
  { rewrite Hs3, (with_store_id w outfile s Hd).
    rewrite (write_time_var_existing E self1 tout tc outfile s lt d i w
               eq_refl Hd Ht Hh Hoff).
    fold n. by rewrite decide_False by lia. }
  assert (0 < n)%nat as Hpos.
  { unfold n. destruct tout; [done|]. simpl. lia. }
  assert (i + n ≤ length rows)%nat as Hlr.
  { destruct (lookup_lt_is_Some_2 (records data) (n - 1)) as [r Hrec]; [lia|].
    apply Hrows, lookup_lt_Some in Hrec. lia. }
  eexists _, _. split.
  - apply (write_var_steps E self outfile var data w self1 w outfile s rv dapobj
             (Some tc) xc yc zc i rows s); try done.
    + left. eauto.
    + left. eauto.
    + intros z Hzc. left. rewrite (Hz z Hzc). eauto.
    + by left.
  - simpl. split; [|done].
    rewrite write_records_id by (rewrite ?Hlen; done).
    by apply insert_id.
Qed.

Lemma rewriting_a_stored_window_changes_nothing_witness :
  ∃ self' s',
    GetDAP.write_var Sample.env_ok
      (Sample.getdap ["ssh"] (Sample.dap_loaded [1; 2]) (Some "out.nc"))
      "out.nc" "ssh" (A3 (Sample.cell <$> [1; 2])) Sample.w1
    = Ok self' (with_store Sample.w1 "out.nc" s')
    ∧ st_vars s' = st_vars Sample.store1
    ∧ st_log s' = [("ssh", 2%nat); ("ssh", 1%nat)] ++ st_log Sample.store1
    ∧ GetDAP.tindex self' = (1%nat, 3%nat).
Proof.
  refine (rewriting_a_stored_window_changes_nothing Sample.env_ok
            (Sample.getdap ["ssh"] (Sample.dap_loaded [1; 2]) (Some "out.nc"))
            "out.nc" "ssh" "ssh" (Sample.dap_loaded [1; 2])
            "time" "lon" "lat" None Sample.store1 [0; 1; 2; 3]
            (Some ∘ A2 ∘ Sample.cell <$> [0; 1; 2; 3])
            (A3 (Sample.cell <$> [1; 2])) 1 1%nat Sample.w1
            _ _ _ _ _ _ _ _ _ _ _ _ _ _ _);
    try reflexivity; try discriminate.
  - simpl. lia.
  - intros [|[|k]] r Hk; simpl in Hk; [by injection Hk as <-..|done].
Defined.

Section NotFound.
Context (E : env).

Lemma coords_written_other dapobj xc yc zc s name :
  name ≠ xc → name ≠ yc → zc ≠ Some name →
  st_vars (coords_written dapobj xc yc zc s) !! name = st_vars s !! name.
Proof.
  intros Hx Hy Hz. unfold coords_written. destruct zc as [z|]; simpl.
  - rewrite !lookup_insert_ne by congruence. done.
  - rewrite !lookup_insert_ne by congruence. done.
Qed.

End NotFound.

(** X20.  A window whose first timestamp is later than the first stored
    one and is not found in the stored time axis is not appended after the
    stored records: its rows are assigned from the position 1 of the data
    variable, over what the store held there, and the window recorded is
    [(1, 1 + n)]. *)
Theorem window_not_found_in_the_stored_axis_is_written_at_1 E self outfile var
    rv dapobj tc xc yc zc s lt l0 rows data d w :
  let tout := GridDAP.localtime (GridDAP.loc dapobj) in
  let n := length tout in
  disk w !! outfile = Some s →
  GetDAP.multifile self = false →
  GetDAP.names self !! var = Some rv →
  GetDAP.daps self !! var = Some dapobj →
  get_coord_names E (GetDAP.nc self) rv = Some (Some tc, xc, yc, zc) →
  is_Some (st_vars s !! xc) → is_Some (st_vars s !! yc) →
  (∀ z, zc = Some z → is_Some (st_vars s !! z)) →
  tc ≠ xc → tc ≠ yc → zc ≠ Some tc →
  rv ≠ xc → rv ≠ yc → zc ≠ Some rv → rv ≠ tc →
  st_vars s !! tc = Some (SAxis lt) →
  st_vars s !! rv = Some (SRecs rows) →
  head tout = Some d →
  date2index E d lt = None →
  head lt = Some l0 → d > l0 →
  length (records data) = n →
  ∃ self' s' rows',
    GetDAP.write_var E self outfile var data w
    = Ok self' (with_store w outfile s')
    ∧ GetDAP.tindex self' = (1%nat, (1 + n)%nat)
    ∧ st_vars s' !! rv = Some (SRecs rows')
    ∧ (∀ k r, records data !! k = Some r → rows' !! (1 + k)%nat = Some (Some r))
    ∧ (∀ r0, rows !! 0%nat = Some r0 → rows' !! 0%nat = Some r0)
    ∧ length rows' = (length rows `max` (1 + n))%nat.
Proof.
  intros tout n Hd Hm Hn Hdap Hc Hx Hy Hz Htx Hty Htz Hrx Hry Hrz Hrt Ht Hr Hh
    Hi Hl0 Hgt Hlen.
  set (self1 := GetDAP.with_outnc self (Some outfile)).
  set (s3 := coords_written dapobj xc yc zc s).
  assert (GetDAP.open_outfile self outfile w = Ok self1 w) as Hopen.
  { unfold GetDAP.open_outfile. rewrite Hd.
    by rewrite bool_decide_eq_true_2 by eauto. }
  assert (spec_append_offset E d lt = Some 1%nat) as Hoff.
  { unfold spec_append_offset. rewrite Hi.
    destruct lt as [|l lt']; [done|]. injection Hl0 as ->. simpl.
    by rewrite decide_True. }
  assert (st_vars s3 !! tc = Some (SAxis lt)) as Ht3.
  { unfold s3. by rewrite coords_written_other. }
  set (s4 := if decide (length lt < 1 + n)%nat
             then GetDAP.set_var s3 tc (SAxis (GetDAP.write_axis 1 tout lt))
             else s3).
  assert (GetDAP.write_time_var E self1 tout (Some tc) (with_store w outfile s3)
          = Ok (GetDAP.with_tindex self1 (1%nat, (1 + n)%nat))
               (with_store w outfile s4)) as Htime.
  { rewrite (write_time_var_existing E self1 tout tc outfile s3 lt d 1
               (with_store w outfile s3) eq_refl (with_store_lookup _ _ _)
               Ht3 Hh Hoff).
    fold n. unfold s4. case_decide; [by rewrite with_store_twice|done]. }
  assert (st_vars s4 !! rv = Some (SRecs rows)) as Hr4.
  { unfold s4. case_decide; simpl; rewrite ?lookup_insert_ne by done;
      unfold s3; by rewrite coords_written_other. }
  eexists _, _, (GetDAP.write_records 1 (records data) rows). split.
  - apply (write_var_steps E self outfile var data w self1 w outfile s rv dapobj
             (Some tc) xc yc zc 1 rows s4); try done.
    + by left.
    + by left.
    + intros z Hzc. left. by apply Hz.
    + by left.
  - split; [done|]. split; [apply lookup_insert_eq|]. split; [|split].
    + intros k r Hk. by apply write_records_window.
    + intros r0 Hr0. rewrite <- Hr0. apply write_records_before; [lia|].
      by eapply lookup_lt_Some.
    + rewrite write_records_length. fold tout in Hlen. fold n in Hlen.
      by rewrite Hlen.
Qed.

Lemma window_not_found_in_the_stored_axis_is_written_at_1_witness :
  ∃ self' s' rows',
    GetDAP.write_var Sample.env_ok
      (Sample.getdap ["ssh"] (Sample.dap_loaded [7; 8]) (Some "out.nc"))
      "out.nc" "ssh" (A3 (Sample.cell <$> [7; 8])) Sample.w1
    = Ok self' (with_store Sample.w1 "out.nc" s')
    ∧ GetDAP.tindex self' = (1%nat, 3%nat)
    ∧ st_vars s' !! "ssh" = Some (SRecs rows')
    ∧ (∀ k r, records (A3 (Sample.cell <$> [7; 8])) !! k = Some r →
              rows' !! (1 + k)%nat = Some (Some r))
    ∧ (∀ r0, (Some ∘ A2 ∘ Sample.cell <$> [0; 1; 2; 3]) !! 0%nat = Some r0 →
             rows' !! 0%nat = Some r0)
    ∧ length rows' = 4%nat.
Proof.
  refine (window_not_found_in_the_stored_axis_is_written_at_1 Sample.env_ok
            (Sample.getdap ["ssh"] (Sample.dap_loaded [7; 8]) (Some "out.nc"))
            "out.nc" "ssh" "ssh" (Sample.dap_loaded [7; 8])
            "time" "lon" "lat" None Sample.store1 [0; 1; 2; 3] 0
            (Some ∘ A2 ∘ Sample.cell <$> [0; 1; 2; 3])
            (A3 (Sample.cell <$> [7; 8])) 7 Sample.w1
            _ _ _ _ _ _ _ _ _ _ _ _ _ _ _ _ _ _ _ _ _ _);
    try reflexivity; try discriminate.
  - eexists. reflexivity.
  - eexists. reflexivity.
Defined.

(** ** What the writer leaves alone *)

Section Grows.
Context (E : env).

Lemma grows_refl F w : grows_only F w w.
Proof. split; [done|]. intros f s Hf. exists s. done. Qed.

Lemma grows_trans F w1 w2 w3 :
  grows_only F w1 w2 → grows_only F w2 w3 → grows_only F w1 w3.
Proof.
  intros [H1 G1] [H2 G2]. split.
  - intros f Hf. by rewrite H2, H1.
  - intros f s Hs. destruct (G1 f s Hs) as (s' & Hs' & Hv).
    destruct (G2 f s' Hs') as (s'' & Hs'' & Hv').
    exists s''. split; [done|]. intros name Hn. by apply Hv', Hv.
Qed.

Lemma grows_same_disk F w w' : disk w' = disk w → grows_only F w w'.
Proof.
  intros H. split; [by rewrite H|]. intros f s Hf. exists s. by rewrite H.
Qed.

Lemma writes_ret {A} F (P : A → Prop) a w : P a → writes_only F P (mret a) w.
Proof. intros H. split; [apply grows_refl|done]. Qed.

Lemma writes_raise {A} F (P : A → Prop) e w : writes_only F P (raise e) w.
Proof. apply grows_refl. Qed.

Lemma writes_lift {A} F (P : A → Prop) e o w :
  (∀ a, o = Some a → P a) → writes_only F P (lift e o) w.
Proof.
  intros H. destruct o as [a|]; [|apply grows_refl].
  split; [apply grows_refl|by apply H].
Qed.

Lemma writes_bind {A B} F (P : A → Prop) (Q : B → Prop) (m : M world A)
    (k : A → M world B) w :
  writes_only F P m w →
  (∀ a w1, m w = Ok a w1 → P a → writes_only F Q (k a) w1) →
  writes_only F Q (m ≫= k) w.
Proof.
  unfold writes_only, mbind, M_bind, bind. intros Hm Hk.
  destruct (m w) as [a w1|e w1|]; [|done..].
  destruct Hm as [Hg Hp]. specialize (Hk a w1 eq_refl Hp).
  destruct (k a w1) as [b w2|e w2|]; [|by eapply grows_trans|done].
  destruct Hk as [Hg' Hq]. split; [by eapply grows_trans|done].
Qed.

Lemma writes_weaken {A} (F G : string → Prop) (P Q : A → Prop) m w :
  (∀ f, F f → G f) → (∀ a, P a → Q a) →
  writes_only F P m w → writes_only G Q m w.
Proof.
  intros HF HP. unfold writes_only.
  assert (∀ w', grows_only F w w' → grows_only G w w') as Hg.
  { intros w' [H1 H2]. split; [|done]. intros f Hf. apply H1. by intros ?%HF. }
  destruct (m w); [|by apply Hg|done]. intros [? ?]. split; [by apply Hg|auto].
Qed.

Lemma writes_request F w : writes_only F (λ _, True) (request E) w.
Proof.
  unfold writes_only, request.
  destruct (net E (clock w)); [split; [|done]|]; by apply grows_same_disk.
Qed.

Lemma writes_Dataset F name w : writes_only F (λ _, True) (Dataset E name) w.
Proof.
  unfold Dataset. eapply writes_bind; [apply writes_request|].
  intros _ w1 _ _. by apply writes_lift.
Qed.

Lemma writes_the_store F self w :
  writes_only F (λ hs, GetDAP.outnc self = Some hs.1 ∧ disk w !! hs.1 = Some hs.2)
    (GetDAP.the_store self) w.
Proof.
  unfold writes_only, GetDAP.the_store, GetDAP.read_disk. munfold.
  destruct (GetDAP.outnc self) as [h|]; simpl; [|apply grows_refl].
  destruct (disk w !! h) as [s|] eqn:Hd; simpl; [|apply grows_refl].
  split; [apply grows_refl|done].
Qed.

Lemma writes_put_store (F : string → Prop) h s s' w :
  F h → disk w !! h = Some s →
  (∀ name, is_Some (st_vars s !! name) → is_Some (st_vars s' !! name)) →
  writes_only F (λ _, True) (GetDAP.put_store h s') w.
Proof.
  intros HF Hd Hv. split; [|done]. split; simpl.
  - intros f Hf. apply lookup_insert_ne. by intros <-.
  - intros f s0 Hs0. destruct (decide (f = h)) as [->|Hne].
    + rewrite lookup_insert_eq. exists s'. split; [done|].
      rewrite Hd in Hs0. by injection Hs0 as <-.
    + rewrite lookup_insert_ne by done. exists s0. done.
Qed.

Lemma set_var_keeps s name v other :
  is_Some (st_vars s !! other) →
  is_Some (st_vars (GetDAP.set_var s name v) !! other).
Proof. intros H. simpl. apply lookup_insert_is_Some'. by right. Qed.

(** In the store that [the_store] returned, a variable is set. *)
Lemma writes_set_var (F : string → Prop) self w1 (hs : string * ncstore) name v w :
  (∀ f, GetDAP.outnc self = Some f → F f) →
  GetDAP.the_store self w = Ok hs w1 →
  GetDAP.outnc self = Some hs.1 ∧ disk w !! hs.1 = Some hs.2 →
  writes_only F (λ _, True)
    (GetDAP.put_store hs.1 (GetDAP.set_var hs.2 name v)) w1.
Proof.
  intros HF Hst [Ho Hd].
  assert (w1 = w) as ->.
  { unfold GetDAP.the_store, GetDAP.read_disk in Hst. munfold.
    rewrite Ho in Hst. simpl in Hst. rewrite Hd in Hst. by injection Hst. }
  eapply writes_put_store; [by apply HF|done|]. intros other. apply set_var_keeps.
Qed.

Lemma the_store_same_world self w hs w1 :
  GetDAP.the_store self w = Ok hs w1 → w1 = w.
Proof.
  unfold GetDAP.the_store, GetDAP.read_disk. munfold.
  destruct (GetDAP.outnc self) as [h|]; simpl; [|done].
  destruct (disk w !! h); simpl; [|done]. by intros [= _ <-].
Qed.

Lemma writes_create (F : string → Prop) self name w :
  (∀ f, GetDAP.outnc self = Some f → F f) →
  writes_only F (λ _, True) (GetDAP.create_ncvar_fromvarname self name) w.
Proof.
  intros HF. unfold GetDAP.create_ncvar_fromvarname.
  eapply writes_bind; [apply writes_the_store|].
  intros [h s] w1 Hst Hp. destruct (hasvar s (Some name)); [by apply writes_ret|].
  eapply (writes_bind _ (λ _, True)); [by apply writes_lift|].
  intros u w2 Hl _. apply lift_Ok in Hl as [_ ->].
  by apply (writes_set_var F self w1 (h, s) name SNew w).
Qed.

Lemma writes_write_coord (F : string → Prop) self name value w :
  (∀ f, GetDAP.outnc self = Some f → F f) →
  writes_only F (λ _, True) (GetDAP.write_coord self name value) w.
Proof.
  intros HF. unfold GetDAP.write_coord.
  eapply writes_bind; [apply writes_the_store|].
  intros [h s] w1 Hst Hp.
  eapply (writes_bind _ (λ _, True)); [by apply writes_lift|].
  intros u w2 Hl _. apply lift_Ok in Hl as [_ ->].
  by apply (writes_set_var F self w1 (h, s) name value w).
Qed.

Lemma writes_stored_time F s tc w :
  writes_only F (λ _, True) (GetDAP.stored_time s tc) w.
Proof.
  unfold GetDAP.stored_time.
  eapply (writes_bind _ (λ _, True)); [by apply writes_lift|].
  intros v w1 _ _. destruct v; (by apply writes_ret) || apply writes_raise.
Qed.

Lemma stored_time_same_world s tc w l w1 :
  GetDAP.stored_time s tc w = Ok l w1 → w1 = w.
Proof.
  unfold GetDAP.stored_time. intros H.
  apply bind_Ok in H as (v & w2 & Hl & H). apply lift_Ok in Hl as [_ ->].
  destruct v; try done; by injection H.
Qed.

Lemma writes_write_time_var (F : string → Prop) self tout timecoord w :
  (∀ f, GetDAP.outnc self = Some f → F f) →
  writes_only F (λ self', GetDAP.outnc self' = GetDAP.outnc self)
    (GetDAP.write_time_var E self tout timecoord) w.
Proof.
  intros HF. unfold GetDAP.write_time_var.
  eapply writes_bind; [apply writes_the_store|].
  intros [h s] w1 Hst Hp. pose proof (the_store_same_world _ _ _ _ Hst) as ->.
  destruct (hasvar s timecoord).
  - eapply (writes_bind _ (λ _, True)); [by apply writes_lift|]. intros tc w1 Hl _.
    apply lift_Ok in Hl as [_ ->].
    eapply writes_bind; [apply writes_stored_time|]. intros lt w1 Hl _.
    apply stored_time_same_world in Hl as ->.
    eapply (writes_bind _ (λ _, True)).
    { unfold writes_only, try_except. munfold.
      destruct (head tout) as [d|]; simpl; [|apply grows_refl].
      destruct (date2index E d lt); simpl; [split; [apply grows_refl|done]|].
      destruct (head lt); simpl; [|apply grows_refl].
      split; [apply grows_refl|done]. }
    intros t1 w1 Ht _.
    assert (w1 = w) as ->.
    { unfold try_except in Ht. munfold.
      destruct (head tout) as [d|]; simpl in Ht; [|done].
      destruct (date2index E d lt); simpl in Ht; [by injection Ht|].
      destruct (head lt); simpl in Ht; [by injection Ht|done]. }
    eapply (writes_bind _ (λ _, True)).
    + case_decide; [|by apply writes_ret].
      by apply (writes_set_var F self w (h, s) tc _ w).
    + intros _ w1 _ _. by apply writes_ret.
  - eapply (writes_bind _ (λ _, True)).
    { destruct timecoord as [tc|]; [by apply writes_create|].
      destruct (hasvar s (Some "time")); [by apply writes_ret|].
      by apply (writes_set_var F self w (h, s) "time" SNew w). }
    intros _ w1 _ _.
    eapply writes_bind; [apply writes_the_store|].
    intros [h' s'] w2 Hst' Hp'.
    pose proof (the_store_same_world _ _ _ _ Hst') as ->.
    eapply writes_bind; [apply writes_stored_time|]. intros lt w2 Hl _.
    apply stored_time_same_world in Hl as ->.
    eapply (writes_bind _ (λ _, True)).
    + by apply (writes_set_var F self w1 (h', s') _ _ w1).
    + intros _ w2 _ _. by apply writes_ret.
Qed.

Lemma writes_write_data (F : string → Prop) self rv data w :
  (∀ f, GetDAP.outnc self = Some f → F f) →
  writes_only F (λ _, True) (GetDAP.write_data self rv data) w.
Proof.
  intros HF. unfold GetDAP.write_data.
  eapply writes_bind; [apply writes_the_store|].
  intros [h s] w1 Hst [Ho Hd]. pose proof (the_store_same_world _ _ _ _ Hst) as ->.
  eapply (writes_bind _ (λ _, True)); [by apply writes_lift|]. intros v w1 Hl _.
  apply lift_Ok in Hl as [_ ->].
  eapply (writes_bind _ (λ _, True)).
  { destruct v; (by apply writes_ret) || apply writes_raise. }
  intros old w1 Hold _.
  assert (w1 = w) as ->.
  { destruct v; try done; by injection Hold. }
  destruct (GetDAP.tindex self) as [a b].
  eapply (writes_bind _ (λ _, True)); [by apply writes_lift|]. intros recs w1 Hl _.
  apply lift_Ok in Hl as [_ ->]. simpl in Ho, Hd.
  eapply writes_put_store; [by apply HF|done|].
  intros name Hn. simpl. apply lookup_insert_is_Some'. by right.
Qed.

Lemma open_outfile_Ok self outfile w self1 w1 :
  GetDAP.open_outfile self outfile w = Ok self1 w1 →
  grows_only (λ f, f = outfile) w w1
  ∧ (GetDAP.outnc self1 = Some outfile ∨ (self1 = self ∧ w1 = w))
  ∧ GetDAP.multifile self1 = GetDAP.multifile self.
Proof.
  unfold GetDAP.open_outfile.
  destruct (bool_decide (is_Some (disk w !! outfile))) eqn:Hex.
  - intros [= <- <-]. split; [apply grows_refl|]. split; [by left|done].
  - apply bool_decide_eq_false in Hex.
    destruct (GetDAP.outnc self) as [h0|] eqn:Ho.
    + intros [= <- <-]. split; [apply grows_refl|]. split; [by right|done].
    + intros [= <- <-]. split; [|split; [by left|done]]. split; simpl.
      * intros f Hf. by apply lookup_insert_ne.
      * intros f s Hs. destruct (decide (f = outfile)) as [->|Hne].
        -- exfalso. apply Hex. eauto.
        -- rewrite lookup_insert_ne by done. exists s. done.
Qed.

Lemma open_outfile_never_fails self outfile w :
  ∃ self1 w1, GetDAP.open_outfile self outfile w = Ok self1 w1.
Proof.
  unfold GetDAP.open_outfile.
  destruct (bool_decide _); [eauto|]. destruct (GetDAP.outnc self); eauto.
Qed.

(** [write_var] writes to the file behind the handle that [open_outfile]
    returns, and to that file only. *)
Lemma writes_write_var (F : string → Prop) self outfile var data w self1 w1 :
  GetDAP.open_outfile self outfile w = Ok self1 w1 →
  grows_only F w w1 →
  (∀ f, GetDAP.outnc self1 = Some f → F f) →
  writes_only F (λ self', GetDAP.outnc self' = GetDAP.outnc self1)
    (GetDAP.write_var E self outfile var data) w.
Proof.
  intros Hopen Hg HF. unfold GetDAP.write_var.
  eapply (writes_bind _ (λ a, a = self1)).
  { unfold writes_only. by rewrite Hopen. }
  intros a w2 Ha ->. rewrite Hopen in Ha. injection Ha as <-.
  eapply (writes_bind _ (λ a, GetDAP.outnc a = GetDAP.outnc self1)).
  { destruct (GetDAP.multifile self1); [|by apply writes_ret].
    eapply (writes_bind _ (λ _, True)); [by apply writes_lift|]. intros mf w2 _ _.
    eapply (writes_bind _ (λ _, True)); [by apply writes_lift|]. intros name w3 _ _.
    eapply writes_bind; [apply writes_Dataset|]. intros d w4 _ _.
    by apply writes_ret. }
  intros self2 w2 _ Ho2.
  assert (∀ f, GetDAP.outnc self2 = Some f → F f) as HF2.
  { intros f Hf. apply HF. by rewrite <- Ho2. }
  eapply (writes_bind _ (λ _, True)); [by apply writes_lift|]. intros rv w3 _ _.
  eapply (writes_bind _ (λ _, True)); [by apply writes_lift|]. intros dapobj w4 _ _.
  eapply (writes_bind _ (λ _, True)); [by apply writes_lift|].
  intros [[[tc xc] yc] zc] w5 _ _.
  eapply writes_bind; [by apply writes_create|]. intros _ w6 _ _.
  eapply writes_bind; [by apply writes_write_coord|]. intros _ w7 _ _.
  eapply writes_bind; [by apply writes_create|]. intros _ w8 _ _.
  eapply writes_bind; [by apply writes_write_coord|]. intros _ w9 _ _.
  eapply (writes_bind _ (λ _, True)).
  { destruct zc as [z|]; [|by apply writes_ret].
    eapply writes_bind; [by apply writes_create|]. intros _ w10 _ _.
    by apply writes_write_coord. }
  intros _ w10 _ _.
  eapply writes_bind; [by apply writes_write_time_var|]. intros self3 w11 _ Ho3.
  assert (∀ f, GetDAP.outnc self3 = Some f → F f) as HF3.
  { intros f Hf. apply HF2. by rewrite <- Ho3. }
  eapply writes_bind; [by apply writes_create|]. intros _ w12 _ _.
  eapply writes_bind; [by apply writes_write_data|]. intros _ w13 _ _.
  apply writes_ret. by rewrite Ho3.
Qed.

End Grows.

(** X21.  [write_var] changes at most the file it was asked to write and
    the file behind the handle it already held; it leaves every other file
    of the disk as it was, removes no file and no variable of a file, and
    ends with a handle on the requested file or with the handle it had. *)
Theorem write_var_only_adds_to_its_own_file E self outfile var data w :
  writes_only (λ f, f = outfile ∨ GetDAP.outnc self = Some f)
    (λ self', GetDAP.outnc self' = Some outfile
              ∨ GetDAP.outnc self' = GetDAP.outnc self)
    (GetDAP.write_var E self outfile var data) w.
Proof.
  destruct (open_outfile_never_fails self outfile w) as (self1 & w1 & Hopen).
  pose proof (open_outfile_Ok _ _ _ _ _ Hopen) as (Hg & Ho & _).
  eapply writes_weaken; [| |apply (writes_write_var E
    (λ f, f = outfile ∨ GetDAP.outnc self = Some f) self outfile var data w
    self1 w1 Hopen)].
  - done.
  - intros self' Hs. simpl in Hs. rewrite Hs.
    destruct Ho as [Ho|[-> _]]; [by left|by right].
  - destruct Hg as [H1 H2]. split; [|done]. intros f Hf. apply H1. tauto.
  - intros f Hf. destruct Ho as [Ho|[-> _]]; [left; congruence|by right].
Qed.

(** X22.  When a handle is already held and the requested file does not
    exist, [write_var] opens nothing: the requested file is not created,
    everything is written to the file behind the handle held, and the
    handle is kept. *)
Theorem write_var_with_a_held_handle_ignores_a_new_outfile E self outfile var
    data h w :
  GetDAP.outnc self = Some h →
  disk w !! outfile = None →
  h ≠ outfile →
  match GetDAP.write_var E self outfile var data w with
  | Ok self' w' =>
      GetDAP.outnc self' = Some h ∧ disk w' !! outfile = None
      ∧ ∀ f, f ≠ h → disk w' !! f = disk w !! f
  | Raise _ w' =>
      disk w' !! outfile = None ∧ ∀ f, f ≠ h → disk w' !! f = disk w !! f
  | Diverge => True
  end.
Proof.
  intros Ho Hd Hne.
  assert (GetDAP.open_outfile self outfile w = Ok self w) as Hopen.
  { unfold GetDAP.open_outfile. rewrite Hd, Ho.
    rewrite bool_decide_eq_false_2; [done|]. by intros [? ?]. }
  pose proof (writes_write_var E (λ f, f = h) self outfile var data w self w
                Hopen (grows_refl _ _)) as H.
  unfold writes_only in H.
  destruct (GetDAP.write_var E self outfile var data w) as [self' w'|e w'|];
    [| |done].
  - destruct H as [[H1 _] H2]; [intros f Hf; congruence|].
    split; [congruence|]. split; [|done].
    rewrite (H1 outfile) by congruence. done.
  - destruct H as [H1 _]; [intros f Hf; congruence|].
    split; [|done]. rewrite (H1 outfile) by congruence. done.
Qed.

Lemma write_var_with_a_held_handle_ignores_a_new_outfile_witness :
  match GetDAP.write_var Sample.env_ok
          (Sample.getdap ["ssh"] (Sample.dap_loaded [4; 5]) (Some "out.nc"))
          "new.nc" "ssh" (A3 (Sample.cell <$> [4; 5])) Sample.w1 with
  | Ok self' w' =>
      GetDAP.outnc self' = Some "out.nc" ∧ disk w' !! "new.nc" = None
      ∧ ∀ f, f ≠ "out.nc" → disk w' !! f = disk Sample.w1 !! f
  | Raise _ w' =>
      disk w' !! "new.nc" = None
      ∧ ∀ f, f ≠ "out.nc" → disk w' !! f = disk Sample.w1 !! f
  | Diverge => True
  end.
Proof.
  apply (write_var_with_a_held_handle_ignores_a_new_outfile Sample.env_ok
           (Sample.getdap ["ssh"] (Sample.dap_loaded [4; 5]) (Some "out.nc"))
           "new.nc" "ssh" (A3 (Sample.cell <$> [4; 5])) "out.nc" Sample.w1).
  - reflexivity.
  - reflexivity.
  - discriminate.
Defined.

(** ** The inference of the coordinate names *)

Section CoordNames.
Context {S : Type}.

Lemma py_index_last {A} (l : list A) x : py_index (l ++ [x]) (-1) = Some x.
Proof.
  unfold py_index. rewrite decide_False by lia. rewrite length_app. simpl.
  rewrite decide_True by lia.
  replace (Z.to_nat (Z.of_nat (length l + 1) + -1)) with (length l) by lia.
  by rewrite lookup_app_r, Nat.sub_diag by lia.
Qed.

Lemma py_index_before_last {A} (l : list A) x y :
  py_index (l ++ [y; x]) (-2) = Some y.
Proof.
  unfold py_index. rewrite decide_False by lia. rewrite length_app. simpl.
  rewrite decide_True by lia.
  replace (Z.to_nat (Z.of_nat (length l + 2) + -2)) with (length l) by lia.
  by rewrite lookup_app_r, Nat.sub_diag by lia.
Qed.

Lemma py_index_short {A} (l : list A) :
  (length l < 2)%nat → py_index l (-2) = None.
Proof.
  intros H. unfold py_index. rewrite decide_False by lia.
  by rewrite decide_False by lia.
Qed.

(** The names taken from the attribute: the two first words. *)
Lemma coordlist_ends (w1 w2 : string) (ws : list string) :
  py_index (reverse (w1 :: w2 :: ws)) (-2) = Some w2
  ∧ py_index (reverse (w1 :: w2 :: ws)) (-1) = Some w1.
Proof.
  rewrite !reverse_cons, <- app_assoc. simpl. split.
  - apply py_index_before_last.
  - rewrite (app_assoc _ [w2] [w1]). apply py_index_last.
Qed.

(** The two hacks on the horizontal names, and the answer. *)
Lemma get_coord_names_eq vars varname (s : S) :
  GetDAP.get_coord_names vars varname s
  = match vars !! varname with
    | None => Raise KeyError s
    | Some v =>
        let dims := dimensions v in
        let from_dims :=
          match dims with
          | [a; b; c; d] => Some (Some a, Some b, c, d)
          | [a; b; c] => Some (Some a, None, b, c)
          | [a; b] => Some (None, None, a, b)
          | _ => None
          end in
        let from_attribute :=
          c ← coordinates v;
          d0 ← py_index dims 0; d1 ← py_index dims 1;
          c2 ← py_index (reverse (str_split c)) (-2);
          c1 ← py_index (reverse (str_split c)) (-1);
          Some (Some d0, Some d1, c2, c1) in
        match from_option Some from_dims from_attribute with
        | None => Raise UnboundLocalError s
        | Some (timecoord, zcoord, ycoord0, xcoord0) =>
            let '(xcoord, ycoord) :=
              if str_in "lat" (str_lower xcoord0)
                 || str_in "lon" (str_lower ycoord0)
              then (ycoord0, xcoord0) else (xcoord0, ycoord0) in
            let '(xcoord, ycoord) :=
              if bool_decide (xcoord = "X") || bool_decide (ycoord = "Y")
              then ("Longitude", "Latitude") else (xcoord, ycoord) in
            Ok (timecoord, xcoord, ycoord, zcoord) s
        end
    end.
Proof.
  unfold GetDAP.get_coord_names. destruct (vars !! varname) as [v|]; [|done].
  rewrite lift_Some_bind. unfold mbind at 1, M_bind at 1, bind at 1.
  unfold try_except.
  destruct (coordinates v) as [c|]; simpl.
  - unfold mbind, M_bind, bind, lift, ret, raise, mret, M_ret.
    destruct (py_index (dimensions v) 0) as [d0|]; simpl.
    + destruct (py_index (dimensions v) 1) as [d1|]; simpl.
      * destruct (py_index (reverse (str_split c)) (-2)) as [c2|]; simpl.
        -- destruct (py_index (reverse (str_split c)) (-1)) as [c1|]; simpl.
           ++ by repeat case_match.
           ++ destruct (dimensions v) as [|a [|b [|c' [|d [|e l]]]]]; simpl;
                try done; by repeat case_match.
        -- destruct (dimensions v) as [|a [|b [|c' [|d [|e l]]]]]; simpl;
             try done; by repeat case_match.
      * destruct (dimensions v) as [|a [|b [|c' [|d [|e l]]]]]; simpl;
          try done; by repeat case_match.
    + destruct (dimensions v) as [|a [|b [|c' [|d [|e l]]]]]; simpl;
        try done; by repeat case_match.
  - unfold mbind, M_bind, bind, lift, ret, raise, mret, M_ret.
    destruct (dimensions v) as [|a [|b [|c' [|d [|e l]]]]]; simpl;
      try done; by repeat case_match.
Qed.

End CoordNames.

(** X23.  [get_coord_names] never answers [X] as the x coordinate nor [Y]
    as the y coordinate: such names are replaced by [Longitude] and
    [Latitude].  It changes nothing. *)
Theorem get_coord_names_never_answers_X_or_Y {S} vars varname (s s' : S)
    tc xc yc zc :
  GetDAP.get_coord_names vars varname s = Ok (tc, xc, yc, zc) s' →
  xc ≠ "X" ∧ yc ≠ "Y" ∧ s' = s.
Proof.
  rewrite get_coord_names_eq. destruct (vars !! varname) as [v|]; [|done].
  cbv zeta. destruct (from_option _ _ _) as [[[[t z] y0] x0]|]; [|done].
  destruct (str_in "lat" (str_lower x0) || str_in "lon" (str_lower y0)).
  - destruct (bool_decide (y0 = "X")) eqn:Hx, (bool_decide (x0 = "Y")) eqn:Hy;
      simpl; intros [= <- <- <- <- <-]; try done.
    apply bool_decide_eq_false in Hx, Hy. done.
  - destruct (bool_decide (x0 = "X")) eqn:Hx, (bool_decide (y0 = "Y")) eqn:Hy;
      simpl; intros [= <- <- <- <- <-]; try done.
    apply bool_decide_eq_false in Hx, Hy. done.
Qed.

Lemma get_coord_names_never_answers_X_or_Y_witness :
  GetDAP.get_coord_names Sample.meta "u" ()
  = Ok (Some "MT", "Longitude", "Latitude", None) ()
  ∧ "Longitude" ≠ "X" ∧ "Latitude" ≠ "Y".
Proof.
  assert (GetDAP.get_coord_names Sample.meta "u" ()
          = Ok (Some "MT", "Longitude", "Latitude", None) ()) as H
    by (vm_compute; reflexivity).
  split; [exact H|].
  destruct (get_coord_names_never_answers_X_or_Y Sample.meta "u" () ()
              (Some "MT") "Longitude" "Latitude" None H) as (Hx & Hy & _).
  by split.
Defined.

(** X24.  A variable of three dimensions without [coordinates] attribute,
    one of whose horizontal dimensions is named after the longitude and the
    other after the latitude, gets the longitude as x coordinate and the
    latitude as y coordinate in whichever order the two dimensions come. *)
Theorem get_coord_names_finds_lon_and_lat_in_either_order {S} vars varname
    t a b (s : S) :
  str_in "lon" (str_lower a) = true → str_in "lat" (str_lower a) = false →
  str_in "lat" (str_lower b) = true → str_in "lon" (str_lower b) = false →
  vars !! varname = Some {| dimensions := [t; b; a]; coordinates := None |}
  ∨ vars !! varname = Some {| dimensions := [t; a; b]; coordinates := None |} →
  GetDAP.get_coord_names vars varname s = Ok (Some t, a, b, None) s.
Proof.
  intros Ha Ha' Hb Hb' Hv.
  assert (a ≠ "X") as Hax by (intros ->; by vm_compute in Ha).
  assert (b ≠ "Y") as Hby by (intros ->; by vm_compute in Hb).
  rewrite get_coord_names_eq.
  destruct Hv as [-> | ->]; simpl.
  - rewrite Ha', Hb'. simpl.
    by rewrite (bool_decide_eq_false_2 _ Hax), (bool_decide_eq_false_2 _ Hby).
  - rewrite Hb. simpl.
    by rewrite (bool_decide_eq_false_2 _ Hax), (bool_decide_eq_false_2 _ Hby).
Qed.

Lemma get_coord_names_finds_lon_and_lat_in_either_order_witness :
  GetDAP.get_coord_names Sample.meta "wind" ()
  = Ok (Some "time", "longitude", "latitude", None) ().
Proof.
  apply (get_coord_names_finds_lon_and_lat_in_either_order Sample.meta "wind"
           "time" "longitude" "latitude" ()).
  - reflexivity.
  - reflexivity.
  - reflexivity.
  - reflexivity.
  - right. reflexivity.
Defined.

(** X25.  The names are bound for two, three or four dimensions only: for
    a variable with fewer than two dimensions, or with more than four and
    no usable [coordinates] attribute (none, or one of fewer than two
    words), [get_coord_names] raises [UnboundLocalError]. *)
Theorem get_coord_names_needs_two_to_four_dimensions {S} vars varname v (s : S) :
  vars !! varname = Some v →
  (length (dimensions v) < 2)%nat
  ∨ ((4 < length (dimensions v))%nat
     ∧ (coordinates v = None
        ∨ ∃ c, coordinates v = Some c ∧ (length (str_split c) < 2)%nat)) →
  GetDAP.get_coord_names vars varname s = Raise UnboundLocalError s.
Proof.
  intros Hv Hd. rewrite get_coord_names_eq, Hv. cbv zeta.
  assert ((c ← coordinates v;
           d0 ← py_index (dimensions v) 0; d1 ← py_index (dimensions v) 1;
           c2 ← py_index (reverse (str_split c)) (-2);
           c1 ← py_index (reverse (str_split c)) (-1);
           Some (Some d0, Some d1, c2, c1)) = None) as ->.
  { destruct (coordinates v) as [c|] eqn:Hc; [|done]. simpl.
    destruct Hd as [Hd|[_ [?|(c' & [= <-] & Hw)]]]; [|done|].
    - destruct (dimensions v) as [|a [|b l]]; simpl in *; [done|done|lia].
    - destruct (py_index (dimensions v) 0); [|done]. simpl.
      destruct (py_index (dimensions v) 1); [|done]. simpl.
      rewrite py_index_short; [done|]. by rewrite length_reverse. }
  simpl.
  destruct (dimensions v) as [|a [|b [|c [|d [|e l]]]]]; simpl in *;
    try done; lia.
Qed.

Lemma get_coord_names_needs_two_to_four_dimensions_witness :
  GetDAP.get_coord_names Sample.meta "station" ()
  = Raise UnboundLocalError ().
Proof.
  apply (get_coord_names_needs_two_to_four_dimensions Sample.meta "station"
           {| dimensions := ["time"]; coordinates := None |} ()).
  - reflexivity.
  - left. simpl. lia.
Defined.

(** X26.  With a [coordinates] attribute of at least two words, on a
    variable of at least two dimensions, the time coordinate is the first
    dimension and the depth coordinate is the second dimension, whatever the
    number of dimensions (for a variable of three dimensions this is its y
    dimension); the horizontal names are the first two words of the
    attribute, or [Longitude] and [Latitude]. *)
Theorem get_coord_names_reads_the_coordinates_attribute {S} vars varname v c
    d0 d1 ds w1 w2 ws (s : S) :
  vars !! varname = Some v →
  dimensions v = d0 :: d1 :: ds →
  coordinates v = Some c →
  str_split c = w1 :: w2 :: ws →
  ∃ xc yc,
    GetDAP.get_coord_names vars varname s = Ok (Some d0, xc, yc, Some d1) s
    ∧ ((xc, yc) = (w1, w2) ∨ (xc, yc) = (w2, w1)
       ∨ (xc, yc) = ("Longitude", "Latitude")).
Proof.
  intros Hv Hd Hc Hw. rewrite get_coord_names_eq, Hv. cbv zeta.
  rewrite Hc, Hd. simpl. rewrite Hw.
  destruct (coordlist_ends w1 w2 ws) as [-> ->]. simpl.
  destruct (str_in "lat" (str_lower w1) || str_in "lon" (str_lower w2)).
  - destruct (bool_decide (w2 = "X") || bool_decide (w1 = "Y"));
      eexists _, _; (split; [reflexivity|]); tauto.
  - destruct (bool_decide (w1 = "X") || bool_decide (w2 = "Y"));
      eexists _, _; (split; [reflexivity|]); tauto.
Qed.

Lemma get_coord_names_reads_the_coordinates_attribute_witness :
  ∃ xc yc,
    GetDAP.get_coord_names Sample.meta "ssh" ()
    = Ok (Some "MT", xc, yc, Some "Y") ()
    ∧ ((xc, yc) = ("Longitude", "Latitude") ∨ (xc, yc) = ("Latitude", "Longitude")
       ∨ (xc, yc) = ("Longitude", "Latitude")).
Proof.
  apply (get_coord_names_reads_the_coordinates_attribute Sample.meta "ssh"
           {| dimensions := ["MT"; "Y"; "X"];
              coordinates := Some "Longitude Latitude Date" |}
           "Longitude Latitude Date" "MT" "Y" ["X"] "Longitude" "Latitude"
           ["Date"] ());
    reflexivity.
Defined.

(** ** The retrieval helpers, beyond the retry on a refused request *)

Section Helpers.
Context (E : env).




End Helpers.


Section Stepwise.
Context (E : env).

Lemma get_step_all_ok {R} (read : nat → option R) t1 t2 fuel recs data w :
  Forall2 (λ k rec, read k = Some rec) (seq t1 (t2 - t1)) recs →
  (∀ j, (j < t2 - t1)%nat → net E (clock w + j)%nat = true) →
  length data = (t2 - t1)%nat →
  GridDAP.get_step E read t2 (S fuel) data t1 w = Ok recs (tick (t2 - t1) w).
Proof.
  intros Hr Hnet Hlen. simpl.
  rewrite (step_loop_all_ok E read _ recs); [| done | | ].
  - rewrite length_seq. simpl.
    rewrite drop_ge, app_nil_r by lia. done.
  - intros j Hj. rewrite length_seq in Hj. by apply Hnet.
  - rewrite length_seq. lia.
Qed.

End Stepwise.

(** X28.  With [graball] off, when every request is answered, the
    step-by-step retrieval of a variable of three or four dimensions
    returns the records [t1 .. t2-1] of the variable cut to the window, in
    order, in one request a record. *)
Theorem stepwise_retrieval_returns_the_window E fuel self varname nc var recs
    t1 t2 w :
  GridDAP.graball (GridDAP.conf self) = false →
  ds_variables nc !! varname = Some var →
  window_records (GridDAP.win self) var = Some recs →
  (∀ j, (j < t2 - t1)%nat → net E (clock w + j)%nat = true) →
  (t1 ≤ t2)%nat → (t2 ≤ length recs)%nat →
  GridDAP.nt (GridDAP.tw self) = Z.of_nat t2 - Z.of_nat t1 →
  0 ≤ GridDAP.ny (GridDAP.win self) → 0 ≤ GridDAP.nx (GridDAP.win self) →
  (∀ z1 z2 nz, GridDAP.zwin (GridDAP.win self) = Some (z1, z2, nz) → 0 ≤ nz) →
  ∃ data self',
    GridDAP.get_data_singlefile E (S fuel) self varname nc t1 t2 w
    = Ok (data, self') (tick (t2 - t1) w)
    ∧ records data = slice t1 t2 recs
    ∧ ndim data = ndim var.
Proof.
  intros Hg Hv Hrecs Hnet Ht Hlen Hnt Hny Hnx Hnz.
  unfold GridDAP.get_data_singlefile. rewrite Hv, lift_Some_bind, Hg, Hnt.
  set (n := (t2 - t1)%nat).
  destruct var as [a|a|a|a]; simpl in Hrecs; [done|done| |].
  - injection Hrecs as <-. rewrite length_fmap in Hlen.
    assert (GridDAP.get_3d_step E (GridDAP.win self) a t2 (S fuel)
              (replicate n (replicate (Z.to_nat (GridDAP.ny (GridDAP.win self)))
                              (replicate (Z.to_nat (GridDAP.nx (GridDAP.win self))) 0)))
              t1 w
            = Ok (GridDAP.sub2 (GridDAP.win self) <$> slice t1 t2 a) (tick n w))
      as Hstep.
    { apply get_step_all_ok; [|done|by rewrite length_replicate].
      apply Forall2_fmap_r. replace t2 with (t1 + n)%nat at 2 by lia.
      eapply Forall2_impl; [apply slice_lookup; lia|].
      intros k x Hk. simpl. by rewrite Hk. }
    eexists _, _. split.
    + erewrite bind_Ok_intro;
        [|erewrite bind_Ok_intro; [|apply try_except_Ok]; [reflexivity|]].
      * reflexivity.
      * rewrite np_zeros3_nonneg by lia. rewrite lift_Some_bind.
        replace (Z.to_nat (Z.of_nat t2 - Z.of_nat t1)) with n by lia.
        by rewrite (bind_Ok_intro _ _ _ _ _ Hstep).
    + split; [|done]. simpl. rewrite slice_fmap.
      by rewrite <- list_fmap_compose.
  - destruct (GridDAP.zwin (GridDAP.win self)) as [[[z1 z2] nz]|] eqn:Hz;
      [|done].
    simpl in Hrecs. injection Hrecs as <-. rewrite length_fmap in Hlen.
    specialize (Hnz z1 z2 nz eq_refl).
    assert (GridDAP.get_4d_step E z1 z2 (GridDAP.win self) a t2 (S fuel)
              (replicate n
                 (replicate (Z.to_nat nz)
                    (replicate (Z.to_nat (GridDAP.ny (GridDAP.win self)))
                       (replicate (Z.to_nat (GridDAP.nx (GridDAP.win self))) 0))))
              t1 w
            = Ok (GridDAP.sub3 z1 z2 (GridDAP.win self) <$> slice t1 t2 a)
                 (tick n w)) as Hstep.
    { apply get_step_all_ok; [|done|by rewrite length_replicate].
      apply Forall2_fmap_r. replace t2 with (t1 + n)%nat at 2 by lia.
      eapply Forall2_impl; [apply slice_lookup; lia|].
      intros k x Hk. simpl. by rewrite Hk. }
    eexists _, _. split.
    + erewrite bind_Ok_intro;
        [|erewrite bind_Ok_intro; [|apply try_except_Ok]; [reflexivity|]].
      * reflexivity.
      * rewrite lift_Some_bind.
        rewrite np_zeros4_nonneg by lia. rewrite lift_Some_bind.
        replace (Z.to_nat (Z.of_nat t2 - Z.of_nat t1)) with n by lia.
        by rewrite (bind_Ok_intro _ _ _ _ _ Hstep).
    + split; [|done]. simpl. rewrite slice_fmap.
      by rewrite <- list_fmap_compose.
Qed.

Lemma stepwise_retrieval_returns_the_window_witness :
  ∃ data self',
    GridDAP.get_data_singlefile Sample.env_ok 1
      (Sample.stepwise (Sample.dap Sample.fileC [] false [0] [0] 1 1 2))
      "temp" Sample.fileC 1 3 Sample.w0
    = Ok (data, self') (tick 2 Sample.w0)
    ∧ records data = [A2 (Sample.cell 301); A2 (Sample.cell 302)]
    ∧ ndim data = 3%nat.
Proof.
  refine (stepwise_retrieval_returns_the_window Sample.env_ok 0
            (Sample.stepwise (Sample.dap Sample.fileC [] false [0] [0] 1 1 2))
            "temp" Sample.fileC
            (A3 [Sample.cell 300; Sample.cell 301; Sample.cell 302])
            [A2 (Sample.cell 300); A2 (Sample.cell 301); A2 (Sample.cell 302)]
            1 3 Sample.w0 _ _ _ _ _ _ _ _ _ _);
    try reflexivity; try (simpl; lia); try discriminate.
Defined.


Section TimeWindow.
Context (E : env).

(** The search of the two bounds of a time range sends no request. *)
Lemma time_bounds_pure (time : list datetime) tr (w0 : world) r :
  (match tr with
   | None => mret (0%nat, length time)
   | Some (a, b) =>
       da ← lift TypeError (GridDAP.as_date a);
       i ← lift ValueError (findNearest E da time);
       db ← lift TypeError (GridDAP.as_date b);
       j ← lift ValueError (findNearest E db time);
       mret (i, j)
   end : M world (nat * nat)) w0 = r →
  match r with Ok _ w3 | Raise _ w3 => w3 = w0 | Diverge => False end.
Proof.
  intros <-. destruct tr as [[a b]|]; [|done]. munfold.
  destruct (GridDAP.as_date a); simpl; [|done].
  destruct (findNearest E _ time); simpl; [|done].
  destruct (GridDAP.as_date b); simpl; [|done].
  by destruct (findNearest E _ time).
Qed.

End TimeWindow.

(** X29.  In multi-file mode the time index is built once: the first
    resolution of a time window builds it, with two requests a file, and
    keeps it; with an index in hand, be it the one just built or one given
    at construction, the resolution of a time window sends no request. *)
Theorem get_time_indices_builds_the_index_once E self trange w self1 w1 :
  GridDAP.multifile (GridDAP.conf self) = true →
  GridDAP.get_time_indices E self trange w = Ok self1 w1 →
  (∃ mf, GridDAP.MF (GridDAP.tw self1) = Some mf
         ∧ GridDAP.time (GridDAP.tw self1) = MFncdap.time mf
         ∧ match GridDAP.MF (GridDAP.tw self) with
           | Some mf0 => mf = mf0 ∧ w1 = w
           | None =>
               MFncdap.init E (GridDAP.ncfiles (GridDAP.conf self))
                 (GridDAP.timecoord (GridDAP.conf self)) w = Ok mf w1
               ∧ w1 = tick (2 * length (GridDAP.ncfiles (GridDAP.conf self))) w
           end)
  ∧ ∀ trange' w2,
      match GridDAP.get_time_indices E self1 trange' w2 with
      | Ok _ w3 | Raise _ w3 => w3 = w2
      | Diverge => False
      end.
Proof.
  intros Hm H.
  unfold GridDAP.get_time_indices in H. rewrite Hm in H. simpl in H.
  apply bind_Ok in H as ([tm mf'] & w2 & Hmf & H).
  apply bind_Ok in Hmf as (mf & w3 & Hmf & Hr). injection Hr as <- <- <-.
  apply bind_Ok in H as ([t1 t2] & w4 & Hw & H).
  pose proof (time_bounds_pure E _ _ _ _ Hw) as Hsame. simpl in Hsame. subst w4.
  injection H as <- <-. simpl. split.
  - exists mf. split; [done|]. split; [done|].
    destruct (GridDAP.MF (GridDAP.tw self)) as [mf0|].
    + by injection Hmf as <- <-.
    + split; [done|]. by apply init_Ok in Hmf as (? & _ & _ & _ & _ & ?).
  - intros trange' w2. unfold GridDAP.get_time_indices. simpl. rewrite Hm. simpl.
    rewrite (bind_Ok_intro (mret mf ≫= _) _ w2 (MFncdap.time mf, Some mf) w2)
      by done.
    cbv beta iota. rewrite bind_unfold.
    match goal with
    | |- context [match ?m w2 with _ => _ end] =>
        pose proof (time_bounds_pure E (MFncdap.time mf) trange' w2 (m w2) eq_refl) as Hs;
        destruct (m w2) as [[i j] w5|e w5|]
    end; [|done|done].
    subst w5. done.
Qed.

Lemma get_time_indices_builds_the_index_once_witness :
  let self := Sample.dap Sample.fileC ["C"; "D"] true [0] [0] 1 1 0 in
  ∃ self1,
    GridDAP.get_time_indices Sample.env_ok self None Sample.w0
    = Ok self1 (tick 4 Sample.w0)
    ∧ GridDAP.MF (GridDAP.tw self1) = Some Sample.mfCD
    ∧ ∀ trange' w2,
        match GridDAP.get_time_indices Sample.env_ok self1 trange' w2 with
        | Ok _ w3 | Raise _ w3 => w3 = w2
        | Diverge => False
        end.
Proof.
  intros self.
  destruct (GridDAP.get_time_indices Sample.env_ok self None Sample.w0)
    as [self1 w1| |] eqn:H; [|by vm_compute in H..].
  assert (w1 = tick 4 Sample.w0) as -> by (vm_compute in H; by injection H).
  assert (GridDAP.MF (GridDAP.tw self1) = Some Sample.mfCD) as Hmf
    by (vm_compute in H; by injection H as <-).
  exists self1. split; [done|]. split; [done|].
  exact (proj2 (get_time_indices_builds_the_index_once Sample.env_ok self None
                  Sample.w0 self1 (tick 4 Sample.w0) eq_refl H)).
Defined.

(** ** Multi-file retrieval of files that follow one another in time *)

Section Concatenation.
Context (E : env) (varname : string).
Hypothesis net_ok : ∀ n, net E n = true.

Lemma np_unique_of_sorted l :
  StronglySorted Z.lt l → foldr MFncdap.insert_unique [] l = l.
Proof.
  induction 1 as [|x r Hs IH Hall]; [done|]. simpl. rewrite IH.
  destruct r as [|y r']; [done|]. simpl.
  apply Forall_cons in Hall as [Hxy _]. by rewrite decide_True.
Qed.

Lemma file_times_functional tv files tss tss' :
  Forall2 (λ f ts, file_times E tv f = Some ts) files tss →
  Forall2 (λ f ts, file_times E tv f = Some ts) files tss' →
  tss' = tss.
Proof.
  intros H. revert tss'. induction H as [|f ts files tss Hf _ IH]; intros tss' H'.
  - by apply Forall2_nil_inv_l in H'.
  - apply Forall2_cons_inv_l in H' as (ts' & tss'' & Hf' & H' & ->).
    rewrite Hf in Hf'. injection Hf' as <-. f_equal. by apply IH.
Qed.

(** When no two timestamps of the files have the same key, every
    timestamp is looked up at its own file and position. *)
Lemma lookup_of_distinct_keys (fts : list (string * list datetime))
    pre f ts post i t :
  fts = pre ++ (f, ts) :: post →
  NoDup (concat fts.*2) →
  (∀ a b, a ∈ concat fts.*2 → b ∈ concat fts.*2 →
          strftime E a = strftime E b → a = b) →
  ts !! i = Some t →
  foldl (λ l ft, MFncdap.record_times E ft.1 0 ft.2 l) ∅ fts !! strftime E t
  = Some (f, i).
Proof.
  intros -> Hnd Hinj Hi.
  rewrite fmap_app, fmap_cons, concat_app in Hnd, Hinj. simpl in Hnd, Hinj.
  assert (t ∈ ts) as Ht by (by eapply list_elem_of_lookup_2).
  apply NoDup_app in Hnd as (_ & _ & Hnd).
  apply NoDup_app in Hnd as (Hts & Hdis & _).
  assert (∀ x, x ∈ ts ++ concat post.*2 →
               x ∈ concat pre.*2 ++ ts ++ concat post.*2) as Hin.
  { intros x Hx. apply elem_of_app. by right. }
  apply record_all_hit; [done| |].
  - intros kk t' Hlt Hkk Hkey.
    assert (t' = t) as ->.
    { apply Hinj; [|by apply Hin, elem_of_app; left|done].
      apply Hin, elem_of_app. left. by eapply list_elem_of_lookup_2. }
    pose proof (NoDup_lookup _ _ _ _ Hts Hi Hkk). lia.
  - intros [g ts'] t' Hg Ht' Hkey. simpl in *.
    assert (t' ∈ concat post.*2) as Hpost.
    { apply elem_of_concat. exists ts'. split; [|done].
      apply list_elem_of_fmap. by exists (g, ts'). }
    assert (t' = t) as ->.
    { apply Hinj; [|by apply Hin, elem_of_app; left|done].
      apply Hin, elem_of_app. by right. }
    by apply (Hdis t).
Qed.

(** The hits of the whole axis: every file in turn, from its first to
    its last record. *)
Lemma hits_of_distinct_keys (fts : list (string * list datetime)) lk :
  lk = foldl (λ l ft, MFncdap.record_times E ft.1 0 ft.2 l) ∅ fts →
  NoDup (concat fts.*2) →
  (∀ a b, a ∈ concat fts.*2 → b ∈ concat fts.*2 →
          strftime E a = strftime E b → a = b) →
  mapM (λ tm, lk !! strftime E tm) (concat fts.*2)
  = Some (((λ ft : string * list datetime, (ft.1, 0%nat, length ft.2)) <$> fts)
            ≫= block_hits).
Proof.
  intros -> Hnd Hinj. apply mapM_Some.
  assert (∀ rest pre, fts = pre ++ rest →
    Forall2 (λ tm h,
               foldl (λ l ft, MFncdap.record_times E ft.1 0 ft.2 l) ∅ fts
                 !! strftime E tm = Some h)
      (concat rest.*2)
      (((λ ft : string * list datetime, (ft.1, 0%nat, length ft.2)) <$> rest)
         ≫= block_hits)) as H; [|by apply (H fts [])].
  induction rest as [|[f ts] rest IH]; intros pre Hfts; [constructor|].
  rewrite !fmap_cons.
  change (concat (ts :: rest.*2)) with (ts ++ concat rest.*2).
  change ((?b :: ?r) ≫= block_hits) with (block_hits b ++ (r ≫= block_hits)).
  apply Forall2_app.
  - simpl. apply Forall2_fmap_r. apply Forall2_same_length_lookup_2.
    { by rewrite length_seq. }
    intros i t j Hi Hj. apply lookup_seq in Hj as [-> _]. simpl.
    by apply (lookup_of_distinct_keys fts pre f ts rest).
  - apply (IH (pre ++ [(f, ts)])). by rewrite <- app_assoc.
Qed.

(** Every file, from its first to its last record, is a block. *)
Lemma whole_files_are_blocks win files : ∀ tss (arrs : list (list (list (list Z)))) n,
  Forall2 (λ f a, ∃ nc, remote E !! f = Some nc
                        ∧ ds_variables nc !! varname = Some (A3 a)) files arrs →
  length files = length tss →
  Forall (λ ts : list datetime, length ts = n) tss →
  Forall (λ a, length a = n) arrs →
  Forall2 (block_rows E win 3 varname)
    ((λ ft : string * list datetime, (ft.1, 0%nat, length ft.2))
       <$> zip files tss)
    ((λ a : list (list (list Z)), A2 ∘ GridDAP.sub2 win <$> a) <$> arrs).
Proof.
  induction files as [|f files IH]; intros tss arrs n Hv Hlen Hlt Hla.
  - apply Forall2_nil_inv_l in Hv as ->. constructor.
  - destruct tss as [|ts tss]; [done|].
    apply Forall2_cons_inv_l in Hv as (a & arrs' & (nc & Hr & Hv0) & Hv & ->).
    apply Forall_cons in Hlt as [Hl1 Hlt]. apply Forall_cons in Hla as [Hl2 Hla].
    simpl. constructor; [|apply (IH _ _ n); auto].
    exists nc, (A3 a), (A2 ∘ GridDAP.sub2 win <$> a). simpl.
    split; [done|]. split; [done|]. split; [done|]. split; [done|].
    rewrite length_fmap. split; [lia|].
    unfold slice. by rewrite drop_0, Nat.sub_0_r, firstn_all2
      by (rewrite length_fmap; lia).
Qed.

End Concatenation.

(** X30.  Multi-file retrieval of the whole time axis.  When the files
    follow one another in time (their time axes, put end to end in the
    order of the file list, are strictly increasing), hold the same number
    of records, at least one, and no two of their timestamps format to the
    same key, and when every request is answered, [get_data] without time
    range builds the index and returns, in the order of the file list, the
    records of every file cut to the window. *)
Theorem multifile_retrieval_concatenates_the_files E varname fuel self files
    tss (arrs : list (list (list (list Z)))) n xr yr self1 w :
  (∀ k, net E k = true) →
  GridDAP.multifile (GridDAP.conf self) = true →
  GridDAP.graball (GridDAP.conf self) = true →
  GridDAP.MF (GridDAP.tw self) = None →
  GridDAP.zcoord (GridDAP.conf self) = None →
  GridDAP.ncfiles (GridDAP.conf self) = files →
  files ≠ [] → NoDup files →
  GridDAP.get_indices self xr yr None w = Ok self1 w →
  0 ≤ GridDAP.nx (GridDAP.win self1) → 0 ≤ GridDAP.ny (GridDAP.win self1) →
  Forall2 (λ f ts, file_times E (GridDAP.timecoord (GridDAP.conf self)) f = Some ts)
    files tss →
  Forall2 (λ f a, ∃ nc, remote E !! f = Some nc
                        ∧ ds_variables nc !! varname = Some (A3 a)) files arrs →
  (1 ≤ n)%nat →
  Forall (λ ts, length ts = n) tss → Forall (λ a, length a = n) arrs →
  StronglySorted Z.lt (concat tss) →
  (∀ a b, a ∈ concat tss → b ∈ concat tss → strftime E a = strftime E b → a = b) →
  ∃ data self' w',
    GridDAP.get_data E (S fuel) self varname xr yr None None w
    = Ok (data, self') w'
    ∧ records data
      = concat ((λ a : list (list (list Z)),
                   A2 ∘ GridDAP.sub2 (GridDAP.win self1) <$> a) <$> arrs).
Proof.
  intros net_ok Hm Hg Hmf Hzc Hfiles Hne Hnd Hi Hnx Hny Hf Hv Hn Hlt Hla Hs Hinj.
  pose proof Hi as (x1 & x2 & y1 & y2 & zw & _ & _ & Hself1)%get_indices_Ok.
  set (tc := GridDAP.timecoord (GridDAP.conf self)) in *.
  (* the index *)
  destruct (init_returns E files tc tss w net_ok Hf) as (mf & w1 & Hinit).
  { intros ts ts' Hts Hts'. eapply Forall_forall in Hts, Hts'; [|done..].
    congruence. }
  pose proof Hinit as (tss' & Hf' & _ & Hlk & Htime & _)%init_Ok.
  pose proof (file_times_functional E tc files tss tss' Hf Hf') as ->.
  assert (MFncdap.time mf = concat tss) as Htm.
  { rewrite Htime. by apply np_unique_of_sorted. }
  assert (length files = length tss) as Hlen by (by eapply Forall2_length).
  assert (1 ≤ length (concat tss))%nat as Hpos.
  { destruct files as [|f0 files0]; [done|]. destruct tss as [|ts0 tss0]; [done|].
    apply Forall_cons in Hlt as [Hl0 _]. simpl. rewrite length_app. lia. }
  (* the time window *)
  set (twin := {| GridDAP.MF := Some mf; GridDAP.time := concat tss;
                  GridDAP.t1 := 0; GridDAP.t2 := length (concat tss);
                  GridDAP.nt := Z.of_nat (length (concat tss)) - Z.of_nat 0 |}).
  assert (GridDAP.get_time_indices E self1 None w
          = Ok (GridDAP.with_tw self1 twin) w1) as Hti.
  { unfold GridDAP.get_time_indices. rewrite Hself1. simpl. rewrite Hm. simpl.
    rewrite Hmf, Hfiles. fold tc.
    erewrite bind_Ok_intro; [|erewrite bind_Ok_intro; [|exact Hinit]; reflexivity].
    cbv beta iota. rewrite ret_bind. cbv beta iota.
    rewrite Htm. unfold mret, M_ret, ret. do 2 f_equal. unfold twin.
    rewrite decide_False by lia. done. }
  unfold GridDAP.get_data.
  rewrite (bind_Ok_intro _ _ _ _ _ Hi), (bind_Ok_intro _ _ _ _ _ Hti).
  cbv zeta. set (self3 := GridDAP.with_loc (GridDAP.with_tw self1 twin) _).
  assert (GridDAP.multifile (GridDAP.conf self3) = true) as ->
    by (unfold self3; simpl; by rewrite Hself1).
  change (negb true) with false. cbv iota.
  assert (GridDAP.localtime (GridDAP.loc self3) = concat tss) as Hloc.
  { unfold self3. simpl. unfold slice. by rewrite drop_0, Nat.sub_0_r, firstn_all. }
  (* the blocks *)
  set (fts := zip files tss).
  assert (fts.*2 = tss) as Hfts2 by (apply snd_zip; lia).
  assert (fts.*1 = files) as Hfts1 by (apply fst_zip; lia).
  set (blocks := (λ ft : string * list datetime, (ft.1, 0%nat, length ft.2)) <$> fts).
  assert (mapM (λ tm, MFncdap.timelookup mf !! strftime E tm) (concat tss)
          = Some (blocks ≫= block_hits)) as Hhits.
  { rewrite <- Hfts2. apply (hits_of_distinct_keys E fts); [done| |].
    - rewrite Hfts2. by apply sorted_lt_NoDup.
    - by rewrite Hfts2. }
  assert (blocks.*1.*1 = files) as Hb1.
  { unfold blocks. rewrite <- !list_fmap_compose. rewrite <- Hfts1.
    by apply list_fmap_ext. }
  assert (Forall (λ b : block, (1 ≤ b.2)%nat) blocks) as Hb2.
  { unfold blocks. apply Forall_fmap, Forall_forall. intros [f ts] Hin. simpl.
    assert (ts ∈ tss) as Hts.
    { rewrite <- Hfts2. apply list_elem_of_fmap. by exists (f, ts). }
    eapply Forall_forall in Hlt; [|done]. lia. }
  set (chunks := (λ a : list (list (list Z)),
                    A2 ∘ GridDAP.sub2 (GridDAP.win self1) <$> a) <$> arrs).
  assert (Forall2 (block_rows E (GridDAP.win self3) 3 varname) blocks chunks)
    as Hrows.
  { unfold blocks, chunks, fts.
    replace (GridDAP.win self3) with (GridDAP.win self1) by done.
    by apply (whole_files_are_blocks E varname _ files tss arrs n). }
  (* the retrieval *)
  destruct (multifile_zeros self3 (length (concat tss))) as (data0 & Hzeros & Hlen0 & Hnd0).
  { unfold self3. simpl. lia. }
  { exact Hny. }
  { exact Hnx. }
  { intros zc Hz. change (GridDAP.zcoord (GridDAP.conf self1) = Some zc) in Hz.
    rewrite Hself1 in Hz. simpl in Hz. congruence. }
  assert (session_ndim self3 = 3%nat) as Hsn.
  { change (session_ndim self3) with (session_ndim self1).
    unfold session_ndim. rewrite Hself1. simpl. by rewrite Hzc. }
  unfold GridDAP.get_data_multifile. rewrite Hzeros.
  assert (GridDAP.MF (GridDAP.tw self3) = Some mf) as -> by done.
  rewrite Hloc, lift_Some_bind.
  destruct (call_blocks E mf (concat tss) blocks Hhits) as (tind & fname & ->);
    [by rewrite Hb1|done|].
  rewrite lift_Some_bind.
  assert (sum_list (blocks.*2) = length (concat tss)) as Hsum.
  { rewrite <- sum_hits_length. apply length_mapM in Hhits. lia. }
  destruct (fill_from_files_blocks E varname net_ok fuel 3 blocks chunks []
              (records data0) data0 self3 w1 Hrows Hb2)
    as (data & self' & w' & Hfill & Hrec); [|done|congruence|lia|lia|].
  { change (GridDAP.graball (GridDAP.conf self1) = true).
    by rewrite Hself1. }
  exists data, self', w'. split; [exact Hfill|].
  rewrite Hrec. simpl. by rewrite drop_ge, app_nil_r by lia.
Qed.

Lemma multifile_retrieval_concatenates_the_files_witness :
  ∃ data self' w',
    GridDAP.get_data Sample.env_ok 1
      (Sample.dap Sample.fileC ["C"; "B"] true [0] [0] 0 0 0)
      "temp" None None None None Sample.w0
    = Ok (data, self') w'
    ∧ records data = A2 ∘ Sample.cell <$> [300; 301; 302; 200; 201; 202].
Proof.
  destruct (multifile_retrieval_concatenates_the_files Sample.env_ok "temp" 0
              (Sample.dap Sample.fileC ["C"; "B"] true [0] [0] 0 0 0)
              ["C"; "B"] [[0; 10; 20]; [30; 40; 50]]
              [Sample.cell <$> [300; 301; 302]; Sample.cell <$> [200; 201; 202]]
              3 None None
              (GridDAP.with_win
                 (Sample.dap Sample.fileC ["C"; "B"] true [0] [0] 0 0 0)
                 (Sample.window0 1 1))
              Sample.w0)
    as (data & self' & w' & H & Hrec).
  - intros k. reflexivity.
  - reflexivity.
  - reflexivity.
  - reflexivity.
  - reflexivity.
  - reflexivity.
  - discriminate.
  - apply (bool_decide_unpack _). vm_compute. exact I.
  - reflexivity.
  - simpl. lia.
  - simpl. lia.
  - repeat constructor.
  - constructor; [by exists Sample.fileC|].
    constructor; [by exists Sample.fileB|constructor].
  - lia.
  - repeat constructor.
  - repeat constructor.
  - repeat (constructor; [|repeat constructor; lia]). constructor.
  - intros a b _ _. apply (inj pretty).
  - exists data, self', w'. split; [exact H|]. rewrite Hrec. reflexivity.
Defined.
